(** * Asynchronous dataset collection: the Zillow collectors

    A shallow embedding of the collector classes of
    [zillow_api_scraper/zillow_discovered_properties.py] and
    [zillow_api_scraper/zillow_properties.py], and the properties of
    the submit / poll / fetch / persist workflow proved about them.

    Python values are embedded as data ([json]), exceptions as an
    inductive type, and every method as a computation in a state and
    exception monad over a [world] that holds the file system and the
    chronological trace of the side effects performed so far.  The
    remote service, the clock and the faults of the file system are an
    [env] of oracles, indexed by how often each has been consulted. *)

From stdpp Require Import base gmap strings list pretty.
From Stdlib Require Import ZArith Lia Ascii.

#[local] Set Warnings "-register-all".

Local Open Scope string_scope.
Local Open Scope list_scope.
Local Open Scope Z_scope.

(** ** Python strings

    A [string] is read as a sequence of code points below 256. *)

(** [str.isspace] on one code point: TAB..CR, FS..US, SPACE, NEL, NBSP. *)
Definition isspace (c : ascii) : bool :=
  let n := N_of_ascii c in
  ((9 <=? n) && (n <=? 13) || (28 <=? n) && (n <=? 32)
   || (n =? 133) || (n =? 160))%N.

Fixpoint lstrip (s : string) : string :=
  match s with
  | EmptyString => EmptyString
  | String c r => if isspace c then lstrip r else s
  end.

Fixpoint rstrip (s : string) : string :=
  match s with
  | EmptyString => EmptyString
  | String c r =>
      match rstrip r with
      | EmptyString => if isspace c then EmptyString else String c EmptyString
      | r' => String c r'
      end
  end.

(** [s.strip()] *)
Definition strip (s : string) : string := rstrip (lstrip s).

(** Truth value of a [str]: non-empty. *)
Definition str_truthy (s : string) : bool :=
  match s with EmptyString => false | String _ _ => true end.

Fixpoint all_space (s : string) : bool :=
  match s with
  | EmptyString => true
  | String c r => isspace c && all_space r
  end.

(** [needle in s] on strings. *)
Fixpoint str_contains (needle s : string) : bool :=
  String.prefix needle s
  || match s with
     | EmptyString => false
     | String _ r => str_contains needle r
     end.

(** ** Values decoded from JSON

    What [response.json()] returns; [JNull] is Python's [None].
    Numbers are the integer ones. *)

Inductive json : Type :=
| JNull
| JBool (b : bool)
| JInt (n : Z)
| JStr (s : string)
| JArr (l : list json)
| JObj (m : list (string * json)).

(** Truth value ([if x], [not x]). *)
Definition truthy (j : json) : bool :=
  match j with
  | JNull => false
  | JBool b => b
  | JInt n => negb (n =? 0)
  | JStr s => str_truthy s
  | JArr l => match l with [] => false | _ => true end
  | JObj m => match m with [] => false | _ => true end
  end.

Fixpoint obj_lookup (k : string) (m : list (string * json)) : option json :=
  match m with
  | [] => None
  | (k', v) :: r => if String.eqb k k' then Some v else obj_lookup k r
  end.

(** [bool] is a subclass of [int]: [True == 1]. *)
Definition as_int (j : json) : option Z :=
  match j with
  | JBool b => Some (if b then 1 else 0)
  | JInt n => Some n
  | _ => None
  end.

(** [a == b]; dictionaries compare without regard to order. *)
Fixpoint py_eq (a b : json) : bool :=
  match a, b with
  | JNull, JNull => true
  | JStr s, JStr t => String.eqb s t
  | JArr l, JArr l' =>
      (fix go (l l' : list json) : bool :=
         match l, l' with
         | [], [] => true
         | x :: xs, y :: ys => py_eq x y && go xs ys
         | _, _ => false
         end) l l'
  | JObj m, JObj m' =>
      (length m =? length m')%nat
      && (fix go (m : list (string * json)) : bool :=
            match m with
            | [] => true
            | (k, v) :: r =>
                match obj_lookup k m' with
                | Some v' => py_eq v v'
                | None => false
                end && go r
            end) m
  | _, _ =>
      match as_int a, as_int b with
      | Some x, Some y => x =? y
      | _, _ => false
      end
  end.

(** [x in [s1, s2, ...]] for a list of string literals. *)
Definition in_strs (x : json) (l : list string) : bool :=
  existsb (fun s => py_eq x (JStr s)) l.

(** Keys a [dict] accepts: lists and dictionaries are unhashable. *)
Definition hashable (j : json) : bool :=
  match j with
  | JArr _ | JObj _ => false
  | _ => true
  end.

(** ** Exceptions

    The instances of [Exception] the code distinguishes by class. *)

Inductive exception : Type :=
| HTTPError (status_code : Z) (text : string)
| RequestException (name : string)
| OSError (msg : string)
| JSONDecodeError (msg : string)
| TypeError (msg : string)
| AttributeError (msg : string)
| KeyError (msg : string)
| OtherException (name : string).

(** [isinstance(e, requests.exceptions.RequestException)] *)
Definition is_RequestException (e : exception) : bool :=
  match e with
  | HTTPError _ _ | RequestException _ => true
  | _ => false
  end.

(** [isinstance(e, (IOError, OSError, json.JSONDecodeError))];
    [RequestException] derives from [IOError]. *)
Definition is_save_error (e : exception) : bool :=
  match e with
  | HTTPError _ _ | RequestException _ | OSError _ | JSONDecodeError _ => true
  | _ => false
  end.

(** ** Side effects *)

Inductive level : Type := DEBUG | INFO | WARNING | ERROR.

(** A formatted log line: literal text and interpolated values. *)
Inductive piece : Type :=
| Lit (s : string)
| IntV (n : Z)
| StrV (s : string)
| JsonV (j : json)
| ExcV (e : exception).

Inductive event : Type :=
| EvPost (body : list (gmap string string))
| EvProgress (snapshot_id : json)
| EvSnapshot (snapshot_id : json)
| EvSleep (secs : Z)
| EvNow
| EvLog (lvl : level) (msg : list piece)
| EvRename (src dst : string)
| EvOpenW (path : string).

Definition is_post (e : event) : bool :=
  match e with EvPost _ => true | _ => false end.
Definition is_progress (e : event) : bool :=
  match e with EvProgress _ => true | _ => false end.
Definition is_snapshot (e : event) : bool :=
  match e with EvSnapshot _ => true | _ => false end.
Definition is_now (e : event) : bool :=
  match e with EvNow => true | _ => false end.
Definition is_rename (e : event) : bool :=
  match e with EvRename _ _ => true | _ => false end.
Definition is_openw (e : event) : bool :=
  match e with EvOpenW _ => true | _ => false end.
Definition is_sleep (e : event) : bool :=
  match e with EvSleep _ => true | _ => false end.
Definition is_network (e : event) : bool :=
  is_post e || is_progress e || is_snapshot e.
Definition is_warning (e : event) : bool :=
  match e with EvLog WARNING _ => true | _ => false end.

Definition count (p : event -> bool) (tr : list event) : nat :=
  length (List.filter p tr).

(** The durations slept, in order. *)
Fixpoint sleeps (tr : list event) : list Z :=
  match tr with
  | [] => []
  | EvSleep s :: r => s :: sleeps r
  | _ :: r => sleeps r
  end.

(** ** The environment *)

Record response : Type := {
  status_code : Z;
  text : string;
  (* what [response.json()] does: raise, or return the decoded body *)
  body : exception + json
}.

(** A [requests] call raises or returns a response. *)
Inductive reply : Type :=
| Fails (e : exception)
| Responds (r : response).

(** What [open(filename, "w")] followed by [json.dump] does. *)
Inductive write_outcome : Type :=
| WriteOk
| OpenFails (e : exception)
| DumpFails (e : exception) (written : nat).

Record env : Type := {
  post_reply : nat -> reply;
  progress_reply : nat -> reply;
  snapshot_reply : nat -> reply;
  (* [datetime.now()], in microseconds *)
  now : nat -> Z;
  (* [strftime("%Y%m%d_%H%M%S")] *)
  strftime : Z -> string;
  rename_fault : nat -> option exception;
  write_result : nat -> write_outcome;
  (* [json.dump(data, f, indent=2, ensure_ascii=False)] *)
  dumps : json -> string
}.

Record world : Type := {
  fs : gmap string string;
  trace : list event
}.

(** The world after the effects [evs] that leave the files alone. *)
Definition extend (w : world) (evs : list event) : world :=
  {| fs := fs w; trace := trace w ++ evs |}.

Definition posts (w : world) : nat := count is_post (trace w).
Definition polls (w : world) : nat := count is_progress (trace w).
Definition fetches (w : world) : nat := count is_snapshot (trace w).
Definition writes (w : world) : nat := count is_openw (trace w).
Definition renames (w : world) : nat := count is_rename (trace w).

(** ** The monad of method bodies *)

Inductive result (A : Type) : Type :=
| Ret (a : A)
| Raise (e : exception)
| Pending.
Arguments Ret {A} a.
Arguments Raise {A} e.
Arguments Pending {A}.

Definition M (A : Type) : Type := world -> result A * world.

#[export] Instance M_ret : MRet M := fun A a w => (Ret a, w).

#[export] Instance M_bind : MBind M := fun A B f m w =>
  match m w with
  | (Ret a, w') => f a w'
  | (Raise e, w') => (Raise e, w')
  | (Pending, w') => (Pending, w')
  end.

Definition raise {A : Type} (e : exception) : M A := fun w => (Raise e, w).

(** The loop has not left yet. *)
Definition pending {A : Type} : M A := fun w => (Pending, w).

(** [try: m  except Exception as e: h e] *)
Definition try_except {A : Type} (m : M A) (h : exception -> M A) : M A :=
  fun w =>
    match m w with
    | (Raise e, w') => h e w'
    | r => r
    end.

Definition emit (e : event) : M unit :=
  fun w => (Ret tt, extend w [e]).

Definition logging (lvl : level) (msg : list piece) : M unit :=
  emit (EvLog lvl msg).

Definition time_sleep (secs : Z) : M unit := emit (EvSleep secs).

Definition when (b : bool) (m : M unit) : M unit :=
  if b then m else mret tt.

(** How a loop body ends: go round again, or [return]. *)
Inductive control (S R : Type) : Type :=
| Next (s : S)
| Done (r : R).
Arguments Next {S R} s.
Arguments Done {S R} r.

(** [for a in l: body a] followed by [after]. *)
Fixpoint for_each {A R : Type} (body : A -> M (control unit R))
    (l : list A) (after : M R) : M R :=
  match l with
  | [] => after
  | a :: l' =>
      c ← body a;
      match c with
      | Done r => mret r
      | Next _ => for_each body l' after
      end
  end.

(** [while True: body], cut after [fuel] iterations. *)
Fixpoint while_true {S R : Type} (fuel : nat)
    (body : S -> M (control S R)) (s : S) : M R :=
  match fuel with
  | O => pending
  | Datatypes.S fuel' =>
      c ← body s;
      match c with
      | Done r => mret r
      | Next s' => while_true fuel' body s'
      end
  end.

Definition get_world : M world := fun w => (Ret w, w).

Definition modify_fs (f : gmap string string -> gmap string string) : M unit :=
  fun w => (Ret tt, {| fs := f (fs w); trace := trace w |}).

(** ** Operations on decoded values that may raise *)

(** [k in x] *)
Definition py_contains (k : string) (x : json) : M bool :=
  match x with
  | JObj m => mret (bool_decide (is_Some (obj_lookup k m)))
  | JArr l => mret (existsb (py_eq (JStr k)) l)
  | JStr s => mret (str_contains k s)
  | _ => raise (TypeError "argument is not iterable")
  end.

(** [x[k]] for a string [k] *)
Definition py_getitem (x : json) (k : string) : M json :=
  match x with
  | JObj m =>
      match obj_lookup k m with
      | Some v => mret v
      | None => raise (KeyError k)
      end
  | JArr _ | JStr _ => raise (TypeError "indices must be integers")
  | _ => raise (TypeError "object is not subscriptable")
  end.

(** [x.get(k, default)] *)
Definition py_get (x : json) (k : string) (default : json) : M json :=
  match x with
  | JObj m => mret (from_option id default (obj_lookup k m))
  | _ => raise (AttributeError "get")
  end.

(** A [dict] from statuses to counters. *)
Fixpoint counts_lookup (k : json) (d : list (json * Z)) : option Z :=
  match d with
  | [] => None
  | (k', v) :: r => if py_eq k k' then Some v else counts_lookup k r
  end.

Fixpoint counts_insert (k : json) (v : Z) (d : list (json * Z))
    : list (json * Z) :=
  match d with
  | [] => [(k, v)]
  | (k', v') :: r =>
      if py_eq k k' then (k', v) :: r else (k', v') :: counts_insert k v r
  end.

(** [d.get(k, default)] *)
Definition dict_get (d : list (json * Z)) (k : json) (default : Z) : M Z :=
  if hashable k then mret (from_option id default (counts_lookup k d))
  else raise (TypeError "unhashable type").

(** [d[k] = v] *)
Definition dict_set (d : list (json * Z)) (k : json) (v : Z)
    : M (list (json * Z)) :=
  if hashable k then mret (counts_insert k v d)
  else raise (TypeError "unhashable type").

(** ** The library calls *)

Section Library.
Variable E : env.

(** [requests.post(f"{API_BASE_URL}/trigger", ..., json=body)] *)
Definition requests_post (body : list (gmap string string)) : M response :=
  w ← get_world;
  emit (EvPost body);;
  match post_reply E (posts w) with
  | Fails e => raise e
  | Responds r => mret r
  end.

(** [requests.get(f"{API_BASE_URL}/progress/{snapshot_id}", ...)] *)
Definition requests_get_progress (snapshot_id : json) : M response :=
  w ← get_world;
  emit (EvProgress snapshot_id);;
  match progress_reply E (polls w) with
  | Fails e => raise e
  | Responds r => mret r
  end.

(** [requests.get(f"{API_BASE_URL}/snapshot/{snapshot_id}", ...)] *)
Definition requests_get_snapshot (snapshot_id : json) : M response :=
  w ← get_world;
  emit (EvSnapshot snapshot_id);;
  match snapshot_reply E (fetches w) with
  | Fails e => raise e
  | Responds r => mret r
  end.

(** [response.raise_for_status()] *)
Definition raise_for_status (r : response) : M unit :=
  if (400 <=? status_code r) && (status_code r <? 600)
  then raise (HTTPError (status_code r) (text r))
  else mret tt.

(** [response.json()] *)
Definition response_json (r : response) : M json :=
  match body r with
  | inl e => raise e
  | inr j => mret j
  end.

(** [datetime.now()] *)
Definition datetime_now : M Z :=
  w ← get_world;
  emit EvNow;;
  mret (now E (count is_now (trace w))).

(** [(t - t0).seconds] *)
Definition timedelta_seconds (t t0 : Z) : Z :=
  ((t - t0) `div` 1000000) `mod` 86400.

(** [os.path.exists(path)] *)
Definition os_path_exists (path : string) : M bool :=
  w ← get_world;
  mret (bool_decide (is_Some (fs w !! path))).

(** [os.rename(src, dst)] *)
Definition os_rename (src dst : string) : M unit :=
  w ← get_world;
  emit (EvRename src dst);;
  match rename_fault E (renames w) with
  | Some e => raise e
  | None =>
      match fs w !! src with
      | None => raise (OSError "FileNotFoundError")
      | Some content => modify_fs (fun m => <[dst := content]> (delete src m))
      end
  end.

(** [with open(path, "w", encoding="utf-8") as f:
        json.dump(data, f, indent=2, ensure_ascii=False)] *)
Definition write_json (path : string) (data : json) : M unit :=
  w ← get_world;
  emit (EvOpenW path);;
  match write_result E (writes w) with
  | WriteOk => modify_fs (fun m => <[path := dumps E data]> m)
  | OpenFails e => raise e
  | DumpFails e written =>
      modify_fs (fun m => <[path := String.substring 0 written (dumps E data)]> m);;
      raise e
  end.
End Library.

(** ** [ZillowDiscoverPropertiesCollector]
    (zillow_discovered_properties.py) *)

Module Discover.

(** [v and v.strip()] *)
Definition keep_value (v : string) : bool :=
  str_truthy v && str_truthy (strip v).

(** [clean_filter.get("location")] as a condition *)
Definition has_location (clean_filter : gmap string string) : bool :=
  match clean_filter !! "location" with
  | Some v => str_truthy v
  | None => false
  end.

Fixpoint _clean_filters (filters : list (gmap string string))
    : list (gmap string string) :=
  match filters with
  | [] => []
  | f :: rest =>
      let clean_filter :=
        filter (fun kv : string * string => Is_true (keep_value kv.2)) f in
      if has_location clean_filter
      then clean_filter :: _clean_filters rest
      else _clean_filters rest
  end.

Section Collector.
Variable E : env.

(** One round of [for attempt in range(3)]. *)
Definition trigger_attempt (filters : list (gmap string string))
    (attempt : Z) : M (control unit json) :=
  try_except
    (response ← requests_post E filters;
     raise_for_status response;;
     j ← response_json response;
     mret (Done j))
    (fun e =>
       match e with
       | HTTPError code txt =>
           if code =? 429 then
             let wait := 2 ^ (attempt + 1) in
             logging WARNING
               [Lit "Rate limited. Retrying in "; IntV wait;
                Lit " seconds..."];;
             time_sleep wait;;
             mret (Next tt)
           else
             logging ERROR
               [Lit "HTTP error: "; IntV code; Lit " - "; StrV txt];;
             mret (Done JNull)
       | RequestException _ =>
           logging ERROR [Lit "Request failed: "; ExcV e];;
           if attempt =? 2 then mret (Done JNull)
           else time_sleep 1;; mret (Next tt)
       | _ => raise e
       end).

Definition _trigger_collection (filters : list (gmap string string))
    : M json :=
  for_each (trigger_attempt filters) [0; 1; 2] (mret JNull).

Definition _check_status (snapshot_id : json) : M json :=
  try_except
    (response ← requests_get_progress E snapshot_id;
     raise_for_status response;;
     j ← response_json response;
     py_get j "status" (JStr "unknown"))
    (fun e =>
       if is_RequestException e then mret (JStr "error") else raise e).

Definition _fetch_data (snapshot_id : json) : M json :=
  try_except
    (response ← requests_get_snapshot E snapshot_id;
     raise_for_status response;;
     response_json response)
    (fun e =>
       if is_RequestException e then
         logging ERROR [Lit "Failed to fetch data: "; ExcV e];;
         mret JNull
       else raise e).

(** One round of the [while True] of [_monitor_collection]; the
    state is [(last_status, status_counts)]. *)
Definition monitor_step (snapshot_id : json) (start_time : Z)
    (st : json * list (json * Z))
    : M (control (json * list (json * Z)) json) :=
  status ← _check_status snapshot_id;
  st' ← (if negb (py_eq status st.1) then
           logging INFO [Lit "Status changed to "; JsonV status];;
           counts ← dict_set st.2 status 1;
           mret (status, counts)
         else
           n ← dict_get st.2 status 0;
           counts ← dict_set st.2 status (n + 1);
           mret (st.1, counts));
  t ← datetime_now E;
  let elapsed := timedelta_seconds t start_time in
  if py_eq status (JStr "ready") then
    logging INFO
      [Lit "Collection completed in "; IntV elapsed; Lit " seconds"];;
    data ← _fetch_data snapshot_id;
    mret (Done data)
  else if in_strs status ["failed"; "error"] then
    logging ERROR
      [Lit "Collection failed after "; IntV elapsed; Lit " seconds"];;
    mret (Done JNull)
  else
    when (elapsed `mod` 30 =? 0)
      (logging INFO
         [Lit "Still processing... Elapsed: "; IntV elapsed;
          Lit "s | Current status: "; JsonV status]);;
    time_sleep 5;;
    mret (Next st').

Definition _monitor_collection (fuel : nat) (snapshot_id : json)
    (start_time : Z) : M json :=
  while_true fuel (monitor_step snapshot_id start_time) (JNull, []).

Definition _save_data (data : json) (filename : string) (backup : bool)
    : M unit :=
  try_except
    (present ← (if backup then os_path_exists filename else mret false);
     when present
       (t ← datetime_now E;
        let timestamp := strftime E t in
        let backup_name := filename +:+ ".bak_" +:+ timestamp in
        os_rename E filename backup_name;;
        logging INFO [Lit "Created backup: "; StrV backup_name]);;
     write_json E filename data)
    (fun e =>
       if is_save_error e then
         logging ERROR [Lit "Failed to save data: "; ExcV e];;
         raise e
       else raise e).
End Collector.

(** [collect_properties] over the four methods it calls on [self]. *)
Section Workflow.
Variable E : env.
Variable clean :
  list (gmap string string) -> M (list (gmap string string)).
Variable trigger : list (gmap string string) -> M json.
Variable monitor : json -> Z -> M json.
Variable save : json -> string -> M unit.

Definition collect_properties_with (filters : list (gmap string string))
    (output_file : string) : M bool :=
  start_time ← datetime_now E;
  try_except
    (cleaned_filters ← clean filters;
     match cleaned_filters with
     | [] =>
         logging ERROR [Lit "No valid filters provided after cleaning"];;
         mret false
     | _ :: _ =>
         logging INFO
           [Lit "Starting property discovery for ";
            IntV (Z.of_nat (length cleaned_filters)); Lit " filters"];;
         collection_response ← trigger cleaned_filters;
         missing ← (if negb (truthy collection_response) then mret true
                    else present ← py_contains "snapshot_id"
                                     collection_response;
                         mret (negb present));
         if (missing : bool) then
           logging ERROR [Lit "Failed to initiate property discovery"];;
           mret false
         else
           snapshot_id ← py_getitem collection_response "snapshot_id";
           logging DEBUG [Lit "Received snapshot ID: "; JsonV snapshot_id];;
           properties_data ← monitor snapshot_id start_time;
           if negb (truthy properties_data) then mret false
           else
             save properties_data output_file;;
             logging INFO
               [Lit "Data successfully saved to "; StrV output_file];;
             mret true
     end)
    (fun e =>
       logging ERROR
         [Lit "Unexpected error during collection: "; ExcV e];;
       mret false).
End Workflow.

Definition collect_properties (E : env) (fuel : nat)
    (filters : list (gmap string string)) (output_file : string) : M bool :=
  collect_properties_with E
    (fun fs => mret (_clean_filters fs))
    (_trigger_collection E)
    (_monitor_collection E fuel)
    (fun data filename => _save_data E data filename true)
    filters output_file.

End Discover.

(** ** [ZillowPropertiesCollector] (zillow_properties.py) *)

Module Properties.

Section Collector.
Variable E : env.

Definition _trigger_collection (property_urls : list (gmap string string))
    : M json :=
  try_except
    (response ← requests_post E property_urls;
     raise_for_status response;;
     response_json response)
    (fun e =>
       if is_RequestException e then
         logging ERROR
           [Lit "API error during collection trigger: "; ExcV e];;
         mret JNull
       else raise e).

Definition _check_status (snapshot_id : json) : M json :=
  try_except
    (response ← requests_get_progress E snapshot_id;
     raise_for_status response;;
     j ← response_json response;
     py_get j "status" JNull)
    (fun e =>
       if is_RequestException e then
         logging ERROR [Lit "API error during status check: "; ExcV e];;
         mret (JStr "error")
       else raise e).

Definition _fetch_data (snapshot_id : json) : M json :=
  try_except
    (response ← requests_get_snapshot E snapshot_id;
     raise_for_status response;;
     response_json response)
    (fun e =>
       if is_RequestException e then
         logging ERROR [Lit "API error during data fetch: "; ExcV e];;
         mret JNull
       else raise e).

Definition _save_data (data : json) (filename : string) : M unit :=
  try_except
    (write_json E filename data;;
     logging INFO [Lit "Data saved to "; StrV filename])
    (fun e => logging ERROR [Lit "Error saving data: "; ExcV e]).

(** One round of the [while True] of [collect_properties]; the state
    is [last_status], the result [None] or [True]. *)
Definition poll_step (snapshot_id : json) (start_time : Z)
    (last_status : json) : M (control json (option bool)) :=
  status ← _check_status snapshot_id;
  t ← datetime_now E;
  let elapsed := timedelta_seconds t start_time in
  changed ← (if negb (py_eq status last_status) then
               if py_eq status (JStr "running") then
                 logging INFO
                   [Lit "Collection in progress... ("; IntV elapsed;
                    Lit "s elapsed)"];;
                 mret (Next status)
               else if py_eq status (JStr "ready") then
                 logging INFO
                   [Lit "Collection completed in "; IntV elapsed;
                    Lit " seconds"];;
                 mret (Next status)
               else if in_strs status ["failed"; "error"] then
                 logging ERROR
                   [Lit "Collection failed after "; IntV elapsed;
                    Lit " seconds"];;
                 mret (Done None)
               else mret (Next status)
             else mret (Next last_status));
  match changed with
  | Done r => mret (Done r)
  | Next last_status' =>
      if py_eq status (JStr "ready") then
        properties_data ← _fetch_data snapshot_id;
        if truthy properties_data then
          _save_data properties_data "zillow_properties.json";;
          logging INFO [Lit "Data saved successfully"];;
          mret (Done (Some true))
        else
          time_sleep 5;;
          mret (Next last_status')
      else if in_strs status ["failed"; "error"] then
        mret (Done None)
      else
        time_sleep 5;;
        mret (Next last_status')
  end.

Definition collect_properties (fuel : nat)
    (property_urls : list (gmap string string)) : M (option bool) :=
  start_time ← datetime_now E;
  logging INFO
    [Lit "Starting collection for ";
     IntV (Z.of_nat (length property_urls)); Lit " properties..."];;
  collection_response ← _trigger_collection property_urls;
  missing ← (if negb (truthy collection_response) then mret true
             else present ← py_contains "snapshot_id" collection_response;
                  mret (negb present));
  if (missing : bool) then
    logging ERROR [Lit "Failed to initiate data collection"];;
    mret None
  else
    snapshot_id ← py_getitem collection_response "snapshot_id";
    while_true fuel (poll_step snapshot_id start_time) JNull.
End Collector.

End Properties.

(** ** Vocabulary of the statements *)

(** Events that touch neither the network nor the files. *)
Definition is_local (e : event) : bool :=
  match e with
  | EvLog _ _ | EvNow | EvSleep _ => true
  | _ => false
  end.

(** What a poll loop does while it waits: status checks and local
    effects. *)
Definition is_polling (e : event) : bool := is_local e || is_progress e.

(** The line logged when a poll loop sees [ready]. *)
Definition completed_line (elapsed : Z) : event :=
  EvLog INFO [Lit "Collection completed in "; IntV elapsed; Lit " seconds"].

Definition is_completed (e : event) : bool :=
  match e with
  | EvLog INFO [Lit "Collection completed in "; IntV _; Lit " seconds"] => true
  | _ => false
  end.

Definition rate_limited_line (wait : Z) : event :=
  EvLog WARNING
    [Lit "Rate limited. Retrying in "; IntV wait; Lit " seconds..."].

(** The transport answers every trigger request with HTTP 429. *)
Definition always_rate_limited (E : env) : Prop :=
  forall k, exists r, post_reply E k = Responds r /\ status_code r = 429.

(** A request that fails at the transport level: the call raises a
    [RequestException] (connection error, timeout), or the response
    carries an HTTP error status. *)
Definition transport_failure (r : reply) : Prop :=
  match r with
  | Fails e => is_RequestException e = true
  | Responds resp =>
      (400 <=? status_code resp) && (status_code resp <? 600) = true
  end.

(** The trigger request is answered by a JSON object that carries the
    job identifier [sid]. *)
Definition accepted (r : reply) (sid : json) : Prop :=
  exists resp m,
    r = Responds resp
    /\ (400 <=? status_code resp) && (status_code resp <? 600) = false
    /\ body resp = inr (JObj m)
    /\ obj_lookup "snapshot_id" m = Some sid.

(** The request is answered by the decoded body [j]. *)
Definition answers (r : reply) (j : json) : Prop :=
  exists resp,
    r = Responds resp
    /\ (400 <=? status_code resp) && (status_code resp <? 600) = false
    /\ body resp = inr j.

(** The status request is answered by a JSON object whose [status]
    field is [s]. *)
Definition reports (r : reply) (s : json) : Prop :=
  exists m, answers r (JObj m) /\ obj_lookup "status" m = Some s.

(** The status checks numbered [k], [k+1], ... return the statuses [l]. *)
Definition observed (check : json -> M json) (k : nat) (l : list json)
    : Prop :=
  forall i s sid w,
    l !! i = Some s -> polls w = (k + i)%nat -> fst (check sid w) = Ret s.

(** The retrieval numbered [k] returns [d]. *)
Definition fetched (fetch : json -> M json) (k : nat) (d : json) : Prop :=
  forall sid w, fetches w = k -> fst (fetch sid w) = Ret d.

(** Statuses on which the poll loops go round again. *)
Definition waiting (s : json) : bool :=
  hashable s && negb (py_eq s (JStr "ready"))
  && negb (in_strs s ["failed"; "error"]).

(** The failure-terminal statuses. *)
Definition failure (s : json) : bool := in_strs s ["failed"; "error"].

(** What the discovery collector's [collect_properties] makes of the
    outcome of [_monitor_collection]: the rest of its [try] block and
    its [except] clause. *)
Definition discover_finish (E : env) (output_file : string)
    (monitored : result json * world) : result bool * world :=
  try_except
    (properties_data ← (fun _ => monitored);
     if negb (truthy properties_data) then mret false
     else
       Discover._save_data E properties_data output_file true;;
       logging INFO [Lit "Data successfully saved to "; StrV output_file];;
       mret true)
    (fun e =>
       logging ERROR [Lit "Unexpected error during collection: "; ExcV e];;
       mret false)
    (snd monitored).

(** The world in which the discovery collector starts to poll. *)
Definition discover_polling (w : world) (cleaned : list (gmap string string))
    (sid : json) : world :=
  extend w
    [EvNow;
     EvLog INFO
       [Lit "Starting property discovery for ";
        IntV (Z.of_nat (length cleaned)); Lit " filters"];
     EvPost cleaned;
     EvLog DEBUG [Lit "Received snapshot ID: "; JsonV sid]].

(** The world in which the simple collector starts to poll. *)
Definition properties_polling (w : world)
    (property_urls : list (gmap string string)) : world :=
  extend w
    [EvNow;
     EvLog INFO
       [Lit "Starting collection for ";
        IntV (Z.of_nat (length property_urls)); Lit " properties..."];
     EvPost property_urls].

(** The name [_save_data] gives to the backup it makes in [w]. *)
Definition backup_name (E : env) (filename : string) (w : world) : string :=
  filename +:+ ".bak_" +:+ strftime E (now E (count is_now (trace w))).

(** Every record lacks a usable [location]: absent, empty or blank. *)
Definition no_location (f : gmap string string) : Prop :=
  match f !! "location" with
  | None => True
  | Some v => all_space v = true
  end.

(** ** Example environments

    Stubs of the remote service in the style of the scenarios of a test
    suite: scripted replies, a clock that advances by one second for
    each reading, and a file system without faults unless stated. *)

Definition quote : string := String (ascii_of_nat 34) EmptyString.

(** A compact rendering of a value, standing in for [json.dump]. *)
Fixpoint render (j : json) : string :=
  match j with
  | JNull => "null"
  | JBool b => if b then "true" else "false"
  | JInt n => if n <? 0 then "-" +:+ pretty (Z.to_N (- n)) else pretty (Z.to_N n)
  | JStr s => quote +:+ s +:+ quote
  | JArr l =>
      "[" +:+
      (fix go (l : list json) : string :=
         match l with
         | [] => ""
         | [x] => render x
         | x :: r => render x +:+ ", " +:+ go r
         end) l
      +:+ "]"
  | JObj m =>
      "{" +:+
      (fix go (m : list (string * json)) : string :=
         match m with
         | [] => ""
         | [(k, v)] => quote +:+ k +:+ quote +:+ ": " +:+ render v
         | (k, v) :: r =>
             quote +:+ k +:+ quote +:+ ": " +:+ render v +:+ ", " +:+ go r
         end) m
      +:+ "}"
  end.

Definition ok_reply (j : json) : reply :=
  Responds {| status_code := 200; text := "OK"; body := inr j |}.

Definition http_reply (code : Z) (txt : string) : reply :=
  Responds {| status_code := code; text := txt; body := inr JNull |}.

Definition status_reply (s : string) : reply :=
  ok_reply (JObj [("status", JStr s)]).

Definition job_reply (sid : string) : reply :=
  ok_reply (JObj [("snapshot_id", JStr sid)]).

Definition connection_error : reply :=
  Fails (RequestException "ConnectionError").

(** The replies of [l] in order, then [default] for ever. *)
Definition script (l : list reply) (default : reply) : nat -> reply :=
  fun k => nth k l default.

Definition stub (post progress snapshot : nat -> reply)
    (renaming : nat -> option exception) : env :=
  {| post_reply := post;
     progress_reply := progress;
     snapshot_reply := snapshot;
     now := fun k => Z.of_nat k * 1000000;
     strftime := fun t => "t" +:+ pretty (Z.to_N (t `div` 1000000));
     rename_fault := renaming;
     write_result := fun _ => WriteOk;
     dumps := render |}.

Definition no_fault : nat -> option exception := fun _ => None.

Definition empty_world : world := {| fs := ∅; trace := [] |}.

(** A world in which the destination already holds earlier results. *)
Definition stale_world : world :=
  {| fs := {[ "out.json" := "old" ]}; trace := [] |}.

Definition example_filters : list (gmap string string) :=
  [ {[ "location" := "92027" ]} ].

Definition blank_filters : list (gmap string string) :=
  [ {[ "location" := "   " ]}; {[ "listingCategory" := "Sold" ]};
    {[ "location" := "" ]} ].

Definition example_records : json := JArr [JObj [("zpid", JInt 1)]].

(** The end-to-end scenario: job [abc123], four status checks, one
    record. *)
Definition E_success : env :=
  stub (fun _ => job_reply "abc123")
    (script [status_reply "queued"; status_reply "running";
             status_reply "running"] (status_reply "ready"))
    (fun _ => ok_reply example_records) no_fault.

(** The same with the status sequence [queued], [failed]. *)
Definition E_failed : env :=
  stub (fun _ => job_reply "abc123")
    (script [status_reply "queued"] (status_reply "failed"))
    (fun _ => ok_reply example_records) no_fault.

(** A transport that answers every trigger request with 429. *)
Definition E_rate_limited : env :=
  stub (fun _ => http_reply 429 "Too Many Requests")
    (fun _ => status_reply "ready")
    (fun _ => ok_reply example_records) no_fault.

(** The second status check cannot connect. *)
Definition E_poll_down : env :=
  stub (fun _ => job_reply "abc123")
    (script [status_reply "running"; connection_error] (status_reply "ready"))
    (fun _ => ok_reply example_records) no_fault.

(** The job gets ready, the retrieval cannot connect. *)
Definition E_fetch_down : env :=
  stub (fun _ => job_reply "abc123")
    (script [status_reply "running"] (status_reply "ready"))
    (fun _ => connection_error) no_fault.

(** The job gets ready with an empty result set. *)
Definition E_empty : env :=
  stub (fun _ => job_reply "abc123")
    (script [status_reply "running"] (status_reply "ready"))
    (fun _ => ok_reply (JArr [])) no_fault.

(** The status endpoint answers with a JSON array. *)
Definition E_malformed : env :=
  stub (fun _ => job_reply "abc123")
    (fun _ => ok_reply (JArr [JStr "running"]))
    (fun _ => ok_reply example_records) no_fault.

(** Every [os.rename] is refused. *)
Definition E_rename_denied : env :=
  stub (fun _ => job_reply "abc123")
    (fun _ => status_reply "ready")
    (fun _ => ok_reply example_records)
    (fun _ => Some (OSError "PermissionError")).

(** ** Vocabulary of the further statements *)

(** A record with a [location] that holds a character other than
    whitespace. *)
Definition usable (f : gmap string string) : Prop :=
  exists v, f !! "location" = Some v /\ all_space v = false.

(** No value of the record is empty or blank. *)
Definition scrubbed (f : gmap string string) : Prop :=
  forall k v, f !! k = Some v -> all_space v = false.

(** The seconds slept in all. *)
Definition total_sleep (evs : list event) : Z :=
  fold_right Z.add 0 (sleeps evs).

(** The trigger request numbered [k] is answered with HTTP 429. *)
Definition rate_limited (E : env) (k : nat) : Prop :=
  exists r, post_reply E k = Responds r /\ status_code r = 429.

Definition is_log (e : event) : bool :=
  match e with EvLog _ _ => true | _ => false end.

(** What the submission does: trigger requests and local effects. *)
Definition is_submission (e : event) : bool := is_post e || is_local e.

(** What a write leaves at its path, given what was there: the whole
    serialization, what was there, or the part written before the
    fault. *)
Definition written (o : write_outcome) (serialized : string)
    (before : option string) : option string :=
  match o with
  | WriteOk => Some serialized
  | OpenFails _ => before
  | DumpFails _ n => Some (String.substring 0 n serialized)
  end.

(** The exception a write raises, if any. *)
Definition write_error (o : write_outcome) : option exception :=
  match o with
  | WriteOk => None
  | OpenFails e | DumpFails e _ => Some e
  end.

(** * src/free_zillow_scraper/property_data.py

    The two functions that turn a decoded search response into the
    records of the data set. *)

Module PropertyData.

(** [for x in v]: the items a decoded value yields when iterated; a
    dictionary yields its keys, a string its characters. *)
Definition py_iter (x : json) : M (list json) :=
  match x with
  | JArr l => mret l
  | JObj m => mret (map (fun kv => JStr kv.1) m)
  | JStr s =>
      mret (map (fun c => JStr (String c EmptyString)) (String.list_ascii_of_string s))
  | _ => raise (TypeError "object is not iterable")
  end.

Definition parse_property_data (property_data : json) : M json :=
  hdpData ← py_get property_data "hdpData" (JObj []);
  home_info ← py_get hdpData "homeInfo" (JObj []);
  zpid ← py_get property_data "zpid" JNull;
  price ← py_get property_data "price" JNull;
  zestimate ← py_get property_data "zestimate" JNull;
  address ← py_get property_data "address" JNull;
  addressCity ← py_get property_data "addressCity" JNull;
  addressState ← py_get property_data "addressState" JNull;
  addressZipcode ← py_get property_data "addressZipcode" JNull;
  latLong ← py_get property_data "latLong" (JObj []);
  latitude ← py_get latLong "latitude" JNull;
  latLong' ← py_get property_data "latLong" (JObj []);
  longitude ← py_get latLong' "longitude" JNull;
  beds ← py_get property_data "beds" JNull;
  baths ← py_get property_data "baths" JNull;
  area ← py_get property_data "area" JNull;
  lotAreaValue ← py_get home_info "lotAreaValue" JNull;
  homeType ← py_get home_info "homeType" JNull;
  statusText ← py_get property_data "statusText" JNull;
  daysOnZillow ← py_get home_info "daysOnZillow" JNull;
  brokerName ← py_get property_data "brokerName" JNull;
  detailUrl ← py_get property_data "detailUrl" JNull;
  mret (JObj [
    ("id", zpid);
    ("price", price);
    ("zestimate", zestimate);
    ("location", JObj [
       ("address", address);
       ("city", addressCity);
       ("state", addressState);
       ("zip", addressZipcode);
       ("coordinates", JObj [("lat", latitude); ("lon", longitude)])]);
    ("details", JObj [
       ("beds", beds);
       ("baths", baths);
       ("area_sqft", area);
       ("lot_acres", lotAreaValue);
       ("property_type", homeType)]);
    ("listing", JObj [
       ("status", statusText);
       ("days_on_zillow", daysOnZillow);
       ("broker", brokerName);
       ("url", detailUrl)])]).

(** [for prop in properties: results["properties"].append(...)], from
    the list [acc] that [results["properties"]] holds. *)
Fixpoint append_parsed (acc : list json) (properties : list json)
    : M (list json) :=
  match properties with
  | [] => mret acc
  | prop :: rest =>
      parsed ← parse_property_data prop;
      append_parsed (acc ++ [parsed]) rest
  end.

Definition process_api_response (response_data : json) (page_num : Z)
    : M json :=
  cat1 ← py_get response_data "cat1" (JObj []);
  searchList ← py_get cat1 "searchList" (JObj []);
  total_results ← py_get searchList "totalResultCount" JNull;
  cat1' ← py_get response_data "cat1" (JObj []);
  searchResults ← py_get cat1' "searchResults" (JObj []);
  properties ← py_get searchResults "listResults" (JArr []);
  items ← py_iter properties;
  parsed ← append_parsed [] items;
  mret (JObj [
    ("page_number", JInt page_num);
    ("total_results", total_results);
    ("properties", JArr parsed)]).

End PropertyData.

(** ** Vocabulary of the statements on the search response *)

(** [d.get(k)] of a dictionary. *)
Definition field (k : string) (m : list (string * json)) : json :=
  from_option id JNull (obj_lookup k m).

(** A key that is missing, or holds a dictionary: what the default
    [{}] of a chained [.get] makes safe. *)
Definition dict_or_absent (o : option json) : bool :=
  match o with
  | None | Some (JObj _) => true
  | Some _ => false
  end.

(** The nested fields that [parse_property_data] reads through
    ([latLong], [hdpData] and its [homeInfo]) are dictionaries where
    they are present. *)
Definition well_nested (m : list (string * json)) : bool :=
  dict_or_absent (obj_lookup "latLong" m)
  && match obj_lookup "hdpData" m with
     | None => true
     | Some (JObj h) => dict_or_absent (obj_lookup "homeInfo" h)
     | Some _ => false
     end.

(** A listing that [parse_property_data] accepts. *)
Definition parsable (x : json) : bool :=
  match x with
  | JObj m => well_nested m
  | _ => false
  end.

(** The dictionary under [k], or [{}]: [d.get(k, {})] where that is a
    dictionary. *)
Definition sub (k : string) (m : list (string * json))
    : list (string * json) :=
  match obj_lookup k m with
  | Some (JObj h) => h
  | _ => []
  end.

(** The record made of a listing whose fields are [m]. *)
Definition parsed_record (m : list (string * json)) : json :=
  JObj [
    ("id", field "zpid" m);
    ("price", field "price" m);
    ("zestimate", field "zestimate" m);
    ("location", JObj [
       ("address", field "address" m);
       ("city", field "addressCity" m);
       ("state", field "addressState" m);
       ("zip", field "addressZipcode" m);
       ("coordinates", JObj [
          ("lat", field "latitude" (sub "latLong" m));
          ("lon", field "longitude" (sub "latLong" m))])]);
    ("details", JObj [
       ("beds", field "beds" m);
       ("baths", field "baths" m);
       ("area_sqft", field "area" m);
       ("lot_acres", field "lotAreaValue" (sub "homeInfo" (sub "hdpData" m)));
       ("property_type", field "homeType" (sub "homeInfo" (sub "hdpData" m)))]);
    ("listing", JObj [
       ("status", field "statusText" m);
       ("days_on_zillow",
        field "daysOnZillow" (sub "homeInfo" (sub "hdpData" m)));
       ("broker", field "brokerName" m);
       ("url", field "detailUrl" m)])].

(** The dictionaries around the listings ([cat1], its [searchList] and
    [searchResults]) are dictionaries where they are present. *)
Definition envelope_ok (m : list (string * json)) : bool :=
  dict_or_absent (obj_lookup "cat1" m)
  && dict_or_absent (obj_lookup "searchList" (sub "cat1" m))
  && dict_or_absent (obj_lookup "searchResults" (sub "cat1" m)).

(** The listings of a response: [listResults] of [searchResults] of
    [cat1], or [[]] where one of them is missing. *)
Definition listings (m : list (string * json)) : json :=
  from_option id (JArr [])
    (obj_lookup "listResults" (sub "searchResults" (sub "cat1" m))).

(** The result count of a response, or [None]. *)
Definition total_count (m : list (string * json)) : json :=
  field "totalResultCount" (sub "searchList" (sub "cat1" m)).

(** ** Further example data *)

(** The filters of [main] in the discovery script. *)
Definition main_filters : list (gmap string string) :=
  [ {[ "location" := "92027"; "listingCategory" := "Sold";
       "HomeType" := "Houses" ]};
    {[ "location" := "New York"; "listingCategory" := "House for rent";
       "HomeType" := "Condos" ]};
    {[ "location" := "Colorado"; "listingCategory" := ""; "HomeType" := "" ]} ].

(** [E] with the writes answered by [o]. *)
Definition with_writes (E : env) (o : nat -> write_outcome) : env :=
  {| post_reply := post_reply E;
     progress_reply := progress_reply E;
     snapshot_reply := snapshot_reply E;
     now := now E;
     strftime := strftime E;
     rename_fault := rename_fault E;
     write_result := o;
     dumps := dumps E |}.

(** Every trigger request is answered with HTTP 500. *)
Definition E_server_error : env :=
  stub (fun _ => http_reply 500 "Internal Server Error")
    (fun _ => status_reply "ready")
    (fun _ => ok_reply example_records) no_fault.

(** No trigger request can connect. *)
Definition E_offline : env :=
  stub (fun _ => connection_error)
    (fun _ => status_reply "ready")
    (fun _ => ok_reply example_records) no_fault.

(** Two trigger requests are rate limited, the third is accepted. *)
Definition E_throttled : env :=
  stub (script [http_reply 429 "Too Many Requests";
                http_reply 429 "Too Many Requests"] (job_reply "abc123"))
    (fun _ => status_reply "ready")
    (fun _ => ok_reply example_records) no_fault.

(** The status endpoint answers without a [status] field. *)
Definition E_no_status : env :=
  stub (fun _ => job_reply "abc123")
    (fun _ => ok_reply (JObj [("progress", JInt 40)]))
    (fun _ => ok_reply example_records) no_fault.

(** The second status is a list. *)
Definition E_status_list : env :=
  stub (fun _ => job_reply "abc123")
    (script [status_reply "running"]
       (ok_reply (JObj [("status", JArr [JStr "ready"])])))
    (fun _ => ok_reply example_records) no_fault.

(** The trigger request is answered without a job identifier. *)
Definition E_no_job : env :=
  stub (fun _ => ok_reply (JObj [("error", JStr "invalid dataset")]))
    (fun _ => status_reply "ready")
    (fun _ => ok_reply example_records) no_fault.

(** The end-to-end scenario on a full disk: every write stops after
    five characters. *)
Definition E_disk_full : env :=
  with_writes E_success (fun _ => DumpFails (OSError "ENOSPC") 5).

(** A listing of a search response. *)
Definition example_listing : list (string * json) :=
  [("zpid", JStr "20533168");
   ("price", JStr "$1,250,000");
   ("addressCity", JStr "Los Angeles");
   ("beds", JInt 3);
   ("latLong", JObj [("latitude", JInt 34); ("longitude", JInt (-118))]);
   ("hdpData",
    JObj [("homeInfo",
           JObj [("homeType", JStr "SINGLE_FAMILY");
                 ("daysOnZillow", JInt 3)])])].

(** A listing without nested fields. *)
Definition bare_listing : list (string * json) :=
  [("zpid", JStr "20533169"); ("statusText", JStr "House for sale")].

(** A listing whose coordinates are [null]. *)
Definition unlocated_listing : list (string * json) :=
  [("zpid", JStr "20533170"); ("latLong", JNull)].

(** A search response with the listings [l]. *)
Definition search_response (l : list json) : list (string * json) :=
  [("cat1",
    JObj [("searchResults", JObj [("listResults", JArr l)]);
          ("searchList", JObj [("totalResultCount", JInt 1872)])]);
   ("requestId", JInt 6)].

(** The files once [serialized] has been saved at [filename] with
    backups: the earlier content of [filename], if there was one, has
    been moved to [bak]. *)
Definition saved (m : gmap string string) (filename bak serialized : string)
    : gmap string string :=
  <[filename := serialized]>
    (match m !! filename with
     | Some c => <[bak := c]> (delete filename m)
     | None => m
     end).

(** The backup name made from the clock reading numbered [k]. *)
Definition backup_at (E : env) (filename : string) (k : nat) : string :=
  filename +:+ ".bak_" +:+ strftime E (now E k).

(** The line of the [except Exception] clause of the discovery
    collector's [collect_properties]. *)
Definition unexpected_line (e : exception) : event :=
  EvLog ERROR [Lit "Unexpected error during collection: "; ExcV e].

(** The call of [stage] made when the counter [n] stands at [k] raises
    [e], whatever its argument. *)
Definition raises_at {A B : Type} (stage : A -> M B) (n : world -> nat)
    (k : nat) (e : exception) : Prop :=
  forall a w, n w = k -> fst (stage a w) = Raise e.

(** * Theorems *)

(** ** Accounting of traces and worlds *)

Lemma count_app (p : event -> bool) (a b : list event) :
  count p (a ++ b) = (count p a + count p b)%nat.
Proof. unfold count. by rewrite List.filter_app, length_app. Qed.

Lemma count_cons (p : event -> bool) (e : event) (evs : list event) :
  count p (e :: evs) = ((if p e then 1 else 0) + count p evs)%nat.
Proof. unfold count. simpl. by destruct (p e). Qed.

Lemma count_nil (p : event -> bool) : count p [] = 0%nat.
Proof. done. Qed.

(** Split a count along the shape of the event list. *)
Ltac count_norm p :=
  repeat first
    [ rewrite (count_app p) | rewrite (count_cons p) | rewrite (count_nil p) ].

Lemma sleeps_app (a b : list event) : sleeps (a ++ b) = sleeps a ++ sleeps b.
Proof.
  induction a as [|e a IH]; [done|].
  destruct e; simpl; by rewrite ?IH.
Qed.

Lemma extend_nil (w : world) : extend w [] = w.
Proof. destruct w. unfold extend. simpl. by rewrite app_nil_r. Qed.

Lemma extend_extend (w : world) (a b : list event) :
  extend (extend w a) b = extend w (a ++ b).
Proof. unfold extend. simpl. by rewrite app_assoc. Qed.

Lemma fs_extend (w : world) (evs : list event) : fs (extend w evs) = fs w.
Proof. done. Qed.

Lemma trace_extend (w : world) (evs : list event) :
  trace (extend w evs) = trace w ++ evs.
Proof. done. Qed.

Lemma posts_extend (w : world) (evs : list event) :
  posts (extend w evs) = (posts w + count is_post evs)%nat.
Proof. apply count_app. Qed.

Lemma polls_extend (w : world) (evs : list event) :
  polls (extend w evs) = (polls w + count is_progress evs)%nat.
Proof. apply count_app. Qed.

Lemma fetches_extend (w : world) (evs : list event) :
  fetches (extend w evs) = (fetches w + count is_snapshot evs)%nat.
Proof. apply count_app. Qed.

Lemma writes_extend (w : world) (evs : list event) :
  writes (extend w evs) = (writes w + count is_openw evs)%nat.
Proof. apply count_app. Qed.

Lemma renames_extend (w : world) (evs : list event) :
  renames (extend w evs) = (renames w + count is_rename evs)%nat.
Proof. apply count_app. Qed.

(** ** Laws of the monad *)

Lemma bind_ret {A B : Type} (m : M A) (f : A -> M B) (w w' : world) (a : A) :
  m w = (Ret a, w') -> (m ≫= f) w = f a w'.
Proof. unfold mbind, M_bind. by intros ->. Qed.

Lemma bind_raise {A B : Type} (m : M A) (f : A -> M B) (w w' : world) e :
  m w = (Raise e, w') -> (m ≫= f) w = (Raise e, w').
Proof. unfold mbind, M_bind. by intros ->. Qed.

Lemma bind_pending {A B : Type} (m : M A) (f : A -> M B) (w w' : world) :
  m w = (Pending, w') -> (m ≫= f) w = (Pending, w').
Proof. unfold mbind, M_bind. by intros ->. Qed.

Lemma bind_emit {B : Type} (e : event) (f : unit -> M B) (w : world) :
  (emit e ≫= f) w = f tt (extend w [e]).
Proof. done. Qed.

Lemma try_ret {A : Type} (m : M A) (h : exception -> M A) (w w' : world) a :
  m w = (Ret a, w') -> try_except m h w = (Ret a, w').
Proof. unfold try_except. by intros ->. Qed.

Lemma try_raise {A : Type} (m : M A) (h : exception -> M A) (w w' : world) e :
  m w = (Raise e, w') -> try_except m h w = h e w'.
Proof. unfold try_except. by intros ->. Qed.

(** Unfold the plumbing of a method body applied to a world. *)
Ltac run :=
  unfold mbind, M_bind, mret, M_ret, try_except, raise, pending, when,
    logging, time_sleep, emit, get_world, modify_fs;
  simpl.

(** ** Submission under rate limiting *)

Lemma trigger_attempt_429 (E : env) filters (attempt : Z) (w : world) r :
  post_reply E (posts w) = Responds r ->
  status_code r = 429 ->
  Discover.trigger_attempt E filters attempt w =
    (Ret (Next tt),
     extend w [EvPost filters; rate_limited_line (2 ^ (attempt + 1));
               EvSleep (2 ^ (attempt + 1))]).
Proof.
  intros Hr Hc. unfold Discover.trigger_attempt, requests_post, raise_for_status.
  run. rewrite Hr, Hc. simpl. by rewrite !extend_extend.
Qed.

(** C3: against a transport that always answers 429, the trigger is
    posted exactly three times and the submission fails with [None],
    but the waits are 2, 4 and 8 seconds: the third one follows the
    final attempt, after which nothing is retried. *)
Theorem trigger_rate_limited_sleeps_after_last_attempt
    (E : env) (filters : list (gmap string string)) (w : world) :
  always_rate_limited E ->
  exists evs,
    Discover._trigger_collection E filters w = (Ret JNull, extend w evs)
    /\ count is_post evs = 3%nat
    /\ sleeps evs = [2; 4; 8]
    /\ last evs = Some (EvSleep 8).
Proof.
  intros H.
  eexists. split.
  - unfold Discover._trigger_collection. simpl.
    destruct (H (posts w)) as (r0 & H0 & C0).
    erewrite bind_ret by (eapply trigger_attempt_429; eassumption).
    set (w1 := extend w _).
    destruct (H (posts w1)) as (r1 & H1 & C1).
    erewrite bind_ret by (eapply trigger_attempt_429; eassumption).
    set (w2 := extend w1 _).
    destruct (H (posts w2)) as (r2 & H2 & C2).
    erewrite bind_ret by (eapply trigger_attempt_429; eassumption).
    subst w2 w1. rewrite !extend_extend. reflexivity.
  - done.
Qed.

(** ** Status checks *)

Lemma discover_check_status_world (E : env) sid (w : world) :
  snd (Discover._check_status E sid w) = extend w [EvProgress sid].
Proof.
  unfold Discover._check_status, requests_get_progress, raise_for_status,
    response_json, py_get.
  run.
  destruct (progress_reply E (polls w)) as [e|r]; simpl.
  { by destruct (is_RequestException e). }
  destruct ((400 <=? status_code r) && (status_code r <? 600)); simpl; [done|].
  destruct (body r) as [e|j]; simpl.
  { by destruct (is_RequestException e). }
  by destruct j.
Qed.

(** ** Cleaning of the inputs *)

Lemma lstrip_all_space (s : string) : all_space s = true -> lstrip s = "".
Proof.
  induction s as [|c s IH]; [done|]. simpl.
  destruct (isspace c); [exact IH | done].
Qed.

Lemma keep_value_blank (v : string) :
  all_space v = true -> Discover.keep_value v = false.
Proof.
  intros H. unfold Discover.keep_value, strip.
  rewrite (lstrip_all_space v H). simpl. apply andb_false_r.
Qed.

Lemma has_location_cleaned (f : gmap string string) :
  no_location f ->
  Discover.has_location
    (filter (fun kv : string * string => Is_true (Discover.keep_value kv.2)) f)
  = false.
Proof.
  unfold no_location, Discover.has_location. intros H.
  destruct (filter _ f !! "location") as [v|] eqn:Hv; [|done].
  apply map_lookup_filter_Some in Hv as [Hf Hk]. simpl in Hk.
  rewrite Hf in H. rewrite (keep_value_blank v H) in Hk. done.
Qed.

Lemma clean_filters_nil (filters : list (gmap string string)) :
  Forall no_location filters -> Discover._clean_filters filters = [].
Proof.
  induction 1 as [|f filters Hf _ IH]; [done|].
  simpl. by rewrite (has_location_cleaned f Hf).
Qed.

(** C4: when every record's [location] is absent, empty or blank, the
    run fails at once with "No valid filters provided after cleaning"
    and performs no request: the only effects are one reading of the
    clock and that log line. *)
Theorem no_valid_inputs_without_network
    (E : env) (fuel : nat) (filters : list (gmap string string))
    (output_file : string) (w : world) :
  Forall no_location filters ->
  exists w',
    Discover.collect_properties E fuel filters output_file w = (Ret false, w')
    /\ w' = extend w
         [EvNow; EvLog ERROR [Lit "No valid filters provided after cleaning"]]
    /\ count is_network (trace w') = count is_network (trace w)
    /\ fs w' = fs w.
Proof.
  intros H. eexists. split; [|split; [reflexivity|split]].
  - unfold Discover.collect_properties, Discover.collect_properties_with,
      datetime_now.
    run. rewrite (clean_filters_nil filters H). simpl.
    by rewrite extend_extend.
  - rewrite trace_extend, count_app. unfold count. simpl. lia.
  - done.
Qed.

(** ** One round of the monitor of the discovery collector *)

Lemma count_disjoint (p q : event -> bool) (evs : list event) :
  forallb q evs = true ->
  (forall e, q e = true -> p e = false) ->
  count p evs = 0%nat.
Proof.
  intros Hq Hpq. unfold count.
  induction evs as [|e evs IH]; [done|].
  simpl in *. apply andb_true_iff in Hq as [He Hq].
  rewrite (Hpq e He). by apply IH.
Qed.

Lemma forallb_local_polling (evs : list event) :
  forallb is_local evs = true -> forallb is_polling evs = true.
Proof.
  intros H. apply forallb_forall. intros e He.
  unfold is_polling. by rewrite (proj1 (forallb_forall _ _) H e He).
Qed.

Lemma py_eq_str (s : json) (t : string) : py_eq s (JStr t) = true -> s = JStr t.
Proof.
  destruct s; simpl; try done.
  intros H. apply String.eqb_eq in H. by subst.
Qed.

Lemma discover_check (E : env) sid (w : world) (s : json) :
  fst (Discover._check_status E sid w) = Ret s ->
  Discover._check_status E sid w = (Ret s, extend w [EvProgress sid]).
Proof.
  intros H. rewrite (surjective_pairing (Discover._check_status E sid w)).
  by rewrite H, discover_check_status_world.
Qed.

Lemma discover_step_waiting (E : env) sid (t0 : Z) st (w : world) (s : json) :
  fst (Discover._check_status E sid w) = Ret s ->
  waiting s = true ->
  exists st' evs,
    Discover.monitor_step E sid t0 st w
      = (Ret (Next st'), extend w (EvProgress sid :: evs))
    /\ forallb is_local evs = true
    /\ count is_completed evs = 0%nat.
Proof.
  intros Hs Hw. unfold waiting in Hw.
  apply andb_true_iff in Hw as [Hw Hf]. apply andb_true_iff in Hw as [Hh Hr].
  apply negb_true_iff in Hf, Hr.
  unfold Discover.monitor_step.
  erewrite bind_ret by (by apply discover_check).
  unfold dict_set, dict_get, datetime_now. cbv beta. rewrite Hh, Hr, Hf.
  destruct (py_eq s st.1); run;
    match goal with |- context [?x `mod` 30 =? 0] =>
      destruct (x `mod` 30 =? 0) end; simpl;
    rewrite ?extend_extend; simpl; eexists _, _; (split; [reflexivity|done]).
Qed.

Lemma discover_step_failure (E : env) sid (t0 : Z) st (w : world) (s : json) :
  fst (Discover._check_status E sid w) = Ret s ->
  failure s = true ->
  exists evs,
    Discover.monitor_step E sid t0 st w
      = (Ret (Done JNull), extend w (EvProgress sid :: evs))
    /\ forallb is_local evs = true
    /\ count is_completed evs = 0%nat.
Proof.
  intros Hs Hf. unfold failure in Hf.
  assert (s = JStr "failed" \/ s = JStr "error") as Hcases.
  { unfold in_strs in Hf. simpl in Hf. rewrite orb_false_r in Hf.
    apply orb_true_iff in Hf as [H|H]; apply py_eq_str in H; auto. }
  unfold Discover.monitor_step.
  erewrite bind_ret by (by apply discover_check).
  unfold dict_set, dict_get, datetime_now. cbv beta.
  destruct (py_eq s st.1); destruct Hcases as [-> | ->]; run;
    rewrite ?extend_extend; simpl; eexists; (split; [reflexivity|done]).
Qed.

Lemma discover_step_ready (E : env) sid (t0 : Z) st (w : world) :
  fst (Discover._check_status E sid w) = Ret (JStr "ready") ->
  exists evs t,
    Discover.monitor_step E sid t0 st w
      = (let (r, w') :=
           Discover._fetch_data E sid
             (extend w (EvProgress sid :: evs ++ [completed_line t])) in
         (match r with
          | Ret data => Ret (Done data)
          | Raise e => Raise e
          | Pending => Pending
          end, w'))
    /\ forallb is_local evs = true
    /\ count is_completed evs = 0%nat.
Proof.
  intros Hs.
  unfold Discover.monitor_step.
  erewrite bind_ret by (by apply discover_check).
  unfold dict_set, dict_get, datetime_now. cbv beta.
  destruct (py_eq (JStr "ready") st.1); run; rewrite ?extend_extend; simpl.
  - match goal with |- context [IntV ?t] => exists [EvNow], t end.
    split; [|done]. unfold completed_line. simpl.
    by destruct (Discover._fetch_data E sid _) as [[]].
  - match goal with |- context [EvLog INFO ?m :: EvNow :: _] =>
      match goal with |- context [IntV ?t] =>
        exists [EvLog INFO m; EvNow], t end end.
    split; [|done]. unfold completed_line. simpl.
    by destruct (Discover._fetch_data E sid _) as [[]].
Qed.

(** ** The poll loop of the discovery collector *)

Lemma observed_head (check : json -> M json) k s l sid (w : world) :
  observed check k (s :: l) -> polls w = k -> fst (check sid w) = Ret s.
Proof. intros H Hk. apply (H 0%nat); [done | lia]. Qed.

Lemma observed_tail (check : json -> M json) k s l :
  observed check k (s :: l) -> observed check (S k) l.
Proof.
  intros H i s' sid w Hi Hk. apply (H (S i)); [done | lia].
Qed.

Lemma observed_app (check : json -> M json) k l l' :
  observed check k (l ++ l') ->
  observed check k l /\ observed check (k + length l) l'.
Proof.
  intros H. split; intros i s sid w Hi Hk.
  - apply (H i); [|done]. by apply lookup_app_l_Some.
  - apply (H (length l + i)%nat); [|lia].
    by rewrite lookup_app_r, Nat.add_comm, Nat.add_sub by lia.
Qed.

Lemma count_polling (evs : list event) :
  forallb is_polling evs = true ->
  count is_snapshot evs = 0%nat /\ count is_openw evs = 0%nat
  /\ count is_rename evs = 0%nat /\ count is_post evs = 0%nat.
Proof.
  intros H. repeat split; apply (count_disjoint _ is_polling); try done;
    by intros [].
Qed.

(** While only waiting statuses are observed, the loop goes round once
    for each, checking the status and doing nothing else outside. *)
Lemma discover_monitor_unroll (E : env) sid (t0 : Z) (l : list json) :
  forall st (w : world),
    Forall (fun s => waiting s = true) l ->
    observed (Discover._check_status E) (polls w) l ->
    exists st' evs,
      (forall fuel : nat,
         while_true (length l + fuel) (Discover.monitor_step E sid t0) st w
         = while_true fuel (Discover.monitor_step E sid t0) st'
             (extend w evs))
      /\ count is_progress evs = length l
      /\ forallb is_polling evs = true
      /\ count is_completed evs = 0%nat.
Proof.
  induction l as [|s l IH]; intros st w Hw Hobs.
  - exists st, []. split; [|done]. intros fuel. by rewrite extend_nil.
  - apply Forall_cons in Hw as [Hs Hw].
    destruct (discover_step_waiting E sid t0 st w s) as (st1 & evs1 & H1 & L1 & C1);
      [by eapply observed_head | done |].
    assert (count is_progress evs1 = 0%nat) as P1.
    { apply (count_disjoint _ is_local); [done | by intros []]. }
    destruct (IH st1 (extend w (EvProgress sid :: evs1)))
      as (st' & evs & H2 & P2 & L2 & C2); [done | |].
    { rewrite polls_extend, count_cons, P1. simpl.
      replace (polls w + 1)%nat with (S (polls w)) by lia.
      by eapply observed_tail. }
    exists st', ((EvProgress sid :: evs1) ++ evs).
    split; [|split; [|split]].
    + intros fuel. simpl. erewrite bind_ret by exact H1. simpl.
      by rewrite H2, extend_extend.
    + by rewrite count_app, count_cons, P1, P2.
    + rewrite forallb_app. simpl. by rewrite (forallb_local_polling _ L1), L2.
    + by rewrite count_app, count_cons, C1, C2.
Qed.

(** ** Retrieval *)

Lemma discover_fetch_world (E : env) sid (w : world) :
  exists evs,
    snd (Discover._fetch_data E sid w) = extend w (EvSnapshot sid :: evs)
    /\ forallb is_local evs = true
    /\ count is_completed evs = 0%nat.
Proof.
  unfold Discover._fetch_data, requests_get_snapshot, raise_for_status,
    response_json.
  run.
  destruct (snapshot_reply E (fetches w)) as [e|r]; simpl.
  { destruct (is_RequestException e); simpl; rewrite ?extend_extend;
      eexists; (split; [reflexivity|done]). }
  destruct ((400 <=? status_code r) && (status_code r <? 600)); simpl.
  { rewrite ?extend_extend. eexists; (split; [reflexivity|done]). }
  destruct (body r) as [e|j]; simpl.
  { destruct (is_RequestException e); simpl; rewrite ?extend_extend;
      eexists; (split; [reflexivity|done]). }
  eexists; (split; [reflexivity|done]).
Qed.

Lemma properties_fetch_world (E : env) sid (w : world) :
  exists evs,
    snd (Properties._fetch_data E sid w) = extend w (EvSnapshot sid :: evs)
    /\ forallb is_local evs = true
    /\ count is_completed evs = 0%nat.
Proof.
  unfold Properties._fetch_data, requests_get_snapshot, raise_for_status,
    response_json.
  run.
  destruct (snapshot_reply E (fetches w)) as [e|r]; simpl.
  { destruct (is_RequestException e); simpl; rewrite ?extend_extend;
      eexists; (split; [reflexivity|done]). }
  destruct ((400 <=? status_code r) && (status_code r <? 600)); simpl.
  { rewrite ?extend_extend. eexists; (split; [reflexivity|done]). }
  destruct (body r) as [e|j]; simpl.
  { destruct (is_RequestException e); simpl; rewrite ?extend_extend;
      eexists; (split; [reflexivity|done]). }
  eexists; (split; [reflexivity|done]).
Qed.

Lemma properties_check_status_world (E : env) sid (w : world) :
  exists evs,
    snd (Properties._check_status E sid w) = extend w (EvProgress sid :: evs)
    /\ forallb is_local evs = true
    /\ count is_completed evs = 0%nat.
Proof.
  unfold Properties._check_status, requests_get_progress, raise_for_status,
    response_json, py_get.
  run.
  destruct (progress_reply E (polls w)) as [e|r]; simpl.
  { destruct (is_RequestException e); simpl; rewrite ?extend_extend;
      eexists; (split; [reflexivity|done]). }
  destruct ((400 <=? status_code r) && (status_code r <? 600)); simpl.
  { rewrite ?extend_extend. eexists; (split; [reflexivity|done]). }
  destruct (body r) as [e|j]; simpl.
  { destruct (is_RequestException e); simpl; rewrite ?extend_extend;
      eexists; (split; [reflexivity|done]). }
  destruct j; eexists; (split; [reflexivity|done]).
Qed.

Lemma properties_check (E : env) sid (w : world) (s : json) :
  fst (Properties._check_status E sid w) = Ret s ->
  exists evs,
    Properties._check_status E sid w
      = (Ret s, extend w (EvProgress sid :: evs))
    /\ forallb is_local evs = true
    /\ count is_completed evs = 0%nat.
Proof.
  intros H. destruct (properties_check_status_world E sid w) as (evs & Hw & L).
  exists evs. split; [|done].
  rewrite (surjective_pairing (Properties._check_status E sid w)).
  by rewrite H, Hw.
Qed.

(** The simple collector's [_save_data] swallows every error. *)
Lemma properties_save_returns (E : env) data filename (w : world) :
  exists w' evs,
    Properties._save_data E data filename w = (Ret tt, w')
    /\ trace w' = trace w ++ EvOpenW filename :: evs
    /\ forallb is_local evs = true.
Proof.
  unfold Properties._save_data, write_json. run.
  destruct (write_result E (writes w)); simpl;
    eexists _, _; (split; [reflexivity|]); simpl;
    rewrite <- ?app_assoc; simpl; (split; [reflexivity|done]).
Qed.

(** ** One round of the poll loop of the simple collector *)

Lemma count_local (evs : list event) :
  forallb is_local evs = true ->
  count is_progress evs = 0%nat /\ count is_snapshot evs = 0%nat
  /\ count is_openw evs = 0%nat /\ count is_rename evs = 0%nat
  /\ count is_post evs = 0%nat.
Proof.
  intros H. repeat split; apply (count_disjoint _ is_local); try done;
    by intros [].
Qed.

Lemma properties_step_waiting (E : env) sid (t0 : Z) last (w : world) s :
  fst (Properties._check_status E sid w) = Ret s ->
  waiting s = true ->
  exists last' evs,
    Properties.poll_step E sid t0 last w
      = (Ret (Next last'), extend w (EvProgress sid :: evs))
    /\ forallb is_local evs = true
    /\ count is_completed evs = 0%nat.
Proof.
  intros Hs Hw. unfold waiting in Hw.
  apply andb_true_iff in Hw as [Hw Hf]. apply andb_true_iff in Hw as [Hh Hr].
  apply negb_true_iff in Hf, Hr.
  destruct (properties_check E sid w s Hs) as (evs0 & Hc & L0 & C0).
  unfold Properties.poll_step.
  erewrite bind_ret by exact Hc.
  unfold datetime_now. cbv beta. rewrite Hr, Hf.
  destruct (py_eq s last); destruct (py_eq s (JStr "running")); run;
    rewrite ?extend_extend; simpl;
    eexists _, (evs0 ++ _); (split; [reflexivity|]);
    (split; [by rewrite forallb_app, L0
            | by rewrite (count_app is_completed), C0]).
Qed.

Lemma properties_step_failure (E : env) sid (t0 : Z) last (w : world) s :
  fst (Properties._check_status E sid w) = Ret s ->
  failure s = true ->
  exists evs,
    Properties.poll_step E sid t0 last w
      = (Ret (Done None), extend w (EvProgress sid :: evs))
    /\ forallb is_local evs = true
    /\ count is_completed evs = 0%nat.
Proof.
  intros Hs Hf. unfold failure in Hf.
  assert (s = JStr "failed" \/ s = JStr "error") as Hcases.
  { unfold in_strs in Hf. simpl in Hf. rewrite orb_false_r in Hf.
    apply orb_true_iff in Hf as [H|H]; apply py_eq_str in H; auto. }
  destruct (properties_check E sid w s Hs) as (evs0 & Hc & L0 & C0).
  unfold Properties.poll_step.
  erewrite bind_ret by exact Hc.
  unfold datetime_now. cbv beta.
  destruct (py_eq s last); destruct Hcases as [-> | ->]; run;
    rewrite ?extend_extend; simpl;
    eexists (evs0 ++ _); (split; [reflexivity|]);
    (split; [by rewrite forallb_app, L0
            | by rewrite (count_app is_completed), C0]).
Qed.

Lemma properties_fetch (E : env) sid (w : world) (d : json) :
  fst (Properties._fetch_data E sid w) = Ret d ->
  exists evs,
    Properties._fetch_data E sid w = (Ret d, extend w (EvSnapshot sid :: evs))
    /\ forallb is_local evs = true
    /\ count is_completed evs = 0%nat.
Proof.
  intros H. destruct (properties_fetch_world E sid w) as (evs & Hw & L).
  exists evs. split; [|done].
  rewrite (surjective_pairing (Properties._fetch_data E sid w)).
  by rewrite H, Hw.
Qed.

Lemma discover_fetch (E : env) sid (w : world) (d : json) :
  fst (Discover._fetch_data E sid w) = Ret d ->
  exists evs,
    Discover._fetch_data E sid w = (Ret d, extend w (EvSnapshot sid :: evs))
    /\ forallb is_local evs = true
    /\ count is_completed evs = 0%nat.
Proof.
  intros H. destruct (discover_fetch_world E sid w) as (evs & Hw & L).
  exists evs. split; [|done].
  rewrite (surjective_pairing (Discover._fetch_data E sid w)).
  by rewrite H, Hw.
Qed.

(** On [ready], a retrieval that returns nothing keeps the simple
    collector's loop going: it sleeps and goes round again. *)
Lemma properties_step_ready_nodata
    (E : env) sid (t0 : Z) prev (w : world) (d : json) :
  fst (Properties._check_status E sid w) = Ret (JStr "ready") ->
  fetched (Properties._fetch_data E) (fetches w) d ->
  truthy d = false ->
  exists prev' evs,
    Properties.poll_step E sid t0 prev w = (Ret (Next prev'), extend w evs)
    /\ count is_progress evs = 1%nat
    /\ count is_snapshot evs = 1%nat
    /\ count is_openw evs = 0%nat
    /\ last evs = Some (EvSleep 5).
Proof.
  intros Hs Hf Hd.
  destruct (properties_check E sid w _ Hs) as (evs0 & Hc & L0 & C0).
  destruct (count_local evs0 L0) as (P0 & S0 & W0 & R0 & Q0).
  unfold Properties.poll_step.
  erewrite bind_ret by exact Hc.
  unfold datetime_now. cbv beta.
  destruct (py_eq (JStr "ready") prev); run; rewrite ?extend_extend; simpl;
    match goal with |- context [Properties._fetch_data E sid ?w2] =>
      destruct (properties_fetch E sid w2 d) as (evs1 & Hfd & L1 & C1);
        [ apply Hf; rewrite fetches_extend, count_cons, (count_app is_snapshot), S0;
          unfold count; simpl; lia
        | rewrite Hfd ]
    end;
    destruct (count_local evs1 L1) as (P1 & S1 & W1 & R1 & Q1);
    simpl; rewrite Hd; simpl; rewrite ?extend_extend; simpl;
    eexists _, _; (split; [reflexivity|]);
    count_norm is_progress; count_norm is_snapshot; count_norm is_openw;
    rewrite P0, S0, W0, P1, S1, W1; simpl; (repeat split; try done);
    rewrite last_cons, !last_app, last_cons, last_app; done.
Qed.

(** On [ready], a retrieval that returns data ends the simple
    collector's loop with [True], after one attempt to write. *)
Lemma properties_step_ready_data
    (E : env) sid (t0 : Z) prev (w : world) (d : json) :
  fst (Properties._check_status E sid w) = Ret (JStr "ready") ->
  fetched (Properties._fetch_data E) (fetches w) d ->
  truthy d = true ->
  exists w' evs,
    Properties.poll_step E sid t0 prev w = (Ret (Done (Some true)), w')
    /\ trace w' = trace w ++ evs
    /\ count is_progress evs = 1%nat
    /\ count is_snapshot evs = 1%nat
    /\ count is_openw evs = 1%nat.
Proof.
  intros Hs Hf Hd.
  destruct (properties_check E sid w _ Hs) as (evs0 & Hc & L0 & C0).
  destruct (count_local evs0 L0) as (P0 & S0 & W0 & R0 & Q0).
  unfold Properties.poll_step.
  erewrite bind_ret by exact Hc.
  unfold datetime_now. cbv beta.
  destruct (py_eq (JStr "ready") prev); run; rewrite ?extend_extend; simpl;
    match goal with |- context [Properties._fetch_data E sid ?w2] =>
      destruct (properties_fetch E sid w2 d) as (evs1 & Hfd & L1 & C1);
        [ apply Hf; rewrite fetches_extend; count_norm is_snapshot;
          rewrite S0; simpl; lia
        | rewrite Hfd ]
    end;
    destruct (count_local evs1 L1) as (P1 & S1 & W1 & R1 & Q1);
    simpl; rewrite Hd; simpl; rewrite ?extend_extend; simpl;
    match goal with |- context [Properties._save_data E d ?f ?w3] =>
      destruct (properties_save_returns E d f w3) as (w4 & evs2 & Hsv & Ht & L2);
      rewrite Hsv
    end;
    destruct (count_local evs2 L2) as (P2 & S2 & W2 & R2 & Q2);
    simpl; eexists _, _; (split; [reflexivity|]); simpl; rewrite Ht; simpl;
    rewrite <- !app_assoc; (split; [reflexivity|]);
    count_norm is_progress; count_norm is_snapshot; count_norm is_openw;
    rewrite P0, S0, W0, P1, S1, W1, P2, S2, W2; simpl; done.
Qed.

(** While only waiting statuses are observed, the simple collector's
    loop goes round once for each. *)
Lemma properties_poll_unroll (E : env) sid (t0 : Z) (l : list json) :
  forall prev (w : world),
    Forall (fun s => waiting s = true) l ->
    observed (Properties._check_status E) (polls w) l ->
    exists prev' evs,
      (forall fuel : nat,
         while_true (length l + fuel) (Properties.poll_step E sid t0) prev w
         = while_true fuel (Properties.poll_step E sid t0) prev'
             (extend w evs))
      /\ count is_progress evs = length l
      /\ forallb is_polling evs = true
      /\ count is_completed evs = 0%nat.
Proof.
  induction l as [|s l IH]; intros prev w Hw Hobs.
  - exists prev, []. split; [|done]. intros fuel. by rewrite extend_nil.
  - apply Forall_cons in Hw as [Hs Hw].
    destruct (properties_step_waiting E sid t0 prev w s)
      as (prev1 & evs1 & H1 & L1 & C1); [by eapply observed_head | done |].
    destruct (count_local evs1 L1) as (P1 & _).
    destruct (IH prev1 (extend w (EvProgress sid :: evs1)))
      as (prev' & evs & H2 & P2 & L2 & C2); [done | |].
    { rewrite polls_extend, count_cons, P1. simpl.
      replace (polls w + 1)%nat with (S (polls w)) by lia.
      by eapply observed_tail. }
    exists prev', ((EvProgress sid :: evs1) ++ evs).
    split; [|split; [|split]].
    + intros fuel. simpl. erewrite bind_ret by exact H1. simpl.
      by rewrite H2, extend_extend.
    + by rewrite count_app, count_cons, P1, P2.
    + rewrite forallb_app. simpl. by rewrite (forallb_local_polling _ L1), L2.
    + by rewrite count_app, count_cons, C1, C2.
Qed.

(** ** From submission to polling *)

Lemma accepted_response (m : list (string * json)) (sid : json) :
  obj_lookup "snapshot_id" m = Some sid ->
  truthy (JObj m) = true
  /\ py_contains "snapshot_id" (JObj m) = mret true
  /\ py_getitem (JObj m) "snapshot_id" = mret sid.
Proof.
  intros H. unfold py_contains, py_getitem. rewrite H.
  repeat split. by destruct m.
Qed.

Lemma discover_trigger_accepted (E : env) filters (w : world) sid :
  accepted (post_reply E (posts w)) sid ->
  exists cr,
    Discover._trigger_collection E filters w
      = (Ret cr, extend w [EvPost filters])
    /\ truthy cr = true
    /\ py_contains "snapshot_id" cr = mret true
    /\ py_getitem cr "snapshot_id" = mret sid.
Proof.
  intros (resp & m & Hr & Hc & Hb & Hm). exists (JObj m).
  split; [|by apply accepted_response].
  unfold Discover._trigger_collection, for_each, Discover.trigger_attempt,
    requests_post, raise_for_status, response_json.
  run. by rewrite Hr, Hc, Hb.
Qed.

Lemma properties_trigger_accepted (E : env) urls (w : world) sid :
  accepted (post_reply E (posts w)) sid ->
  exists cr,
    Properties._trigger_collection E urls w
      = (Ret cr, extend w [EvPost urls])
    /\ truthy cr = true
    /\ py_contains "snapshot_id" cr = mret true
    /\ py_getitem cr "snapshot_id" = mret sid.
Proof.
  intros (resp & m & Hr & Hc & Hb & Hm). exists (JObj m).
  split; [|by apply accepted_response].
  unfold Properties._trigger_collection, requests_post, raise_for_status,
    response_json.
  run. by rewrite Hr, Hc, Hb.
Qed.

Lemma discover_run_started
    (E : env) (fuel : nat) filters output_file (w : world) sid :
  Discover._clean_filters filters <> [] ->
  accepted (post_reply E (posts w)) sid ->
  Discover.collect_properties E fuel filters output_file w
    = discover_finish E output_file
        (Discover._monitor_collection E fuel sid
           (now E (count is_now (trace w)))
           (discover_polling w (Discover._clean_filters filters) sid)).
Proof.
  intros Hc Ha.
  unfold Discover.collect_properties, Discover.collect_properties_with,
    discover_finish, datetime_now.
  destruct (Discover._clean_filters filters) as [|f cleaned] eqn:Hcl; [done|].
  run.
  match goal with |- context [Discover._trigger_collection E ?c ?w1] =>
    destruct (discover_trigger_accepted E c w1 sid)
      as (cr & Ht & Hcr & Hin & Hget);
      [ by replace (posts w1) with (posts w)
          by (rewrite !posts_extend; unfold count; simpl; lia)
      | rewrite Ht ]
  end.
  rewrite Hcr, Hin, Hget. run.
  rewrite !extend_extend. simpl. unfold discover_polling.
  by destruct (Discover._monitor_collection E fuel sid _ _) as [[]].
Qed.

Lemma properties_run_started
    (E : env) (fuel : nat) property_urls (w : world) sid :
  accepted (post_reply E (posts w)) sid ->
  Properties.collect_properties E fuel property_urls w
    = while_true fuel
        (Properties.poll_step E sid (now E (count is_now (trace w)))) JNull
        (properties_polling w property_urls).
Proof.
  intros Ha.
  unfold Properties.collect_properties, datetime_now.
  run.
  match goal with |- context [Properties._trigger_collection E ?c ?w1] =>
    destruct (properties_trigger_accepted E c w1 sid)
      as (cr & Ht & Hcr & Hin & Hget);
      [ by replace (posts w1) with (posts w)
          by (rewrite !posts_extend; unfold count; simpl; lia)
      | rewrite Ht ]
  end.
  rewrite Hcr, Hin, Hget. run.
  by rewrite !extend_extend.
Qed.

(** ** The monitor of the discovery collector, as a whole *)

Lemma fuel_split (n fuel : nat) :
  (n < fuel)%nat -> exists fuel', fuel = (n + S fuel')%nat.
Proof. intros H. exists (fuel - n - 1)%nat. lia. Qed.

Lemma discover_monitor_failure
    (E : env) (fuel : nat) sid (t0 : Z) (l : list json) (s : json) (w : world) :
  (length l < fuel)%nat ->
  Forall (fun s => waiting s = true) l ->
  failure s = true ->
  observed (Discover._check_status E) (polls w) (l ++ [s]) ->
  exists evs,
    Discover._monitor_collection E fuel sid t0 w = (Ret JNull, extend w evs)
    /\ count is_progress evs = S (length l)
    /\ forallb is_polling evs = true
    /\ count is_completed evs = 0%nat.
Proof.
  intros Hfuel Hw Hf Hobs.
  destruct (fuel_split _ _ Hfuel) as (fuel' & ->).
  apply observed_app in Hobs as [Hl Hs].
  destruct (discover_monitor_unroll E sid t0 l (JNull, []) w Hw Hl)
    as (st & evs & Hrun & P & L & C).
  destruct (discover_step_failure E sid t0 st (extend w evs) s)
    as (evs1 & H1 & L1 & C1); [|done|].
  { eapply observed_head; [exact Hs|]. by rewrite polls_extend, P. }
  destruct (count_local evs1 L1) as (P1 & _).
  exists (evs ++ EvProgress sid :: evs1).
  unfold Discover._monitor_collection. rewrite Hrun. simpl.
  erewrite bind_ret by exact H1. simpl. rewrite extend_extend.
  split; [done|]. split; [|split].
  - rewrite count_app, count_cons, P, P1. simpl. lia.
  - rewrite forallb_app. simpl. by rewrite L, (forallb_local_polling _ L1).
  - by rewrite count_app, count_cons, C, C1.
Qed.

Lemma discover_monitor_ready
    (E : env) (fuel : nat) sid (t0 : Z) (l : list json) (w : world) :
  (length l < fuel)%nat ->
  Forall (fun s => waiting s = true) l ->
  observed (Discover._check_status E) (polls w) (l ++ [JStr "ready"]) ->
  exists evs t,
    Discover._monitor_collection E fuel sid t0 w
      = Discover._fetch_data E sid (extend w (evs ++ [completed_line t]))
    /\ count is_progress evs = S (length l)
    /\ forallb is_polling evs = true
    /\ count is_completed evs = 0%nat.
Proof.
  intros Hfuel Hw Hobs.
  destruct (fuel_split _ _ Hfuel) as (fuel' & ->).
  apply observed_app in Hobs as [Hl Hs].
  destruct (discover_monitor_unroll E sid t0 l (JNull, []) w Hw Hl)
    as (st & evs & Hrun & P & L & C).
  destruct (discover_step_ready E sid t0 st (extend w evs))
    as (evs1 & t & H1 & L1 & C1).
  { eapply observed_head; [exact Hs|]. by rewrite polls_extend, P. }
  destruct (count_local evs1 L1) as (P1 & _).
  exists (evs ++ EvProgress sid :: evs1), t.
  unfold Discover._monitor_collection. rewrite Hrun. simpl.
  unfold mbind, M_bind. rewrite H1.
  rewrite extend_extend, <- app_assoc. simpl.
  split; [|split; [|split]].
  - match goal with |- context [Discover._fetch_data E sid ?x] =>
      by destruct (Discover._fetch_data E sid x) as [[]] end.
  - rewrite count_app, count_cons, P, P1. simpl. lia.
  - rewrite forallb_app. simpl. by rewrite L, (forallb_local_polling _ L1).
  - by rewrite count_app, count_cons, C, C1.
Qed.

(** ** The poll loop of the simple collector, as a whole *)

Lemma properties_loop_failure
    (E : env) (fuel : nat) sid (t0 : Z) (l : list json) (s : json) prev
    (w : world) :
  (length l < fuel)%nat ->
  Forall (fun s => waiting s = true) l ->
  failure s = true ->
  observed (Properties._check_status E) (polls w) (l ++ [s]) ->
  exists evs,
    while_true fuel (Properties.poll_step E sid t0) prev w
      = (Ret None, extend w evs)
    /\ count is_progress evs = S (length l)
    /\ forallb is_polling evs = true.
Proof.
  intros Hfuel Hw Hf Hobs.
  destruct (fuel_split _ _ Hfuel) as (fuel' & ->).
  apply observed_app in Hobs as [Hl Hs].
  destruct (properties_poll_unroll E sid t0 l prev w Hw Hl)
    as (prev' & evs & Hrun & P & L & C).
  destruct (properties_step_failure E sid t0 prev' (extend w evs) s)
    as (evs1 & H1 & L1 & C1); [|done|].
  { eapply observed_head; [exact Hs|]. by rewrite polls_extend, P. }
  destruct (count_local evs1 L1) as (P1 & _).
  exists (evs ++ EvProgress sid :: evs1).
  rewrite Hrun. simpl.
  erewrite bind_ret by exact H1. simpl. rewrite extend_extend.
  split; [done|]. split.
  - rewrite count_app, count_cons, P, P1. simpl. lia.
  - rewrite forallb_app. simpl. by rewrite L, (forallb_local_polling _ L1).
Qed.

Lemma properties_loop_ready_data
    (E : env) (fuel : nat) sid (t0 : Z) (l : list json) (d : json) prev
    (w : world) :
  (length l < fuel)%nat ->
  Forall (fun s => waiting s = true) l ->
  observed (Properties._check_status E) (polls w) (l ++ [JStr "ready"]) ->
  fetched (Properties._fetch_data E) (fetches w) d ->
  truthy d = true ->
  exists w' evs,
    while_true fuel (Properties.poll_step E sid t0) prev w
      = (Ret (Some true), w')
    /\ trace w' = trace w ++ evs
    /\ count is_progress evs = S (length l)
    /\ count is_snapshot evs = 1%nat
    /\ count is_openw evs = 1%nat.
Proof.
  intros Hfuel Hw Hobs Hfd Hd.
  destruct (fuel_split _ _ Hfuel) as (fuel' & ->).
  apply observed_app in Hobs as [Hl Hs].
  destruct (properties_poll_unroll E sid t0 l prev w Hw Hl)
    as (prev' & evs & Hrun & P & L & C).
  destruct (count_polling evs L) as (S0 & W0 & _).
  destruct (properties_step_ready_data E sid t0 prev' (extend w evs) d)
    as (w' & evs1 & H1 & T1 & P1 & S1 & W1); [| |done|].
  { eapply observed_head; [exact Hs|]. by rewrite polls_extend, P. }
  { by rewrite fetches_extend, S0, Nat.add_0_r. }
  exists w', (evs ++ evs1).
  rewrite Hrun. simpl. erewrite bind_ret by exact H1. simpl.
  split; [done|]. split; [by rewrite T1, trace_extend, app_assoc|].
  rewrite !count_app, P, P1, S0, S1, W0, W1. repeat split; lia.
Qed.

Lemma properties_loop_ready_nodata
    (E : env) sid (t0 : Z) (l : list json) (d : json) prev (w : world) :
  Forall (fun s => waiting s = true) l ->
  observed (Properties._check_status E) (polls w) (l ++ [JStr "ready"]) ->
  fetched (Properties._fetch_data E) (fetches w) d ->
  truthy d = false ->
  exists prev' evs,
    (forall k : nat,
       while_true (length l + S k) (Properties.poll_step E sid t0) prev w
       = while_true k (Properties.poll_step E sid t0) prev' (extend w evs))
    /\ count is_progress evs = S (length l)
    /\ count is_snapshot evs = 1%nat
    /\ count is_openw evs = 0%nat
    /\ last evs = Some (EvSleep 5).
Proof.
  intros Hw Hobs Hfd Hd.
  apply observed_app in Hobs as [Hl Hs].
  destruct (properties_poll_unroll E sid t0 l prev w Hw Hl)
    as (prev' & evs & Hrun & P & L & C).
  destruct (count_polling evs L) as (S0 & W0 & _).
  destruct (properties_step_ready_nodata E sid t0 prev' (extend w evs) d)
    as (prev1 & evs1 & H1 & P1 & S1 & W1 & L1); [| |done|].
  { eapply observed_head; [exact Hs|]. by rewrite polls_extend, P. }
  { by rewrite fetches_extend, S0, Nat.add_0_r. }
  exists prev1, (evs ++ evs1).
  split.
  { intros k. rewrite Hrun. simpl. erewrite bind_ret by exact H1. simpl.
    by rewrite extend_extend. }
  rewrite !count_app, P, P1, S0, S1, W0, W1, last_app, L1.
  repeat split; lia.
Qed.

(** ** Runs that reach the poll loop *)

Lemma polls_discover_polling (w : world) cleaned sid :
  polls (discover_polling w cleaned sid) = polls w
  /\ fetches (discover_polling w cleaned sid) = fetches w
  /\ writes (discover_polling w cleaned sid) = writes w.
Proof.
  unfold discover_polling.
  rewrite polls_extend, fetches_extend, writes_extend. unfold count. simpl.
  lia.
Qed.

Lemma polls_properties_polling (w : world) urls :
  polls (properties_polling w urls) = polls w
  /\ fetches (properties_polling w urls) = fetches w
  /\ writes (properties_polling w urls) = writes w.
Proof.
  unfold properties_polling.
  rewrite polls_extend, fetches_extend, writes_extend. unfold count. simpl.
  lia.
Qed.

Lemma discover_run_failure
    (E : env) (fuel : nat) filters output_file sid (l : list json) (s : json)
    (w : world) :
  (length l < fuel)%nat ->
  Discover._clean_filters filters <> [] ->
  accepted (post_reply E (posts w)) sid ->
  Forall (fun s => waiting s = true) l ->
  failure s = true ->
  observed (Discover._check_status E) (polls w) (l ++ [s]) ->
  exists w',
    Discover.collect_properties E fuel filters output_file w = (Ret false, w')
    /\ polls w' = (polls w + S (length l))%nat
    /\ fetches w' = fetches w
    /\ writes w' = writes w
    /\ fs w' = fs w.
Proof.
  intros Hfuel Hc Ha Hw Hf Hobs.
  rewrite (discover_run_started E fuel filters output_file w sid Hc Ha).
  set (w1 := discover_polling w (Discover._clean_filters filters) sid).
  destruct (polls_discover_polling w (Discover._clean_filters filters) sid)
    as (Hp1 & Hf1 & Hw1). fold w1 in Hp1, Hf1, Hw1.
  destruct (discover_monitor_failure E fuel sid
              (now E (count is_now (trace w))) l s w1)
    as (evs & Hm & P & L & C); try done.
  { by rewrite Hp1. }
  destruct (count_polling evs L) as (S0 & W0 & _).
  rewrite Hm. exists (extend w1 evs).
  split; [done|].
  rewrite polls_extend, fetches_extend, writes_extend, P, S0, W0, Hp1, Hf1, Hw1.
  repeat split; lia.
Qed.

Lemma properties_run_failure
    (E : env) (fuel : nat) urls sid (l : list json) (s : json) (w : world) :
  (length l < fuel)%nat ->
  accepted (post_reply E (posts w)) sid ->
  Forall (fun s => waiting s = true) l ->
  failure s = true ->
  observed (Properties._check_status E) (polls w) (l ++ [s]) ->
  exists w',
    Properties.collect_properties E fuel urls w = (Ret None, w')
    /\ polls w' = (polls w + S (length l))%nat
    /\ fetches w' = fetches w
    /\ writes w' = writes w
    /\ fs w' = fs w.
Proof.
  intros Hfuel Ha Hw Hf Hobs.
  rewrite (properties_run_started E fuel urls w sid Ha).
  set (w1 := properties_polling w urls).
  destruct (polls_properties_polling w urls) as (Hp1 & Hf1 & Hw1).
  fold w1 in Hp1, Hf1, Hw1.
  destruct (properties_loop_failure E fuel sid
              (now E (count is_now (trace w))) l s JNull w1)
    as (evs & Hm & P & L); try done.
  { by rewrite Hp1. }
  destruct (count_polling evs L) as (S0 & W0 & _).
  rewrite Hm. exists (extend w1 evs).
  split; [done|].
  rewrite polls_extend, fetches_extend, writes_extend, P, S0, W0, Hp1, Hf1, Hw1.
  repeat split; lia.
Qed.

Lemma discover_run_no_data
    (E : env) (fuel : nat) filters output_file sid (l : list json) (d : json)
    (w : world) :
  (length l < fuel)%nat ->
  Discover._clean_filters filters <> [] ->
  accepted (post_reply E (posts w)) sid ->
  Forall (fun s => waiting s = true) l ->
  observed (Discover._check_status E) (polls w) (l ++ [JStr "ready"]) ->
  fetched (Discover._fetch_data E) (fetches w) d ->
  truthy d = false ->
  exists w',
    Discover.collect_properties E fuel filters output_file w = (Ret false, w')
    /\ polls w' = (polls w + S (length l))%nat
    /\ fetches w' = S (fetches w)
    /\ writes w' = writes w
    /\ fs w' = fs w.
Proof.
  intros Hfuel Hc Ha Hw Hobs Hfd Hd.
  rewrite (discover_run_started E fuel filters output_file w sid Hc Ha).
  set (w1 := discover_polling w (Discover._clean_filters filters) sid).
  destruct (polls_discover_polling w (Discover._clean_filters filters) sid)
    as (Hp1 & Hf1 & Hw1). fold w1 in Hp1, Hf1, Hw1.
  destruct (discover_monitor_ready E fuel sid
              (now E (count is_now (trace w))) l w1)
    as (evs & t & Hm & P & L & C); try done.
  { by rewrite Hp1. }
  destruct (count_polling evs L) as (S0 & W0 & _).
  set (w2 := extend w1 (evs ++ [completed_line t])) in Hm.
  assert (polls w2 = (polls w + S (length l))%nat
          /\ fetches w2 = fetches w /\ writes w2 = writes w) as (Hp2 & Hf2 & Hw2).
  { unfold w2. rewrite polls_extend, fetches_extend, writes_extend.
    count_norm is_progress. count_norm is_snapshot. count_norm is_openw.
    rewrite P, S0, W0, Hp1, Hf1, Hw1. simpl. lia. }
  destruct (discover_fetch E sid w2 d) as (evs1 & Hfetch & L1 & C1).
  { apply Hfd. exact Hf2. }
  destruct (count_local evs1 L1) as (P1 & S1 & W1 & _).
  rewrite Hm, Hfetch. exists (extend w2 (EvSnapshot sid :: evs1)).
  split.
  { unfold discover_finish. run. by rewrite Hd. }
  rewrite polls_extend, fetches_extend, writes_extend.
  count_norm is_progress. count_norm is_snapshot. count_norm is_openw.
  rewrite P1, S1, W1, Hp2, Hf2, Hw2. simpl. repeat split; lia.
Qed.

(** ** Terminal failure of the job *)

(** C6: when the status checks observe [failed] or [error] before any
    [ready], both collectors report failure ([False], respectively
    [None]) after exactly that many checks, and neither the retrieval
    request nor the write to the destination is ever performed. *)
Theorem failure_before_ready_skips_fetch_and_sink
    (E : env) (fuel : nat) (filters : list (gmap string string))
    (output_file : string) (sid : json) (l : list json) (s : json)
    (w : world) :
  (length l < fuel)%nat ->
  Discover._clean_filters filters <> [] ->
  accepted (post_reply E (posts w)) sid ->
  Forall (fun s => waiting s = true) l ->
  failure s = true ->
  observed (Discover._check_status E) (polls w) (l ++ [s]) ->
  observed (Properties._check_status E) (polls w) (l ++ [s]) ->
  (exists w',
     Discover.collect_properties E fuel filters output_file w = (Ret false, w')
     /\ polls w' = (polls w + S (length l))%nat
     /\ fetches w' = fetches w
     /\ writes w' = writes w
     /\ fs w' = fs w)
  /\ (exists w',
        Properties.collect_properties E fuel filters w = (Ret None, w')
        /\ polls w' = (polls w + S (length l))%nat
        /\ fetches w' = fetches w
        /\ writes w' = writes w
        /\ fs w' = fs w).
Proof.
  intros Hfuel Hc Ha Hw Hf Hd Hp. split.
  - by eapply discover_run_failure.
  - by eapply properties_run_failure.
Qed.

(** ** What the collectors make of a reply *)

Lemma discover_check_reports (E : env) sid (w : world) (s : json) :
  reports (progress_reply E (polls w)) s ->
  fst (Discover._check_status E sid w) = Ret s.
Proof.
  intros (m & (resp & Hr & Hc & Hb) & Hm).
  unfold Discover._check_status, requests_get_progress, raise_for_status,
    response_json, py_get.
  run. by rewrite Hr, Hc, Hb, Hm.
Qed.

Lemma properties_check_reports (E : env) sid (w : world) (s : json) :
  reports (progress_reply E (polls w)) s ->
  fst (Properties._check_status E sid w) = Ret s.
Proof.
  intros (m & (resp & Hr & Hc & Hb) & Hm).
  unfold Properties._check_status, requests_get_progress, raise_for_status,
    response_json, py_get.
  run. by rewrite Hr, Hc, Hb, Hm.
Qed.

Lemma discover_check_transport_failure (E : env) sid (w : world) :
  transport_failure (progress_reply E (polls w)) ->
  Discover._check_status E sid w = (Ret (JStr "error"), extend w [EvProgress sid]).
Proof.
  intros H. apply discover_check. revert H.
  unfold transport_failure, Discover._check_status, requests_get_progress,
    raise_for_status.
  run. destruct (progress_reply E (polls w)) as [e|r]; simpl; by intros ->.
Qed.

Lemma properties_check_transport_failure (E : env) sid (w : world) :
  transport_failure (progress_reply E (polls w)) ->
  fst (Properties._check_status E sid w) = Ret (JStr "error").
Proof.
  unfold transport_failure, Properties._check_status, requests_get_progress,
    raise_for_status.
  run. destruct (progress_reply E (polls w)) as [e|r]; simpl; by intros ->.
Qed.

Lemma observed_reports (E : env) (k : nat) (l : list json) :
  (forall i s, l !! i = Some s -> reports (progress_reply E (k + i)) s) ->
  observed (Discover._check_status E) k l
  /\ observed (Properties._check_status E) k l.
Proof.
  intros H. split; intros i s sid w Hi Hk.
  - apply discover_check_reports. rewrite Hk. by apply H.
  - apply properties_check_reports. rewrite Hk. by apply H.
Qed.

Lemma discover_fetched_answer (E : env) (k : nat) (j : json) :
  answers (snapshot_reply E k) j -> fetched (Discover._fetch_data E) k j.
Proof.
  intros (resp & Hr & Hc & Hb) sid w Hk.
  unfold Discover._fetch_data, requests_get_snapshot, raise_for_status,
    response_json.
  run. by rewrite Hk, Hr, Hc, Hb.
Qed.

Lemma properties_fetched_answer (E : env) (k : nat) (j : json) :
  answers (snapshot_reply E k) j -> fetched (Properties._fetch_data E) k j.
Proof.
  intros (resp & Hr & Hc & Hb) sid w Hk.
  unfold Properties._fetch_data, requests_get_snapshot, raise_for_status,
    response_json.
  run. by rewrite Hk, Hr, Hc, Hb.
Qed.

Lemma discover_fetched_failure (E : env) (k : nat) :
  transport_failure (snapshot_reply E k) ->
  fetched (Discover._fetch_data E) k JNull.
Proof.
  intros H sid w Hk. revert H.
  unfold transport_failure, Discover._fetch_data, requests_get_snapshot,
    raise_for_status.
  run. rewrite Hk.
  destruct (snapshot_reply E k) as [e|r]; simpl; by intros ->.
Qed.

Lemma properties_fetched_failure (E : env) (k : nat) :
  transport_failure (snapshot_reply E k) ->
  fetched (Properties._fetch_data E) k JNull.
Proof.
  intros H sid w Hk. revert H.
  unfold transport_failure, Properties._fetch_data, requests_get_snapshot,
    raise_for_status.
  run. rewrite Hk.
  destruct (snapshot_reply E k) as [e|r]; simpl; by intros ->.
Qed.

(** ** Transport failure of a status check *)

Lemma observed_snoc (check : json -> M json) (k : nat) (l : list json) s :
  observed check k l ->
  (forall sid w, polls w = (k + length l)%nat -> fst (check sid w) = Ret s) ->
  observed check k (l ++ [s]).
Proof.
  intros Hl Hs i s' sid w Hi Hk.
  destruct (decide (i < length l)%nat) as [Hlt|Hge].
  - rewrite lookup_app_l in Hi by done. by eapply Hl.
  - rewrite lookup_app_r in Hi by lia.
    destruct (i - length l)%nat as [|n] eqn:Hn; simpl in Hi; [|done].
    injection Hi as <-. apply Hs. lia.
Qed.

(** C1, as the code has it: a status check that fails at the transport
    level is recorded as the status [error], not [unknown]; [error] is
    failure-terminal, so that poll is the last one and the run reports
    failure ([False], respectively [None]) without retrieving or writing
    anything. *)
Theorem transport_failure_ends_run
    (E : env) (fuel : nat) (filters : list (gmap string string))
    (output_file : string) (sid : json) (l : list json) (w : world) :
  (length l < fuel)%nat ->
  Discover._clean_filters filters <> [] ->
  accepted (post_reply E (posts w)) sid ->
  Forall (fun s => waiting s = true) l ->
  observed (Discover._check_status E) (polls w) l ->
  observed (Properties._check_status E) (polls w) l ->
  transport_failure (progress_reply E (polls w + length l)) ->
  observed (Discover._check_status E) (polls w) (l ++ [JStr "error"])
  /\ observed (Properties._check_status E) (polls w) (l ++ [JStr "error"])
  /\ (exists w',
        Discover.collect_properties E fuel filters output_file w
          = (Ret false, w')
        /\ polls w' = (polls w + S (length l))%nat
        /\ fetches w' = fetches w
        /\ writes w' = writes w
        /\ fs w' = fs w)
  /\ (exists w',
        Properties.collect_properties E fuel filters w = (Ret None, w')
        /\ polls w' = (polls w + S (length l))%nat
        /\ fetches w' = fetches w
        /\ writes w' = writes w
        /\ fs w' = fs w).
Proof.
  intros Hfuel Hc Ha Hw Hd Hp Ht.
  assert (observed (Discover._check_status E) (polls w) (l ++ [JStr "error"]))
    as Hd'.
  { apply observed_snoc; [done|]. intros sid' w' Hk.
    rewrite discover_check_transport_failure; [done | by rewrite Hk]. }
  assert (observed (Properties._check_status E) (polls w)
            (l ++ [JStr "error"])) as Hp'.
  { apply observed_snoc; [done|]. intros sid' w' Hk.
    apply properties_check_transport_failure. by rewrite Hk. }
  split; [done|]. split; [done|]. split.
  - by apply (discover_run_failure E fuel filters output_file sid l
                (JStr "error") w).
  - by apply (properties_run_failure E fuel filters sid l (JStr "error") w).
Qed.

(** ** Retrieval after [ready] *)

(** C2, as the code has it: when the job is [ready] and the retrieval
    returns no data, the discovery collector ends the run with [False]
    after that one retrieval, with no further status check and nothing
    written; the simple collector does not end the run: the round that
    saw [ready] sleeps five seconds and, whatever rounds are left, the
    loop goes on with the next one, that is, with the next status
    check. *)
Theorem fetch_failure_after_ready
    (E : env) (fuel : nat) (filters : list (gmap string string))
    (output_file : string) (sid : json) (l : list json) (d : json)
    (w : world) :
  (length l < fuel)%nat ->
  Discover._clean_filters filters <> [] ->
  accepted (post_reply E (posts w)) sid ->
  Forall (fun s => waiting s = true) l ->
  observed (Discover._check_status E) (polls w) (l ++ [JStr "ready"]) ->
  observed (Properties._check_status E) (polls w) (l ++ [JStr "ready"]) ->
  fetched (Discover._fetch_data E) (fetches w) d ->
  fetched (Properties._fetch_data E) (fetches w) d ->
  truthy d = false ->
  (exists w',
     Discover.collect_properties E fuel filters output_file w = (Ret false, w')
     /\ polls w' = (polls w + S (length l))%nat
     /\ fetches w' = S (fetches w)
     /\ writes w' = writes w
     /\ fs w' = fs w)
  /\ (exists prev' w',
        (forall k : nat,
           Properties.collect_properties E (length l + S k) filters w
           = while_true k
               (Properties.poll_step E sid (now E (count is_now (trace w))))
               prev' w')
        /\ polls w' = (polls w + S (length l))%nat
        /\ fetches w' = S (fetches w)
        /\ writes w' = writes w
        /\ last (trace w') = Some (EvSleep 5)).
Proof.
  intros Hfuel Hc Ha Hw Hd Hp Hfd Hfp Hfalse. split.
  - by eapply discover_run_no_data.
  - set (w1 := properties_polling w filters).
    destruct (polls_properties_polling w filters) as (Hp1 & Hf1 & Hw1).
    fold w1 in Hp1, Hf1, Hw1.
    destruct (properties_loop_ready_nodata E sid
                (now E (count is_now (trace w))) l d JNull w1)
      as (prev' & evs & Hrun & P & S0 & W0 & L); try done.
    { by rewrite Hp1. }
    { by rewrite Hf1. }
    exists prev', (extend w1 evs). split.
    { intros k. rewrite (properties_run_started E _ filters w sid Ha).
      apply Hrun. }
    rewrite polls_extend, fetches_extend, writes_extend, P, S0, W0,
      Hp1, Hf1, Hw1, trace_extend, last_app, L.
    repeat split; lia.
Qed.

(** C10: when the job is [ready] and the retrieval answers with an empty
    result set, the discovery collector returns [False] and writes
    nothing, exactly as it does when the retrieval fails at the
    transport level. *)
Theorem empty_result_set_fails_run
    (E : env) (fuel : nat) (filters : list (gmap string string))
    (output_file : string) (sid : json) (l : list json) (w : world) :
  (length l < fuel)%nat ->
  Discover._clean_filters filters <> [] ->
  accepted (post_reply E (posts w)) sid ->
  Forall (fun s => waiting s = true) l ->
  observed (Discover._check_status E) (polls w) (l ++ [JStr "ready"]) ->
  answers (snapshot_reply E (fetches w)) (JArr []) ->
  (exists w',
     Discover.collect_properties E fuel filters output_file w = (Ret false, w')
     /\ fetches w' = S (fetches w)
     /\ writes w' = writes w
     /\ fs w' = fs w)
  /\ (forall E2 : env,
        accepted (post_reply E2 (posts w)) sid ->
        observed (Discover._check_status E2) (polls w) (l ++ [JStr "ready"]) ->
        transport_failure (snapshot_reply E2 (fetches w)) ->
        fst (Discover.collect_properties E2 fuel filters output_file w)
        = fst (Discover.collect_properties E fuel filters output_file w)).
Proof.
  intros Hfuel Hc Ha Hw Hd Hans.
  destruct (discover_run_no_data E fuel filters output_file sid l (JArr []) w)
    as (w' & Hrun & _ & Hf & Hwr & Hfs); try done.
  { by apply discover_fetched_answer. }
  split; [by exists w'|].
  intros E2 Ha2 Hd2 Ht2.
  destruct (discover_run_no_data E2 fuel filters output_file sid l JNull w)
    as (w2 & Hrun2 & _); try done.
  { by apply discover_fetched_failure. }
  by rewrite Hrun, Hrun2.
Qed.

(** ** Leaving the poll loop *)

(** C5, as the code has it: for statuses that end in the first [ready]
    after waiting ones only, the monitor of the discovery collector
    leaves its loop exactly once, right after that status check: it
    logs the completion once and hands over to the retrieval; the loop
    of the simple collector returns [True] there provided the retrieval
    returns data; and a round that observes a waiting status, such as
    [queued], [running] or [unknown], goes round again in both. *)
Theorem poll_loops_exit_on_ready
    (E : env) (fuel : nat) (sid : json) (t0 : Z) (l : list json) (w : world) :
  (length l < fuel)%nat ->
  Forall (fun s => waiting s = true) l ->
  observed (Discover._check_status E) (polls w) (l ++ [JStr "ready"]) ->
  observed (Properties._check_status E) (polls w) (l ++ [JStr "ready"]) ->
  (exists evs t,
     Discover._monitor_collection E fuel sid t0 w
       = Discover._fetch_data E sid (extend w (evs ++ [completed_line t]))
     /\ count is_progress evs = S (length l)
     /\ forallb is_polling evs = true
     /\ count is_completed evs = 0%nat)
  /\ (forall d prev,
        fetched (Properties._fetch_data E) (fetches w) d ->
        truthy d = true ->
        exists w' evs,
          while_true fuel (Properties.poll_step E sid t0) prev w
            = (Ret (Some true), w')
          /\ trace w' = trace w ++ evs
          /\ count is_progress evs = S (length l)
          /\ count is_snapshot evs = 1%nat)
  /\ (forall s st prev w0,
        waiting s = true ->
        (fst (Discover._check_status E sid w0) = Ret s ->
         exists st' w',
           Discover.monitor_step E sid t0 st w0 = (Ret (Next st'), w'))
        /\ (fst (Properties._check_status E sid w0) = Ret s ->
            exists prev' w',
              Properties.poll_step E sid t0 prev w0 = (Ret (Next prev'), w')))
  /\ Forall (fun s => waiting (JStr s) = true) ["queued"; "running"; "unknown"].
Proof.
  intros Hfuel Hw Hd Hp. split; [|split; [|split]].
  - by apply discover_monitor_ready.
  - intros d prev Hfd Htr.
    destruct (properties_loop_ready_data E fuel sid t0 l d prev w)
      as (w' & evs & Hrun & Ht & P & S0 & _); try done.
    by exists w', evs.
  - intros s st prev w0 Hs. split; intros Hc.
    + destruct (discover_step_waiting E sid t0 st w0 s Hc Hs)
        as (st' & evs & H & _).
      by eexists _, _.
    + destruct (properties_step_waiting E sid t0 prev w0 s Hc Hs)
        as (prev' & evs & H & _).
      by eexists _, _.
  - by repeat constructor.
Qed.

(** ** Persistence *)

Lemma append_ne (s t : string) : t <> "" -> s <> s +:+ t.
Proof.
  intros Ht. induction s as [|c s IH]; simpl.
  - by destruct t.
  - intros H. injection H as H. by apply IH.
Qed.

Lemma backup_name_ne (E : env) (filename : string) (w : world) :
  filename <> backup_name E filename w.
Proof. unfold backup_name. by apply append_ne. Qed.

Lemma discover_save_fresh (E : env) data filename (w : world) :
  fs w !! filename = None ->
  Discover._save_data E data filename true w
  = match write_result E (writes w) with
    | WriteOk =>
        (Ret tt,
         {| fs := <[filename := dumps E data]> (fs w);
            trace := trace w ++ [EvOpenW filename] |})
    | OpenFails e =>
        if is_save_error e then
          (Raise e,
           extend w [EvOpenW filename;
                     EvLog ERROR [Lit "Failed to save data: "; ExcV e]])
        else (Raise e, extend w [EvOpenW filename])
    | DumpFails e written =>
        let w' :=
          {| fs := <[filename := String.substring 0 written (dumps E data)]>
                     (fs w);
             trace := trace w ++ [EvOpenW filename] |} in
        if is_save_error e then
          (Raise e,
           extend w' [EvLog ERROR [Lit "Failed to save data: "; ExcV e]])
        else (Raise e, w')
    end.
Proof.
  intros Hf. unfold Discover._save_data, os_path_exists, write_json.
  run. rewrite Hf. simpl.
  destruct (write_result E (writes w)) as [|e|e n]; simpl; [done| |];
    destruct (is_save_error e); simpl; by rewrite ?extend_extend.
Qed.

Lemma discover_save_rename_fails
    (E : env) data filename (w : world) (e : exception) :
  is_Some (fs w !! filename) ->
  rename_fault E (renames w) = Some e ->
  is_save_error e = true ->
  Discover._save_data E data filename true w
  = (Raise e,
     extend w
       [EvNow; EvRename filename (backup_name E filename w);
        EvLog ERROR [Lit "Failed to save data: "; ExcV e]]).
Proof.
  intros [c Hc] Hr He.
  unfold Discover._save_data, os_path_exists, os_rename, datetime_now,
    backup_name.
  run. rewrite Hc. simpl.
  replace (renames (extend w [EvNow])) with (renames w)
    by (rewrite renames_extend; unfold count; simpl; lia).
  rewrite Hr. simpl. rewrite He. simpl. by rewrite !extend_extend.
Qed.

(** A [_save_data] that returns has written the data to the
    destination and, when the destination existed, has moved its
    earlier content to the backup. *)
Lemma discover_save_returns (E : env) data filename (w w' : world) :
  Discover._save_data E data filename true w = (Ret tt, w') ->
  fs w' !! filename = Some (dumps E data)
  /\ (forall c, fs w !! filename = Some c ->
        fs w' !! backup_name E filename w = Some c).
Proof.
  destruct (fs w !! filename) as [c|] eqn:Hc.
  - unfold Discover._save_data, os_path_exists, os_rename, write_json,
      datetime_now.
    run. rewrite Hc. simpl.
    replace (renames (extend w [EvNow])) with (renames w)
      by (rewrite renames_extend; unfold count; simpl; lia).
    destruct (rename_fault E (renames w)) as [e|]; simpl.
    { by destruct (is_save_error e). }
    rewrite Hc. simpl.
    match goal with |- context [write_result E ?n] =>
      destruct (write_result E n) as [|e|e n'] end; simpl.
    + intros H. injection H as <-. simpl. split.
      * apply lookup_insert_eq.
      * intros c' [= <-]. fold (backup_name E filename w).
        rewrite lookup_insert_ne by apply backup_name_ne.
        apply lookup_insert_eq.
    + by destruct (is_save_error e).
    + by destruct (is_save_error e).
  - rewrite (discover_save_fresh E data filename w Hc).
    destruct (write_result E (writes w)) as [|e|e n]; simpl.
    + intros H. injection H as <-. simpl. split; [apply lookup_insert_eq|done].
    + by destruct (is_save_error e).
    + by destruct (is_save_error e).
Qed.

(** C7, as the code has it: with backups enabled and the destination
    present, a rename that fails is fatal to the write: [_save_data]
    logs the failure at error level and raises it again without opening
    the destination, which keeps its earlier content, and the run that
    called it returns [False]. *)
Theorem backup_failure_aborts_write
    (E : env) (data : json) (filename : string) (w : world) (e : exception) :
  is_Some (fs w !! filename) ->
  rename_fault E (renames w) = Some e ->
  is_save_error e = true ->
  truthy data = true ->
  Discover._save_data E data filename true w
  = (Raise e,
     extend w
       [EvNow; EvRename filename (backup_name E filename w);
        EvLog ERROR [Lit "Failed to save data: "; ExcV e]])
  /\ discover_finish E filename (Ret data, w)
     = (Ret false,
        extend w
          [EvNow; EvRename filename (backup_name E filename w);
           EvLog ERROR [Lit "Failed to save data: "; ExcV e];
           EvLog ERROR [Lit "Unexpected error during collection: "; ExcV e]]).
Proof.
  intros Hf Hr He Hd.
  pose proof (discover_save_rename_fails E data filename w e Hf Hr He) as Hs.
  split; [done|].
  unfold discover_finish. run. rewrite Hd. simpl. rewrite Hs. simpl.
  by rewrite extend_extend.
Qed.

(** C8: two persists to the same destination with backups enabled, both
    of which return: the destination holds the serialized second result
    set, and the backup named after the time of the second persist
    holds the serialized first one. *)
Theorem second_persist_backs_up_first
    (E : env) (first second : json) (destination : string) (w w1 w2 : world) :
  Discover._save_data E first destination true w = (Ret tt, w1) ->
  Discover._save_data E second destination true w1 = (Ret tt, w2) ->
  fs w2 !! destination = Some (dumps E second)
  /\ fs w2 !! backup_name E destination w1 = Some (dumps E first).
Proof.
  intros H1 H2.
  destruct (discover_save_returns E first destination w w1 H1) as [Hd1 _].
  destruct (discover_save_returns E second destination w1 w2 H2) as [Hd2 Hb2].
  split; [done|]. by apply Hb2.
Qed.

(** ** The boundary of the run *)

Lemma try_except_never_raises {A : Type} (m : M A) (h : exception -> M A)
    (w : world) :
  (forall e w', exists a w'', h e w' = (Ret a, w'')) ->
  forall e, fst (try_except m h w) <> Raise e.
Proof.
  intros Hh e. unfold try_except.
  destruct (m w) as [[a|e'|] w']; simpl; try done.
  by destruct (Hh e' w') as (a & w'' & ->).
Qed.

Lemma discover_with_never_raises
    (E : env)
    (clean : list (gmap string string) -> M (list (gmap string string)))
    (trigger : list (gmap string string) -> M json)
    (monitor : json -> Z -> M json) (save : json -> string -> M unit)
    filters output_file (w : world) (e : exception) :
  fst (Discover.collect_properties_with E clean trigger monitor save
         filters output_file w) <> Raise e.
Proof.
  unfold Discover.collect_properties_with, datetime_now.
  unfold mbind at 1. unfold M_bind at 1. simpl.
  apply try_except_never_raises.
  intros e' w'. by eexists _, _.
Qed.

(** Case analysis on the innermost call of a method body. *)
Ltac split_run :=
  repeat match goal with
  | |- context [match ?x with _ => _ end] =>
      lazymatch x with
      | context [match _ with _ => _ end] => fail
      | _ => destruct x eqn:?; simpl; try (intros [=]; fail)
      end
  end.

Lemma discover_true_is_success
    (E : env) (fuel : nat) filters output_file (w w' : world) :
  Discover.collect_properties E fuel filters output_file w = (Ret true, w') ->
  exists data,
    truthy data = true /\ fs w' !! output_file = Some (dumps E data).
Proof.
  unfold Discover.collect_properties, Discover.collect_properties_with,
    datetime_now.
  run. split_run.
  intros [= <-].
  match goal with
  | Hs : Discover._save_data E ?d output_file true ?w3 = (Ret ?u, ?w4) |- _ =>
      exists d; destruct u;
      destruct (discover_save_returns E d output_file w3 w4 Hs) as [Hfs _]
  end.
  split; [|done].
  match goal with H : negb (truthy ?d) = false |- truthy ?d = true =>
    by destruct (truthy d) end.
Qed.

(** ** The scenarios of the example environments *)

(** Discharge [answers], [accepted] and [reports] on a scripted reply. *)
Ltac stub_reply :=
  unfold reports, answers, accepted;
  repeat (first [ eexists | split ]); reflexivity.

(** Discharge [observed] on an explicit script, status by status. *)
Ltac stub_script i H :=
  destruct i as [|i]; simpl in H;
  [ first [ discriminate H | injection H as <-; stub_reply ]
  | first [ discriminate H | stub_script i H ] ].

Ltac stub_observed :=
  let i := fresh "i" in
  let s := fresh "s" in
  let H := fresh "H" in
  intros i s H; stub_script i H.

(** The end-to-end scenario: inputs with the location 92027, job
    [abc123], statuses [queued], [running], [running], [ready] and one
    record: the run succeeds after four status checks and one
    retrieval, and the destination holds exactly that record. *)
Example end_to_end_scenario :
  exists w',
    Discover.collect_properties E_success 10 example_filters "out.json"
      empty_world = (Ret true, w')
    /\ posts w' = 1%nat
    /\ polls w' = 4%nat
    /\ fetches w' = 1%nat
    /\ fs w' = {[ "out.json" := dumps E_success example_records ]}.
Proof. eexists. repeat split; vm_compute; reflexivity. Qed.

Lemma trigger_rate_limited_witness :
  always_rate_limited E_rate_limited
  /\ exists evs,
       Discover._trigger_collection E_rate_limited example_filters empty_world
         = (Ret JNull, extend empty_world evs)
       /\ count is_post evs = 3%nat
       /\ sleeps evs = [2; 4; 8]
       /\ last evs = Some (EvSleep 8).
Proof.
  assert (always_rate_limited E_rate_limited) as H.
  { intros k. eexists. split; reflexivity. }
  split; [exact H|].
  exact (trigger_rate_limited_sleeps_after_last_attempt
           E_rate_limited example_filters empty_world H).
Defined.

Lemma no_valid_inputs_witness :
  Forall no_location blank_filters
  /\ exists w',
       Discover.collect_properties E_success 5 blank_filters "out.json"
         empty_world = (Ret false, w')
       /\ w' = extend empty_world
            [EvNow;
             EvLog ERROR [Lit "No valid filters provided after cleaning"]]
       /\ count is_network (trace w') = count is_network (trace empty_world)
       /\ fs w' = fs empty_world.
Proof.
  assert (Forall no_location blank_filters) as H.
  { repeat constructor. }
  split; [exact H|].
  exact (no_valid_inputs_without_network
           E_success 5 blank_filters "out.json" empty_world H).
Defined.

Lemma failure_before_ready_witness :
  (exists w',
     Discover.collect_properties E_failed 5 example_filters "out.json"
       empty_world = (Ret false, w')
     /\ polls w' = 2%nat
     /\ fetches w' = 0%nat
     /\ writes w' = 0%nat
     /\ fs w' = ∅)
  /\ (exists w',
        Properties.collect_properties E_failed 5 example_filters empty_world
          = (Ret None, w')
        /\ polls w' = 2%nat
        /\ fetches w' = 0%nat
        /\ writes w' = 0%nat
        /\ fs w' = ∅).
Proof.
  assert (observed (Discover._check_status E_failed) 0
            ([JStr "queued"] ++ [JStr "failed"])
          /\ observed (Properties._check_status E_failed) 0
               ([JStr "queued"] ++ [JStr "failed"])) as [Hd Hp].
  { apply observed_reports. stub_observed. }
  apply (failure_before_ready_skips_fetch_and_sink
           E_failed 5 example_filters "out.json" (JStr "abc123")
           [JStr "queued"] (JStr "failed") empty_world).
  - simpl. lia.
  - vm_compute. discriminate.
  - stub_reply.
  - by repeat constructor.
  - reflexivity.
  - exact Hd.
  - exact Hp.
Defined.

Lemma transport_failure_witness :
  exists w',
    Discover.collect_properties E_poll_down 5 example_filters "out.json"
      empty_world = (Ret false, w')
    /\ polls w' = 2%nat
    /\ fetches w' = 0%nat
    /\ writes w' = 0%nat
    /\ fs w' = ∅.
Proof.
  assert (observed (Discover._check_status E_poll_down) 0 [JStr "running"]
          /\ observed (Properties._check_status E_poll_down) 0
               [JStr "running"]) as [Hd Hp].
  { apply observed_reports. stub_observed. }
  destruct (transport_failure_ends_run
              E_poll_down 5 example_filters "out.json" (JStr "abc123")
              [JStr "running"] empty_world) as (_ & _ & H & _).
  - simpl. lia.
  - vm_compute. discriminate.
  - stub_reply.
  - by repeat constructor.
  - exact Hd.
  - exact Hp.
  - reflexivity.
  - exact H.
Defined.

(** C1 fails as stated: the second status check of [E_poll_down] cannot
    connect; it is recorded as [error], not [unknown], the round leaves
    the loop, and both collectors report failure after two checks,
    although the third check would have answered [ready]. *)
Lemma poll_transport_failure_is_terminal :
  transport_failure (progress_reply E_poll_down 1)
  /\ reports (progress_reply E_poll_down 2) (JStr "ready")
  /\ (let w1 := extend empty_world [EvProgress (JStr "abc123")] in
      fst (Discover._check_status E_poll_down (JStr "abc123") w1)
        = Ret (JStr "error")
      /\ fst (Discover._check_status E_poll_down (JStr "abc123") w1)
           <> Ret (JStr "unknown")
      /\ exists w',
           Discover.monitor_step E_poll_down (JStr "abc123") 0
             (JStr "running", [(JStr "running", 1)]) w1
           = (Ret (Done JNull), w'))
  /\ (exists w',
        Discover.collect_properties E_poll_down 5 example_filters "out.json"
          empty_world = (Ret false, w')
        /\ polls w' = 2%nat)
  /\ (exists w',
        Properties.collect_properties E_poll_down 5 example_filters
          empty_world = (Ret None, w')
        /\ polls w' = 2%nat).
Proof.
  split; [reflexivity|]. split; [stub_reply|]. split; [|split].
  - split; [reflexivity|]. split; [by vm_compute|].
    eexists. vm_compute. reflexivity.
  - eexists. split; vm_compute; reflexivity.
  - eexists. split; vm_compute; reflexivity.
Qed.

Lemma fetch_failure_witness :
  (exists w',
     Discover.collect_properties E_fetch_down 5 example_filters "out.json"
       empty_world = (Ret false, w')
     /\ polls w' = 2%nat
     /\ fetches w' = 1%nat
     /\ writes w' = 0%nat
     /\ fs w' = ∅)
  /\ (exists prev' w',
        (forall k : nat,
           Properties.collect_properties E_fetch_down (1 + S k)
             example_filters empty_world
           = while_true k
               (Properties.poll_step E_fetch_down (JStr "abc123") 0)
               prev' w')
        /\ polls w' = 2%nat
        /\ fetches w' = 1%nat
        /\ writes w' = 0%nat
        /\ last (trace w') = Some (EvSleep 5)).
Proof.
  assert (observed (Discover._check_status E_fetch_down) 0
            ([JStr "running"] ++ [JStr "ready"])
          /\ observed (Properties._check_status E_fetch_down) 0
               ([JStr "running"] ++ [JStr "ready"])) as [Hd Hp].
  { apply observed_reports. stub_observed. }
  apply (fetch_failure_after_ready
           E_fetch_down 5 example_filters "out.json" (JStr "abc123")
           [JStr "running"] JNull empty_world).
  - simpl. lia.
  - vm_compute. discriminate.
  - stub_reply.
  - by repeat constructor.
  - exact Hd.
  - exact Hp.
  - by apply discover_fetched_failure.
  - by apply properties_fetched_failure.
  - reflexivity.
Defined.

(** C2 fails as stated on the simple collector: with the job [ready]
    from the second status check on and a retrieval that never
    connects, four rounds make four status checks and three
    retrievals, and the run has still not ended. *)
Lemma fetch_failure_is_retried :
  exists w',
    Properties.collect_properties E_fetch_down 4 example_filters empty_world
      = (Pending, w')
    /\ polls w' = 4%nat
    /\ fetches w' = 3%nat
    /\ writes w' = 0%nat.
Proof. eexists. repeat split; vm_compute; reflexivity. Qed.

Lemma poll_loops_witness :
  exists evs t,
    Discover._monitor_collection E_success 10 (JStr "abc123") 0 empty_world
      = Discover._fetch_data E_success (JStr "abc123")
          (extend empty_world (evs ++ [completed_line t]))
    /\ count is_progress evs = 4%nat
    /\ forallb is_polling evs = true
    /\ count is_completed evs = 0%nat.
Proof.
  assert (observed (Discover._check_status E_success) 0
            ([JStr "queued"; JStr "running"; JStr "running"] ++ [JStr "ready"])
          /\ observed (Properties._check_status E_success) 0
               ([JStr "queued"; JStr "running"; JStr "running"]
                ++ [JStr "ready"])) as [Hd Hp].
  { apply observed_reports. stub_observed. }
  destruct (poll_loops_exit_on_ready
              E_success 10 (JStr "abc123") 0
              [JStr "queued"; JStr "running"; JStr "running"] empty_world)
    as (H & _).
  - simpl. lia.
  - by repeat constructor.
  - exact Hd.
  - exact Hp.
  - exact H.
Defined.

(** C5 fails as stated on the simple collector: the statuses [running],
    [ready] end in [ready], yet with a retrieval that cannot connect the
    round that observed [ready] ends in a sleep, not in a return, and
    four rounds later the loop is still polling. *)
Lemma ready_without_data_keeps_polling :
  observed (Properties._check_status E_fetch_down) 0
    ([JStr "running"] ++ [JStr "ready"])
  /\ (exists w',
        Properties.collect_properties E_fetch_down 2 example_filters
          empty_world = (Pending, w')
        /\ polls w' = 2%nat
        /\ last (trace w') = Some (EvSleep 5))
  /\ (exists w',
        Properties.collect_properties E_fetch_down 6 example_filters
          empty_world = (Pending, w')
        /\ polls w' = 6%nat).
Proof.
  split; [|split].
  - apply (observed_reports E_fetch_down 0). stub_observed.
  - eexists. repeat split; vm_compute; reflexivity.
  - eexists. repeat split; vm_compute; reflexivity.
Qed.

Lemma empty_result_set_witness :
  exists w',
    Discover.collect_properties E_empty 5 example_filters "out.json"
      empty_world = (Ret false, w')
    /\ fetches w' = 1%nat
    /\ writes w' = 0%nat
    /\ fs w' = ∅.
Proof.
  assert (observed (Discover._check_status E_empty) 0
            ([JStr "running"] ++ [JStr "ready"])
          /\ observed (Properties._check_status E_empty) 0
               ([JStr "running"] ++ [JStr "ready"])) as [Hd _].
  { apply observed_reports. stub_observed. }
  destruct (empty_result_set_fails_run
              E_empty 5 example_filters "out.json" (JStr "abc123")
              [JStr "running"] empty_world) as (H & _).
  - simpl. lia.
  - vm_compute. discriminate.
  - stub_reply.
  - by repeat constructor.
  - exact Hd.
  - stub_reply.
  - exact H.
Defined.

Lemma backup_failure_witness :
  Discover._save_data E_rename_denied example_records "out.json" true
    stale_world
  = (Raise (OSError "PermissionError"),
     extend stale_world
       [EvNow;
        EvRename "out.json" (backup_name E_rename_denied "out.json" stale_world);
        EvLog ERROR
          [Lit "Failed to save data: "; ExcV (OSError "PermissionError")]])
  /\ discover_finish E_rename_denied "out.json" (Ret example_records, stale_world)
     = (Ret false,
        extend stale_world
          [EvNow;
           EvRename "out.json"
             (backup_name E_rename_denied "out.json" stale_world);
           EvLog ERROR
             [Lit "Failed to save data: "; ExcV (OSError "PermissionError")];
           EvLog ERROR
             [Lit "Unexpected error during collection: ";
              ExcV (OSError "PermissionError")]]).
Proof.
  apply (backup_failure_aborts_write
           E_rename_denied example_records "out.json" stale_world
           (OSError "PermissionError")).
  - exists "old". reflexivity.
  - reflexivity.
  - reflexivity.
  - reflexivity.
Defined.

(** C7 fails as stated: with every rename refused and the destination
    present, [_save_data] raises, the destination still holds the
    earlier content, it has not been opened for writing, nothing was
    logged at warning level, and the run returns [False]. *)
Lemma backup_failure_is_fatal :
  (exists w',
     Discover._save_data E_rename_denied example_records "out.json" true
       stale_world = (Raise (OSError "PermissionError"), w')
     /\ fs w' !! "out.json" = Some "old"
     /\ writes w' = 0%nat
     /\ count is_warning (trace w') = 0%nat)
  /\ (exists w',
        Discover.collect_properties E_rename_denied 5 example_filters
          "out.json" stale_world = (Ret false, w')
        /\ fs w' !! "out.json" = Some "old"
        /\ writes w' = 0%nat).
Proof.
  split; eexists; repeat split; vm_compute; reflexivity.
Qed.

Lemma second_persist_witness :
  let second := JArr [JObj [("zpid", JInt 2)]] in
  let w1 :=
    snd (Discover._save_data E_success example_records "out.json" true
           empty_world) in
  let w2 := snd (Discover._save_data E_success second "out.json" true w1) in
  fs w2 !! "out.json" = Some (dumps E_success second)
  /\ fs w2 !! backup_name E_success "out.json" w1
     = Some (dumps E_success example_records).
Proof.
  intros second w1 w2.
  apply (second_persist_backs_up_first
           E_success example_records second "out.json" empty_world w1 w2).
  - vm_compute. reflexivity.
  - vm_compute. reflexivity.
Defined.

(** C9 fails as stated on the simple collector: when the status
    endpoint answers with a JSON array, the [AttributeError] of
    [.get] leaves [collect_properties]; the discovery collector
    turns the same fault into [False]. *)
Lemma simple_collector_lets_exception_escape :
  (exists w',
     Properties.collect_properties E_malformed 4 example_filters empty_world
     = (Raise (AttributeError "get"), w'))
  /\ fst (Discover.collect_properties E_malformed 4 example_filters "out.json"
            empty_world) = Ret false.
Proof.
  split; [eexists|]; vm_compute; reflexivity.
Qed.

(** * Further properties of the code *)

(** ** The cleaned inputs *)

Lemma lstrip_not_all_space (s : string) :
  all_space s = false ->
  exists c r, lstrip s = String c r /\ isspace c = false.
Proof.
  induction s as [|c s IH]; [done|]. simpl.
  destruct (isspace c) eqn:Hc; simpl; [exact IH|].
  intros _. by exists c, s.
Qed.

Lemma rstrip_head (c : ascii) (r : string) :
  isspace c = false -> rstrip (String c r) <> "".
Proof. intros Hc. simpl. rewrite Hc. by destruct (rstrip r). Qed.

Lemma keep_value_spec (v : string) :
  Discover.keep_value v = negb (all_space v).
Proof.
  destruct (all_space v) eqn:Hv; [by apply keep_value_blank|].
  unfold Discover.keep_value, strip.
  destruct (lstrip_not_all_space v Hv) as (c & r & -> & Hc).
  pose proof (rstrip_head c r Hc) as Hr.
  destruct v as [|a v]; [discriminate Hv|].
  destruct (rstrip (String c r)); [done|reflexivity].
Qed.

Lemma scrub_lookup (f : gmap string string) (k v : string) :
  filter (fun kv : string * string => Is_true (Discover.keep_value kv.2)) f
    !! k = Some v
  <-> f !! k = Some v /\ all_space v = false.
Proof.
  rewrite map_lookup_filter_Some. simpl. rewrite keep_value_spec.
  destruct (all_space v); simpl; intuition discriminate.
Qed.

Lemma has_location_usable (f : gmap string string) :
  Discover.has_location f = true -> scrubbed f -> usable f.
Proof.
  unfold Discover.has_location, usable. intros H Hs.
  destruct (f !! "location") as [v|] eqn:Hv; [|done].
  exists v. split; [done|]. by eapply Hs.
Qed.

Lemma clean_filters_elem (filters : list (gmap string string)) f :
  f ∈ Discover._clean_filters filters ->
  Discover.has_location f = true
  /\ exists g, g ∈ filters
       /\ f = filter (fun kv : string * string =>
                        Is_true (Discover.keep_value kv.2)) g.
Proof.
  induction filters as [|g filters IH]; simpl; [by intros ?%elem_of_nil|].
  destruct (Discover.has_location
              (filter (fun kv : string * string =>
                         Is_true (Discover.keep_value kv.2)) g)) eqn:Hl.
  - intros [->|H]%elem_of_cons.
    + split; [done|]. exists g. split; [left|done].
    + destruct (IH H) as (? & g' & ? & ?). split; [done|].
      exists g'. split; [by right|done].
  - intros H. destruct (IH H) as (? & g' & ? & ?). split; [done|].
    exists g'. split; [by right|done].
Qed.

Lemma clean_filters_clean
    (filters : list (gmap string string)) (f : gmap string string) :
  f ∈ Discover._clean_filters filters -> usable f /\ scrubbed f.
Proof.
  intros H. destruct (clean_filters_elem filters f H) as (Hl & g & Hg & ->).
  assert (scrubbed (filter (fun kv : string * string =>
                              Is_true (Discover.keep_value kv.2)) g)) as Hs.
  { intros k v Hk. by apply scrub_lookup in Hk as [_ ?]. }
  split; [by apply has_location_usable|done].
Qed.

(** X1: every record that [_clean_filters] returns has a [location]
    that is not blank, has no empty or blank value at all, and is an
    input record restricted to some of its keys. *)
Theorem clean_filters_sound
    (filters : list (gmap string string)) (f : gmap string string) :
  f ∈ Discover._clean_filters filters ->
  usable f /\ scrubbed f /\ exists g, g ∈ filters /\ f ⊆ g.
Proof.
  intros H. destruct (clean_filters_clean filters f H) as [Hu Hs].
  destruct (clean_filters_elem filters f H) as (_ & g & Hg & ->).
  split; [done|]. split; [done|].
  exists g. split; [done|]. apply map_filter_subseteq.
Qed.

Lemma scrub_id (f : gmap string string) :
  scrubbed f ->
  filter (fun kv : string * string => Is_true (Discover.keep_value kv.2)) f
  = f.
Proof.
  intros Hs. apply map_filter_id. intros k v Hk. simpl.
  rewrite keep_value_spec, (Hs k v Hk). done.
Qed.

Lemma usable_has_location (f : gmap string string) :
  usable f -> Discover.has_location f = true.
Proof.
  intros (v & Hv & Hb). unfold Discover.has_location. rewrite Hv.
  by destruct v.
Qed.

(** X2: records that are already clean pass [_clean_filters]
    unchanged, so cleaning twice is cleaning once. *)
Theorem clean_filters_idempotent (filters : list (gmap string string)) :
  (Forall (fun f => usable f /\ scrubbed f) filters ->
   Discover._clean_filters filters = filters)
  /\ Discover._clean_filters (Discover._clean_filters filters)
     = Discover._clean_filters filters.
Proof.
  assert (forall l : list (gmap string string),
            Forall (fun f => usable f /\ scrubbed f) l ->
            Discover._clean_filters l = l) as Hfix.
  { induction 1 as [|f l [Hu Hs] _ IH]; [done|]. simpl.
    rewrite (scrub_id f Hs), (usable_has_location f Hu). by rewrite IH. }
  split; [apply Hfix|]. apply Hfix.
  apply Forall_forall. intros f Hf.
  by apply (clean_filters_clean filters).
Qed.


(** ** The trigger of the discovery collector *)

Lemma posts_after_attempt (w : world) filters (evs : list event) :
  forallb is_local evs = true ->
  posts (extend w (EvPost filters :: evs)) = S (posts w).
Proof.
  intros L. destruct (count_local evs L) as (_ & _ & _ & _ & Q).
  rewrite posts_extend, count_cons, Q. simpl. lia.
Qed.

(** What one attempt can do: one request, then local effects only; it
    ends the loop, or sleeps at most [2 ^ (attempt + 1)] seconds and
    goes on; it raises only what is no [RequestException]. *)
Lemma trigger_attempt_cases (E : env) filters (attempt : Z) (w : world) :
  0 <= attempt ->
  exists c evs,
    Discover.trigger_attempt E filters attempt w
      = (c, extend w (EvPost filters :: evs))
    /\ forallb is_local evs = true
    /\ c <> Pending
    /\ (forall e, c = Raise e -> is_RequestException e = false)
    /\ 0 <= total_sleep evs <= Z.max 1 (2 ^ (attempt + 1))
    /\ (forall r, c = Ret (Done r) -> total_sleep evs = 0).
Proof.
  intros Ha.
  assert (0 < 2 ^ (attempt + 1)) as Hpow by (apply Z.pow_pos_nonneg; lia).
  unfold Discover.trigger_attempt, requests_post, raise_for_status,
    response_json.
  run.
  destruct (post_reply E (posts w)) as [e|r]; simpl.
  - destruct e; simpl;
      try (destruct (_ =? 429)); try (destruct (attempt =? 2));
      simpl; rewrite ?extend_extend; simpl;
      eexists _, _; (split; [reflexivity|]);
      unfold total_sleep; simpl; repeat split; try done; try lia;
      intros ? [=]; by subst.
  - destruct ((400 <=? status_code r) && (status_code r <? 600)); simpl.
    + destruct (status_code r =? 429); simpl; rewrite ?extend_extend; simpl;
        eexists _, _; (split; [reflexivity|]);
        unfold total_sleep; simpl; repeat split; try done; try lia;
        intros ? [=]; by subst.
    + destruct (body r) as [e|j]; simpl.
      * destruct e; simpl;
          try (destruct (_ =? 429)); try (destruct (attempt =? 2));
          simpl; rewrite ?extend_extend; simpl;
          eexists _, _; (split; [reflexivity|]);
          unfold total_sleep; simpl; repeat split; try done; try lia;
          intros ? [=]; by subst.
      * eexists _, _. split; [reflexivity|].
        unfold total_sleep; simpl; repeat split; try done; try lia.
Qed.

Lemma total_sleep_app (a b : list event) :
  total_sleep (a ++ b) = total_sleep a + total_sleep b.
Proof.
  unfold total_sleep. rewrite sleeps_app.
  induction (sleeps a) as [|x l IH]; simpl; [done|]. rewrite IH. lia.
Qed.

Lemma count_submission (evs : list event) :
  forallb is_submission evs = true ->
  count is_progress evs = 0%nat /\ count is_snapshot evs = 0%nat
  /\ count is_openw evs = 0%nat /\ count is_rename evs = 0%nat.
Proof.
  intros H. repeat split; apply (count_disjoint _ is_submission); try done;
    by intros [].
Qed.

Lemma local_submission (evs : list event) :
  forallb is_local evs = true -> forallb is_submission evs = true.
Proof.
  intros H. apply forallb_forall. intros e He. unfold is_submission.
  rewrite (proj1 (forallb_forall _ _) H e He). apply orb_true_r.
Qed.

Lemma trigger_loop_bounded (E : env) filters (attempts : list Z) :
  forall w : world,
    Forall (fun a => 0 <= a) attempts ->
    exists r evs,
      for_each (Discover.trigger_attempt E filters) attempts (mret JNull) w
        = (r, extend w evs)
      /\ r <> Pending
      /\ (forall e, r = Raise e -> is_RequestException e = false)
      /\ (count is_post evs <= length attempts)%nat
      /\ (attempts <> [] -> (1 <= count is_post evs)%nat)
      /\ forallb is_submission evs = true
      /\ 0 <= total_sleep evs
         <= fold_right Z.add 0
              (map (fun a => Z.max 1 (2 ^ (a + 1))) attempts).
Proof.
  induction attempts as [|a attempts IH]; intros w Ha.
  - exists (Ret JNull), []. rewrite extend_nil.
    repeat split; try done; simpl; lia.
  - apply Forall_cons in Ha as [Ha0 Ha].
    destruct (trigger_attempt_cases E filters a w Ha0)
      as (c & evs & Hc & L & Hp & Hr & Hs & Hd).
    destruct (count_local evs L) as (_ & _ & _ & _ & Q).
    assert (0 <= fold_right Z.add 0
                   (map (fun a => Z.max 1 (2 ^ (a + 1))) attempts)) as Hsum.
    { clear. induction attempts; simpl; lia. }
    simpl. unfold mbind at 1. unfold M_bind at 1. rewrite Hc.
    destruct c as [[[]|r]|e|]; [| | |done].
    + destruct (IH (extend w (EvPost filters :: evs)) Ha)
        as (r & evs' & Hrun & Hp' & Hr' & Hle & _ & L' & Hs').
      exists r, ((EvPost filters :: evs) ++ evs').
      rewrite Hrun, extend_extend.
      split; [done|]. split; [done|]. split; [done|].
      rewrite count_app, count_cons, Q, forallb_app, total_sleep_app.
      simpl. rewrite (local_submission evs L), L'.
      change (total_sleep (EvPost filters :: evs)) with (total_sleep evs).
      repeat split; try done; try lia.
    + exists (Ret r), (EvPost filters :: evs).
      split; [done|]. split; [done|]. split; [done|].
      rewrite count_cons, Q. simpl. rewrite (local_submission evs L).
      change (total_sleep (EvPost filters :: evs)) with (total_sleep evs).
      rewrite (Hd r eq_refl). repeat split; try done; try lia.
    + exists (Raise e), (EvPost filters :: evs).
      split; [done|]. split; [done|].
      split; [intros e' [= <-]; by apply Hr|].
      rewrite count_cons, Q. simpl. rewrite (local_submission evs L).
      change (total_sleep (EvPost filters :: evs)) with (total_sleep evs).
      repeat split; try done; try lia.
Qed.

(** X4: whatever the transport does, [_trigger_collection] of the
    discovery collector comes back after one to three trigger
    requests, having slept at most 14 seconds in all and touched
    neither the status or snapshot endpoints nor any file; a
    [RequestException] never leaves it. *)
Theorem trigger_bounded
    (E : env) (filters : list (gmap string string)) (w : world) :
  exists r evs,
    Discover._trigger_collection E filters w = (r, extend w evs)
    /\ r <> Pending
    /\ (forall e, r = Raise e -> is_RequestException e = false)
    /\ (1 <= count is_post evs <= 3)%nat
    /\ forallb is_submission evs = true
    /\ 0 <= total_sleep evs <= 14.
Proof.
  destruct (trigger_loop_bounded E filters [0; 1; 2] w)
    as (r & evs & Hrun & Hp & Hr & Hle & Hge & L & Hs).
  { repeat constructor; lia. }
  exists r, evs. split; [exact Hrun|]. split; [done|]. split; [done|].
  split; [|split; [done|]].
  - split; [by apply Hge|exact Hle].
  - simpl in Hs. lia.
Qed.

(** X5: an HTTP error status other than 429 ends the submission at
    once: one request, one error line, no sleep, the result [None]. *)
Theorem trigger_http_error_not_retried
    (E : env) (filters : list (gmap string string)) (w : world)
    (r : response) :
  post_reply E (posts w) = Responds r ->
  400 <= status_code r < 600 ->
  status_code r <> 429 ->
  Discover._trigger_collection E filters w
  = (Ret JNull,
     extend w
       [EvPost filters;
        EvLog ERROR
          [Lit "HTTP error: "; IntV (status_code r); Lit " - ";
           StrV (text r)]]).
Proof.
  intros Hr Hc Hn.
  unfold Discover._trigger_collection, for_each, Discover.trigger_attempt,
    requests_post, raise_for_status.
  run. rewrite Hr. simpl.
  replace ((400 <=? status_code r) && (status_code r <? 600)) with true
    by (symmetry; apply andb_true_iff; split; lia).
  simpl. replace (status_code r =? 429) with false by (symmetry; lia).
  simpl. by rewrite !extend_extend.
Qed.

Lemma trigger_attempt_connection_error
    (E : env) filters (attempt : Z) (w : world) (name : string) :
  post_reply E (posts w) = Fails (RequestException name) ->
  Discover.trigger_attempt E filters attempt w
  = if attempt =? 2 then
      (Ret (Done JNull),
       extend w
         [EvPost filters;
          EvLog ERROR
            [Lit "Request failed: "; ExcV (RequestException name)]])
    else
      (Ret (Next tt),
       extend w
         [EvPost filters;
          EvLog ERROR
            [Lit "Request failed: "; ExcV (RequestException name)];
          EvSleep 1]).
Proof.
  intros Hr. unfold Discover.trigger_attempt, requests_post.
  run. rewrite Hr. simpl.
  destruct (attempt =? 2); simpl; by rewrite !extend_extend.
Qed.

(** X6: when no trigger request gets through (a connection error or a
    timeout each time), the submission makes three requests with one
    second between them, does not sleep after the last one, and
    returns [None]. *)
Theorem trigger_connection_errors
    (E : env) (filters : list (gmap string string)) (w : world) :
  (forall k, exists name, post_reply E k = Fails (RequestException name)) ->
  exists evs m,
    Discover._trigger_collection E filters w = (Ret JNull, extend w evs)
    /\ count is_post evs = 3%nat
    /\ sleeps evs = [1; 1]
    /\ last evs = Some (EvLog ERROR m).
Proof.
  intros H.
  unfold Discover._trigger_collection. simpl.
  destruct (H (posts w)) as (n0 & H0).
  erewrite bind_ret
    by (rewrite (trigger_attempt_connection_error E filters 0 w n0 H0);
        reflexivity).
  set (w1 := extend w _).
  destruct (H (posts w1)) as (n1 & H1).
  erewrite bind_ret
    by (rewrite (trigger_attempt_connection_error E filters 1 w1 n1 H1);
        reflexivity).
  set (w2 := extend w1 _).
  destruct (H (posts w2)) as (n2 & H2).
  erewrite bind_ret
    by (rewrite (trigger_attempt_connection_error E filters 2 w2 n2 H2);
        reflexivity).
  subst w2 w1. rewrite !extend_extend. simpl.
  eexists _, _. split; [reflexivity|]. done.
Qed.

Lemma trigger_attempt_accepted
    (E : env) filters (attempt : Z) (w : world) sid :
  accepted (post_reply E (posts w)) sid ->
  exists cr,
    Discover.trigger_attempt E filters attempt w
      = (Ret (Done cr), extend w [EvPost filters])
    /\ truthy cr = true
    /\ py_contains "snapshot_id" cr = mret true
    /\ py_getitem cr "snapshot_id" = mret sid.
Proof.
  intros (resp & m & Hr & Hc & Hb & Hm). exists (JObj m).
  split; [|by apply accepted_response].
  unfold Discover.trigger_attempt, requests_post, raise_for_status,
    response_json.
  run. by rewrite Hr, Hc, Hb.
Qed.

(** X7: the submission recovers from rate limiting: when the first [k]
    trigger requests, [k] at most two, are answered with 429 and the
    next one is accepted, it returns the accepted response after
    [k + 1] requests, having slept [2], [4], ... seconds between
    them. *)
Theorem trigger_recovers_after_rate_limit
    (E : env) (filters : list (gmap string string)) (w : world) (k : nat)
    (sid : json) :
  (k <= 2)%nat ->
  (forall i, (i < k)%nat -> rate_limited E (posts w + i)) ->
  accepted (post_reply E (posts w + k)) sid ->
  exists cr evs,
    Discover._trigger_collection E filters w = (Ret cr, extend w evs)
    /\ py_getitem cr "snapshot_id" = mret sid
    /\ count is_post evs = S k
    /\ sleeps evs = map (fun i => 2 ^ (Z.of_nat i + 1)) (seq 0 k).
Proof.
  intros Hk Hrl Ha.
  unfold Discover._trigger_collection. simpl.
  destruct k as [|[|[|k]]]; [| | |lia].
  - rewrite Nat.add_0_r in Ha.
    destruct (trigger_attempt_accepted E filters 0 w sid Ha)
      as (cr & Hrun & _ & _ & Hget).
    erewrite bind_ret by exact Hrun. exists cr, [EvPost filters]. done.
  - destruct (Hrl 0%nat) as (r0 & H0 & C0); [lia|].
    rewrite Nat.add_0_r in H0.
    erewrite bind_ret by (by eapply trigger_attempt_429).
    set (w1 := extend w _).
    assert (posts w1 = (posts w + 1)%nat) as P1.
    { unfold w1. rewrite posts_extend. unfold count. simpl. lia. }
    destruct (trigger_attempt_accepted E filters 1 w1 sid)
      as (cr & Hrun & _ & _ & Hget); [by rewrite P1|].
    erewrite bind_ret by exact Hrun. simpl.
    subst w1. rewrite !extend_extend. simpl.
    eexists cr, _. split; [reflexivity|]. done.
  - destruct (Hrl 0%nat) as (r0 & H0 & C0); [lia|].
    rewrite Nat.add_0_r in H0.
    erewrite bind_ret by (by eapply trigger_attempt_429).
    set (w1 := extend w _).
    assert (posts w1 = (posts w + 1)%nat) as P1.
    { unfold w1. rewrite posts_extend. unfold count. simpl. lia. }
    destruct (Hrl 1%nat) as (r1 & H1 & C1); [lia|].
    rewrite <- P1 in H1.
    erewrite bind_ret by (by eapply trigger_attempt_429).
    set (w2 := extend w1 _).
    assert (posts w2 = (posts w + 2)%nat) as P2.
    { unfold w2. rewrite posts_extend, P1. unfold count. simpl. lia. }
    destruct (trigger_attempt_accepted E filters 2 w2 sid)
      as (cr & Hrun & _ & _ & Hget); [by rewrite P2|].
    erewrite bind_ret by exact Hrun. simpl.
    subst w2 w1. rewrite !extend_extend. simpl.
    eexists cr, _. split; [reflexivity|]. done.
Qed.

(** ** The trigger of the simple collector *)

(** X8: [_trigger_collection] of the simple collector makes exactly one
    request and never sleeps, whatever the reply; a transport failure,
    a 429 included, is logged and gives [None] without any retry. *)
Theorem simple_trigger_single_attempt
    (E : env) (urls : list (gmap string string)) (w : world) :
  (exists r evs,
     Properties._trigger_collection E urls w
       = (r, extend w (EvPost urls :: evs))
     /\ forallb is_log evs = true
     /\ r <> Pending)
  /\ (transport_failure (post_reply E (posts w)) ->
      exists m,
        Properties._trigger_collection E urls w
        = (Ret JNull, extend w [EvPost urls; EvLog ERROR m])).
Proof.
  unfold transport_failure, Properties._trigger_collection, requests_post,
    raise_for_status, response_json.
  run.
  destruct (post_reply E (posts w)) as [e|r]; simpl.
  - split.
    + destruct (is_RequestException e); simpl; rewrite ?extend_extend;
        eexists _, _; (split; [reflexivity|done]).
    + intros ->. simpl. rewrite extend_extend. by eexists.
  - destruct ((400 <=? status_code r) && (status_code r <? 600)); simpl.
    + rewrite extend_extend. split; [by eexists _, _|]. intros _. by eexists.
    + split; [|done].
      destruct (body r) as [e|j]; simpl;
        [destruct (is_RequestException e); simpl|];
        rewrite ?extend_extend; eexists _, _; (split; [reflexivity|done]).
Qed.

(** ** Statuses out of the ordinary *)

(** X9: a status response without a [status] field does not end the
    polling: the discovery collector reads it as [unknown], the simple
    collector as [None], and both go round again after that one status
    check, without retrieving anything. *)
Theorem missing_status_keeps_polling
    (E : env) (sid : json) (t0 : Z) (st : json * list (json * Z))
    (prev : json) (w : world) (m : list (string * json)) :
  answers (progress_reply E (polls w)) (JObj m) ->
  obj_lookup "status" m = None ->
  fst (Discover._check_status E sid w) = Ret (JStr "unknown")
  /\ fst (Properties._check_status E sid w) = Ret JNull
  /\ (exists st' w',
        Discover.monitor_step E sid t0 st w = (Ret (Next st'), w')
        /\ polls w' = S (polls w)
        /\ fetches w' = fetches w)
  /\ (exists prev' w',
        Properties.poll_step E sid t0 prev w = (Ret (Next prev'), w')
        /\ polls w' = S (polls w)
        /\ fetches w' = fetches w).
Proof.
  intros (resp & Hr & Hc & Hb) Hm.
  assert (fst (Discover._check_status E sid w) = Ret (JStr "unknown")) as Hd.
  { unfold Discover._check_status, requests_get_progress, raise_for_status,
      response_json, py_get.
    run. by rewrite Hr, Hc, Hb, Hm. }
  assert (fst (Properties._check_status E sid w) = Ret JNull) as Hp.
  { unfold Properties._check_status, requests_get_progress, raise_for_status,
      response_json, py_get.
    run. by rewrite Hr, Hc, Hb, Hm. }
  split; [done|]. split; [done|]. split.
  - destruct (discover_step_waiting E sid t0 st w (JStr "unknown") Hd)
      as (st' & evs & Hrun & L & _); [done|].
    destruct (count_local evs L) as (P & S0 & _).
    exists st', (extend w (EvProgress sid :: evs)). split; [done|].
    rewrite polls_extend, fetches_extend, !count_cons, P, S0. simpl. lia.
  - destruct (properties_step_waiting E sid t0 prev w JNull Hp)
      as (prev' & evs & Hrun & L & _); [done|].
    destruct (count_local evs L) as (P & S0 & _).
    exists prev', (extend w (EvProgress sid :: evs)). split; [done|].
    rewrite polls_extend, fetches_extend, !count_cons, P, S0. simpl. lia.
Qed.

Lemma discover_step_unhashable
    (E : env) sid (t0 : Z) st (w : world) (s : json) :
  fst (Discover._check_status E sid w) = Ret s ->
  hashable s = false ->
  exists evs,
    Discover.monitor_step E sid t0 st w
      = (Raise (TypeError "unhashable type"),
         extend w (EvProgress sid :: evs))
    /\ forallb is_local evs = true.
Proof.
  intros Hs Hh. unfold Discover.monitor_step.
  erewrite bind_ret by (by apply discover_check).
  unfold dict_set, dict_get. cbv beta. rewrite Hh.
  destruct (py_eq s st.1); run; rewrite ?extend_extend;
    eexists; (split; [reflexivity|done]).
Qed.

(** X10: a status that is a JSON array or object cannot be counted in
    [status_counts]: the [TypeError] ends the discovery run with
    [False] right after that status check, with nothing retrieved or
    written. *)
Theorem unhashable_status_fails_discovery_run
    (E : env) (fuel : nat) (filters : list (gmap string string))
    (output_file : string) (sid : json) (l : list json) (s : json)
    (w : world) :
  (length l < fuel)%nat ->
  Discover._clean_filters filters <> [] ->
  accepted (post_reply E (posts w)) sid ->
  Forall (fun s => waiting s = true) l ->
  observed (Discover._check_status E) (polls w) (l ++ [s]) ->
  hashable s = false ->
  exists w',
    Discover.collect_properties E fuel filters output_file w = (Ret false, w')
    /\ polls w' = (polls w + S (length l))%nat
    /\ fetches w' = fetches w
    /\ writes w' = writes w
    /\ fs w' = fs w.
Proof.
  intros Hfuel Hc Ha Hw Hobs Hh.
  rewrite (discover_run_started E fuel filters output_file w sid Hc Ha).
  set (w1 := discover_polling w (Discover._clean_filters filters) sid).
  destruct (polls_discover_polling w (Discover._clean_filters filters) sid)
    as (Hp1 & Hf1 & Hw1). fold w1 in Hp1, Hf1, Hw1.
  destruct (fuel_split _ _ Hfuel) as (fuel' & ->).
  apply observed_app in Hobs as [Hl Hs].
  destruct (discover_monitor_unroll E sid (now E (count is_now (trace w))) l
              (JNull, []) w1 Hw)
    as (st & evs & Hrun & P & L & C); [by rewrite Hp1|].
  destruct (count_polling evs L) as (S0 & W0 & _).
  destruct (discover_step_unhashable E sid (now E (count is_now (trace w)))
              st (extend w1 evs) s) as (evs1 & H1 & L1); [|done|].
  { eapply observed_head; [exact Hs|]. by rewrite polls_extend, P, Hp1. }
  destruct (count_local evs1 L1) as (P1 & S1 & W1 & _).
  unfold Discover._monitor_collection. rewrite Hrun. simpl.
  erewrite bind_raise by exact H1.
  eexists. split; [unfold discover_finish; run; reflexivity|].
  rewrite !extend_extend, polls_extend, fetches_extend, writes_extend.
  count_norm is_progress. count_norm is_snapshot. count_norm is_openw.
  rewrite P, S0, W0, P1, S1, W1, Hp1, Hf1, Hw1. simpl.
  repeat split; lia.
Qed.

(** ** Submission without a job *)

(** X11: when the trigger request is answered by a JSON object without
    [snapshot_id], both collectors give up after that one request:
    [False], respectively [None], and no status check. *)
Theorem missing_snapshot_id_fails_run
    (E : env) (fuel : nat) (filters : list (gmap string string))
    (output_file : string) (m : list (string * json)) (w : world) :
  Discover._clean_filters filters <> [] ->
  answers (post_reply E (posts w)) (JObj m) ->
  obj_lookup "snapshot_id" m = None ->
  (exists w',
     Discover.collect_properties E fuel filters output_file w = (Ret false, w')
     /\ posts w' = S (posts w)
     /\ polls w' = polls w
     /\ fs w' = fs w)
  /\ (exists w',
        Properties.collect_properties E fuel filters w = (Ret None, w')
        /\ posts w' = S (posts w)
        /\ polls w' = polls w
        /\ fs w' = fs w).
Proof.
  intros Hc (resp & Hr & Hcode & Hb) Hm. split.
  - unfold Discover.collect_properties, Discover.collect_properties_with,
      Discover._trigger_collection, for_each, Discover.trigger_attempt,
      requests_post, raise_for_status, response_json, datetime_now,
      py_contains.
    destruct (Discover._clean_filters filters) as [|f cleaned]; [done|].
    run.
    replace (posts (extend (extend w [EvNow]) _)) with (posts w)
      by (rewrite !posts_extend; unfold count; simpl; lia).
    rewrite Hr, Hcode, Hb. simpl. rewrite Hm.
    destruct m; simpl; rewrite !extend_extend; simpl;
      (eexists; split; [reflexivity|]);
      rewrite posts_extend, polls_extend; unfold count; simpl;
      repeat split; lia.
  - unfold Properties.collect_properties, Properties._trigger_collection,
      requests_post, raise_for_status, response_json, datetime_now,
      py_contains.
    run.
    replace (posts (extend (extend w [EvNow]) _)) with (posts w)
      by (rewrite !posts_extend; unfold count; simpl; lia).
    rewrite Hr, Hcode, Hb. simpl. rewrite Hm.
    destruct m; simpl; rewrite !extend_extend; simpl;
      (eexists; split; [reflexivity|]);
      rewrite posts_extend, polls_extend; unfold count; simpl;
      repeat split; lia.
Qed.

(** ** Persistence in the discovery collector *)

(** X12: without backups, or when the destination does not exist yet,
    [_save_data] is a plain overwrite: it opens the destination once,
    renames nothing, reads no clock, and a successful write changes
    the destination only. *)
Theorem save_plain_overwrite
    (E : env) (data : json) (filename : string) (backup : bool) (w : world) :
  backup = false \/ fs w !! filename = None ->
  write_result E (writes w) = WriteOk ->
  Discover._save_data E data filename backup w
  = (Ret tt,
     {| fs := <[filename := dumps E data]> (fs w);
        trace := trace w ++ [EvOpenW filename] |}).
Proof.
  intros Hb Hw. unfold Discover._save_data, os_path_exists, write_json.
  destruct Hb as [-> | Hf].
  - run. by rewrite Hw.
  - destruct backup; run; rewrite ?Hf; simpl; by rewrite Hw.
Qed.

Lemma discover_save_ok (E : env) data filename (w : world) :
  rename_fault E (renames w) = None ->
  write_result E (writes w) = WriteOk ->
  exists w' evs,
    Discover._save_data E data filename true w = (Ret tt, w')
    /\ trace w' = trace w ++ evs
    /\ count is_openw evs = 1%nat
    /\ count is_progress evs = 0%nat
    /\ count is_snapshot evs = 0%nat
    /\ fs w' !! filename = Some (dumps E data)
    /\ (forall c, fs w !! filename = Some c ->
          fs w' !! backup_name E filename w = Some c)
    /\ (forall p, p <> filename -> p <> backup_name E filename w ->
          fs w' !! p = fs w !! p).
Proof.
  intros Hr Hw.
  destruct (fs w !! filename) as [c|] eqn:Hc.
  - unfold Discover._save_data, os_path_exists, os_rename, write_json,
      datetime_now.
    run. rewrite Hc. simpl.
    replace (renames (extend w [EvNow])) with (renames w)
      by (rewrite renames_extend; unfold count; simpl; lia).
    rewrite Hr. simpl. rewrite Hc. simpl. rewrite <- !app_assoc. simpl.
    match goal with |- context [write_result E ?n] =>
      replace n with (writes w)
        by (unfold writes; simpl; rewrite !count_app; unfold count; simpl; lia)
    end.
    rewrite Hw. simpl. fold (backup_name E filename w).
    eexists _, _. split; [reflexivity|]. simpl.
    split; [rewrite <- !app_assoc; reflexivity|]. repeat split; try done.
    + apply lookup_insert_eq.
    + intros c' [= <-].
      rewrite lookup_insert_ne by apply backup_name_ne.
      apply lookup_insert_eq.
    + intros p Hp Hb.
      rewrite lookup_insert_ne by done.
      rewrite lookup_insert_ne by done.
      by rewrite lookup_delete_ne.
  - rewrite (discover_save_fresh E data filename w Hc), Hw.
    eexists _, _. split; [reflexivity|]. simpl.
    split; [reflexivity|]. repeat split; try done.
    + apply lookup_insert_eq.
    + intros p Hp _. by rewrite lookup_insert_ne.
Qed.

(** X13: the backup is made before the write, so a write that fails
    after it loses nothing but leaves no complete destination: the
    error is logged and raised again, the backup holds the earlier
    content, and the destination is gone (the file could not be
    opened) or holds the part written before the fault. *)
Theorem failed_write_after_backup
    (E : env) (data : json) (filename : string) (w : world) (c : string)
    (o : write_outcome) (e : exception) :
  fs w !! filename = Some c ->
  rename_fault E (renames w) = None ->
  write_result E (writes w) = o ->
  write_error o = Some e ->
  is_save_error e = true ->
  exists w',
    Discover._save_data E data filename true w = (Raise e, w')
    /\ fs w' !! backup_name E filename w = Some c
    /\ fs w' !! filename = written o (dumps E data) None
    /\ last (trace w')
       = Some (EvLog ERROR [Lit "Failed to save data: "; ExcV e]).
Proof.
  intros Hc Hr Hw Ho He.
  unfold Discover._save_data, os_path_exists, os_rename, write_json,
    datetime_now.
  run. rewrite Hc. simpl.
  replace (renames (extend w [EvNow])) with (renames w)
    by (rewrite renames_extend; unfold count; simpl; lia).
  rewrite Hr. simpl. rewrite Hc. simpl. rewrite <- !app_assoc. simpl.
  match goal with |- context [write_result E ?n] =>
    replace n with (writes w)
      by (unfold writes; simpl; rewrite !count_app; unfold count; simpl; lia)
  end.
  rewrite Hw. fold (backup_name E filename w).
  destruct o as [|e'|e' n]; simpl in Ho; [done| |];
    injection Ho as ->; simpl; rewrite He; simpl;
    (eexists; split; [reflexivity|]); simpl.
  - split; [apply lookup_insert_eq|]. split.
    + rewrite lookup_insert_ne by (intros H; by apply (backup_name_ne E filename w)).
      apply lookup_delete_eq.
    + by rewrite last_snoc.
  - split.
    + rewrite lookup_insert_ne by apply backup_name_ne.
      apply lookup_insert_eq.
    + split; [apply lookup_insert_eq|]. by rewrite last_snoc.
Qed.

(** ** Runs that succeed *)

Lemma discover_step_waiting_clock
    (E : env) sid (t0 : Z) st (w : world) (s : json) :
  fst (Discover._check_status E sid w) = Ret s ->
  waiting s = true ->
  exists st' evs,
    Discover.monitor_step E sid t0 st w = (Ret (Next st'), extend w evs)
    /\ forallb is_polling evs = true
    /\ count is_progress evs = 1%nat
    /\ count is_now evs = 1%nat.
Proof.
  intros Hs Hw. unfold waiting in Hw.
  apply andb_true_iff in Hw as [Hw Hf]. apply andb_true_iff in Hw as [Hh Hr].
  apply negb_true_iff in Hf, Hr.
  unfold Discover.monitor_step.
  erewrite bind_ret by (by apply discover_check).
  unfold dict_set, dict_get, datetime_now. cbv beta. rewrite Hh, Hr, Hf.
  destruct (py_eq s st.1); run;
    match goal with |- context [?x `mod` 30 =? 0] =>
      destruct (x `mod` 30 =? 0) end; simpl;
    rewrite ?extend_extend; simpl; eexists _, _; (split; [reflexivity|done]).
Qed.

Lemma discover_monitor_clock (E : env) sid (t0 : Z) (l : list json) :
  forall st (w : world),
    Forall (fun s => waiting s = true) l ->
    observed (Discover._check_status E) (polls w) l ->
    exists st' evs,
      (forall fuel : nat,
         while_true (length l + fuel) (Discover.monitor_step E sid t0) st w
         = while_true fuel (Discover.monitor_step E sid t0) st'
             (extend w evs))
      /\ forallb is_polling evs = true
      /\ count is_progress evs = length l
      /\ count is_now evs = length l.
Proof.
  induction l as [|s l IH]; intros st w Hw Hobs.
  - exists st, []. split; [|done]. intros fuel. by rewrite extend_nil.
  - apply Forall_cons in Hw as [Hs Hw].
    destruct (discover_step_waiting_clock E sid t0 st w s)
      as (st1 & evs1 & H1 & L1 & P1 & N1);
      [by eapply observed_head | done |].
    destruct (IH st1 (extend w evs1)) as (st' & evs & H2 & L2 & P2 & N2);
      [done| |].
    { rewrite polls_extend, P1.
      replace (polls w + 1)%nat with (S (polls w)) by lia.
      by eapply observed_tail. }
    exists st', (evs1 ++ evs).
    split; [|split; [|split]].
    + intros fuel. simpl. erewrite bind_ret by exact H1. simpl.
      by rewrite H2, extend_extend.
    + by rewrite forallb_app, L1, L2.
    + by rewrite count_app, P1, P2.
    + by rewrite count_app, N1, N2.
Qed.

Lemma discover_fetch_clock (E : env) sid (w : world) (d : json) :
  fst (Discover._fetch_data E sid w) = Ret d ->
  exists evs,
    Discover._fetch_data E sid w = (Ret d, extend w (EvSnapshot sid :: evs))
    /\ forallb is_log evs = true.
Proof.
  unfold Discover._fetch_data, requests_get_snapshot, raise_for_status,
    response_json.
  run.
  destruct (snapshot_reply E (fetches w)) as [e|r]; simpl.
  { destruct (is_RequestException e); simpl; [|done]. intros [= <-].
    rewrite ?extend_extend. by eexists. }
  destruct ((400 <=? status_code r) && (status_code r <? 600)); simpl.
  { intros [= <-]. rewrite ?extend_extend. by eexists. }
  destruct (body r) as [e|j]; simpl.
  { destruct (is_RequestException e); simpl; [|done]. intros [= <-].
    rewrite ?extend_extend. by eexists. }
  intros [= <-]. by eexists.
Qed.

Lemma count_log (p : event -> bool) (evs : list event) :
  (forall lvl m, p (EvLog lvl m) = false) ->
  forallb is_log evs = true -> count p evs = 0%nat.
Proof.
  intros Hp. induction evs as [|e evs IH]; [done|].
  destruct e; simpl; try done. intros H.
  rewrite count_cons, Hp. simpl. by apply IH.
Qed.

Lemma discover_step_ready_clock
    (E : env) sid (t0 : Z) st (w : world) (d : json) :
  fst (Discover._check_status E sid w) = Ret (JStr "ready") ->
  fetched (Discover._fetch_data E) (fetches w) d ->
  exists evs,
    Discover.monitor_step E sid t0 st w = (Ret (Done d), extend w evs)
    /\ count is_progress evs = 1%nat
    /\ count is_snapshot evs = 1%nat
    /\ count is_now evs = 1%nat
    /\ count is_openw evs = 0%nat
    /\ count is_rename evs = 0%nat.
Proof.
  intros Hs Hd. unfold Discover.monitor_step.
  erewrite bind_ret by (by apply discover_check).
  unfold dict_set, dict_get, datetime_now. cbv beta. simpl hashable.
  cbv iota.
  destruct (py_eq (JStr "ready") st.1); run; rewrite ?extend_extend; simpl;
    match goal with |- context [Discover._fetch_data E sid ?x] =>
      destruct (discover_fetch_clock E sid x d) as (evs1 & -> & L1);
        [apply Hd; rewrite fetches_extend; unfold count; simpl; lia|]
    end;
    rewrite ?extend_extend; simpl;
    (eexists; split; [reflexivity|]);
    rewrite !count_cons; simpl;
    repeat match goal with
    | |- context [count ?p (?a ++ ?b)] => rewrite (count_app p a b)
    | |- context [count ?p (?a :: ?b)] => rewrite (count_cons p a b)
    end; simpl;
    rewrite ?(count_log is_progress evs1), ?(count_log is_snapshot evs1),
      ?(count_log is_now evs1), ?(count_log is_openw evs1),
      ?(count_log is_rename evs1) by done;
    repeat split; reflexivity.
Qed.

Lemma discover_save_exact (E : env) data filename (w : world) :
  rename_fault E (renames w) = None ->
  write_result E (writes w) = WriteOk ->
  exists evs,
    Discover._save_data E data filename true w
    = (Ret tt,
       {| fs := saved (fs w) filename (backup_name E filename w)
                  (dumps E data);
          trace := trace w ++ evs |})
    /\ count is_openw evs = 1%nat
    /\ count is_progress evs = 0%nat
    /\ count is_snapshot evs = 0%nat.
Proof.
  intros Hr Hw. unfold saved.
  destruct (fs w !! filename) as [c|] eqn:Hc.
  - unfold Discover._save_data, os_path_exists, os_rename, write_json,
      datetime_now.
    run. rewrite Hc. simpl.
    replace (renames (extend w [EvNow])) with (renames w)
      by (rewrite renames_extend; unfold count; simpl; lia).
    rewrite Hr. simpl. rewrite Hc. simpl. rewrite <- !app_assoc. simpl.
    match goal with |- context [write_result E ?n] =>
      replace n with (writes w)
        by (unfold writes; simpl; rewrite !count_app; unfold count; simpl; lia)
    end.
    rewrite Hw. simpl. fold (backup_name E filename w).
    eexists. split; [rewrite <- !app_assoc; reflexivity|done].
  - rewrite (discover_save_fresh E data filename w Hc), Hw.
    eexists. split; [reflexivity|done].
Qed.

(** X14: the discovery collector end to end: an accepted submission,
    [n] waiting statuses, then [ready], a retrieval that returns data
    and a file system without faults give [True] after [n + 1] status
    checks, one retrieval and one write.  The files are then those of
    before with the destination holding the serialized data and, where
    the destination existed, its earlier content moved to
    [<destination>.bak_<timestamp>], the timestamp being the clock
    reading made for the backup (the one after the reading at the start
    and the [n + 1] readings of the monitor); no other file has
    changed. *)
Theorem discovery_run_succeeds
    (E : env) (fuel : nat) (filters : list (gmap string string))
    (output_file : string) (sid : json) (l : list json) (d : json)
    (w : world) :
  (length l < fuel)%nat ->
  Discover._clean_filters filters <> [] ->
  accepted (post_reply E (posts w)) sid ->
  Forall (fun s => waiting s = true) l ->
  observed (Discover._check_status E) (polls w) (l ++ [JStr "ready"]) ->
  fetched (Discover._fetch_data E) (fetches w) d ->
  truthy d = true ->
  rename_fault E (renames w) = None ->
  write_result E (writes w) = WriteOk ->
  let bak :=
    backup_at E output_file (count is_now (trace w) + length l + 2) in
  exists w',
    Discover.collect_properties E fuel filters output_file w = (Ret true, w')
    /\ polls w' = (polls w + S (length l))%nat
    /\ fetches w' = S (fetches w)
    /\ writes w' = S (writes w)
    /\ fs w' = saved (fs w) output_file bak (dumps E d)
    /\ fs w' !! output_file = Some (dumps E d)
    /\ (forall c, fs w !! output_file = Some c -> fs w' !! bak = Some c)
    /\ (forall p, p <> output_file ->
          (p = bak -> fs w !! output_file = None) ->
          fs w' !! p = fs w !! p).
Proof.
  intros Hfuel Hc Ha Hw Hobs Hfd Hd Hrn Hwr bak.
  rewrite (discover_run_started E fuel filters output_file w sid Hc Ha).
  set (t0 := now E (count is_now (trace w))).
  set (w1 := discover_polling w (Discover._clean_filters filters) sid).
  assert (polls w1 = polls w /\ fetches w1 = fetches w /\ writes w1 = writes w
          /\ renames w1 = renames w
          /\ count is_now (trace w1) = S (count is_now (trace w)))
    as (Hp1 & Hf1 & Hw1 & Hr1 & Hn1).
  { unfold w1, discover_polling.
    rewrite polls_extend, fetches_extend, writes_extend, renames_extend,
      trace_extend, count_app.
    unfold count. simpl. lia. }
  destruct (fuel_split _ _ Hfuel) as (fuel' & ->).
  apply observed_app in Hobs as [Hl Hlast].
  destruct (discover_monitor_clock E sid t0 l (JNull, []) w1 Hw)
    as (st & evs & Hrun & L & P & N).
  { by rewrite Hp1. }
  destruct (count_polling evs L) as (S0 & W0 & R0 & _).
  set (w2 := extend w1 evs).
  assert (polls w2 = (polls w + length l)%nat
          /\ fetches w2 = fetches w /\ writes w2 = writes w
          /\ renames w2 = renames w
          /\ count is_now (trace w2)
             = (count is_now (trace w) + length l + 1)%nat)
    as (Hp2 & Hf2 & Hw2 & Hr2 & Hn2).
  { unfold w2.
    rewrite polls_extend, fetches_extend, writes_extend, renames_extend,
      trace_extend, count_app.
    rewrite P, S0, W0, R0, N. lia. }
  destruct (discover_step_ready_clock E sid t0 st w2 d)
    as (evs1 & H1 & P1 & S1 & N1 & W1 & R1).
  { eapply observed_head; [exact Hlast|]. by rewrite Hp2. }
  { by rewrite Hf2. }
  set (w3 := extend w2 evs1).
  assert (polls w3 = (polls w + S (length l))%nat
          /\ fetches w3 = S (fetches w) /\ writes w3 = writes w
          /\ renames w3 = renames w
          /\ count is_now (trace w3)
             = (count is_now (trace w) + length l + 2)%nat)
    as (Hp3 & Hf3 & Hw3 & Hr3 & Hn3).
  { unfold w3.
    rewrite polls_extend, fetches_extend, writes_extend, renames_extend,
      trace_extend, count_app.
    rewrite P1, S1, W1, R1, N1. lia. }
  destruct (discover_save_exact E d output_file w3)
    as (evs2 & Hsave & Wo & Po & So).
  { by rewrite Hr3. }
  { by rewrite Hw3. }
  assert (backup_name E output_file w3 = bak) as Hbak.
  { unfold backup_name, bak, backup_at. by rewrite Hn3. }
  rewrite Hbak in Hsave.
  assert (fs w3 = fs w) as Hfs3 by done.
  rewrite Hfs3 in Hsave.
  eexists. split.
  { unfold Discover._monitor_collection. rewrite Hrun. simpl.
    unfold mbind, M_bind. fold w2. rewrite H1. fold w3.
    unfold discover_finish. run. rewrite Hd. simpl.
    unfold mbind, M_bind. rewrite Hsave. reflexivity. }
  unfold polls, fetches, writes. simpl.
  count_norm is_progress. count_norm is_snapshot. count_norm is_openw.
  rewrite P, P1, Po, S0, S1, So, W0, W1, Wo. simpl.
  split; [lia|]. split; [lia|]. split; [lia|]. split; [done|].
  unfold saved. split; [apply lookup_insert_eq|]. split.
  - intros c Hoc. rewrite Hoc.
    destruct (decide (bak = output_file)) as [He|Hne].
    + exfalso. apply (backup_name_ne E output_file w3). by rewrite Hbak.
    + rewrite lookup_insert_ne by done. apply lookup_insert_eq.
  - intros p Hp Hpb. rewrite lookup_insert_ne by done.
    destruct (fs w !! output_file) as [c|] eqn:Hoc; [|done].
    rewrite lookup_insert_ne by (intros <-; by specialize (Hpb eq_refl)).
    by rewrite lookup_delete_ne.
Qed.

Lemma properties_save_effect (E : env) data filename (w : world) :
  exists w' evs,
    Properties._save_data E data filename w = (Ret tt, w')
    /\ trace w' = trace w ++ EvOpenW filename :: evs
    /\ forallb is_local evs = true
    /\ fs w' !! filename
       = written (write_result E (writes w)) (dumps E data)
           (fs w !! filename)
    /\ (forall p, p <> filename -> fs w' !! p = fs w !! p).
Proof.
  unfold Properties._save_data, write_json. run.
  destruct (write_result E (writes w)); simpl;
    eexists _, _; (split; [reflexivity|]); simpl;
    rewrite <- ?app_assoc; simpl; (split; [reflexivity|]);
    (split; [done|]); split; try done;
    try apply lookup_insert_eq; intros p Hp; by rewrite lookup_insert_ne.
Qed.

Lemma properties_step_ready_saved
    (E : env) sid (t0 : Z) prev (w : world) (d : json) :
  fst (Properties._check_status E sid w) = Ret (JStr "ready") ->
  fetched (Properties._fetch_data E) (fetches w) d ->
  truthy d = true ->
  exists w' evs,
    Properties.poll_step E sid t0 prev w = (Ret (Done (Some true)), w')
    /\ trace w' = trace w ++ evs
    /\ count is_progress evs = 1%nat
    /\ count is_snapshot evs = 1%nat
    /\ count is_openw evs = 1%nat
    /\ fs w' !! "zillow_properties.json"
       = written (write_result E (writes w)) (dumps E d)
           (fs w !! "zillow_properties.json")
    /\ (forall p, p <> "zillow_properties.json" -> fs w' !! p = fs w !! p).
Proof.
  intros Hs Hf Hd.
  destruct (properties_check E sid w _ Hs) as (evs0 & Hc & L0 & C0).
  destruct (count_local evs0 L0) as (P0 & S0 & W0 & R0 & Q0).
  unfold Properties.poll_step.
  erewrite bind_ret by exact Hc.
  unfold datetime_now. cbv beta.
  destruct (py_eq (JStr "ready") prev); run; rewrite ?extend_extend; simpl;
    match goal with |- context [Properties._fetch_data E sid ?w2] =>
      destruct (properties_fetch E sid w2 d) as (evs1 & Hfd & L1 & C1);
        [ apply Hf; rewrite fetches_extend; count_norm is_snapshot;
          rewrite S0; simpl; lia
        | rewrite Hfd ]
    end;
    destruct (count_local evs1 L1) as (P1 & S1 & W1 & R1 & Q1);
    simpl; rewrite Hd; simpl; rewrite ?extend_extend; simpl;
    match goal with |- context [Properties._save_data E d ?f ?w3] =>
      destruct (properties_save_effect E d f w3)
        as (w4 & evs2 & Hsv & Ht & L2 & Hfile & Hother);
      rewrite Hsv;
      replace (writes w3) with (writes w) in Hfile
        by (rewrite writes_extend; count_norm is_openw;
            rewrite W0, W1; simpl; lia)
    end;
    destruct (count_local evs2 L2) as (P2 & S2 & W2 & R2 & Q2);
    simpl; eexists _, _; (split; [reflexivity|]); simpl; rewrite Ht; simpl;
    rewrite <- !app_assoc; (split; [reflexivity|]);
    count_norm is_progress; count_norm is_snapshot; count_norm is_openw;
    rewrite P0, S0, W0, P1, S1, W1, P2, S2, W2; simpl;
    repeat split; try done.
Qed.

Lemma properties_run_ready_saved
    (E : env) (fuel : nat) urls sid (l : list json) (d : json) (w : world) :
  (length l < fuel)%nat ->
  accepted (post_reply E (posts w)) sid ->
  Forall (fun s => waiting s = true) l ->
  observed (Properties._check_status E) (polls w) (l ++ [JStr "ready"]) ->
  fetched (Properties._fetch_data E) (fetches w) d ->
  truthy d = true ->
  exists w',
    Properties.collect_properties E fuel urls w = (Ret (Some true), w')
    /\ polls w' = (polls w + S (length l))%nat
    /\ fetches w' = S (fetches w)
    /\ writes w' = S (writes w)
    /\ fs w' !! "zillow_properties.json"
       = written (write_result E (writes w)) (dumps E d)
           (fs w !! "zillow_properties.json")
    /\ (forall p, p <> "zillow_properties.json" -> fs w' !! p = fs w !! p).
Proof.
  intros Hfuel Ha Hw Hobs Hfd Hd.
  rewrite (properties_run_started E fuel urls w sid Ha).
  set (w1 := properties_polling w urls).
  destruct (polls_properties_polling w urls) as (Hp1 & Hf1 & Hw1).
  fold w1 in Hp1, Hf1, Hw1.
  destruct (fuel_split _ _ Hfuel) as (fuel' & ->).
  apply observed_app in Hobs as [Hl Hs].
  destruct (properties_poll_unroll E sid (now E (count is_now (trace w))) l
              JNull w1 Hw)
    as (prev' & evs & Hrun & P & L & C); [by rewrite Hp1|].
  destruct (count_polling evs L) as (S0 & W0 & _).
  destruct (properties_step_ready_saved E sid
              (now E (count is_now (trace w))) prev' (extend w1 evs) d)
    as (w' & evs1 & H1 & T1 & P1 & S1 & W1 & Hfile & Hother); [| |done|].
  { eapply observed_head; [exact Hs|]. by rewrite polls_extend, P, Hp1. }
  { by rewrite fetches_extend, S0, Nat.add_0_r, Hf1. }
  replace (writes (extend w1 evs)) with (writes w) in Hfile
    by (by rewrite writes_extend, W0, Nat.add_0_r, Hw1).
  exists w'. rewrite Hrun. simpl. erewrite bind_ret by exact H1. simpl.
  split; [done|].
  unfold polls, fetches, writes in *. rewrite T1, trace_extend.
  count_norm is_progress. count_norm is_snapshot. count_norm is_openw.
  rewrite P, P1, S0, S1, W0, W1, Hp1, Hf1, Hw1.
  repeat split; try lia; [exact Hfile | exact Hother].
Qed.

(** X15: the simple collector end to end: an accepted submission,
    waiting statuses, then [ready], a retrieval that returns data and
    a write without fault give [True], with the serialized data in
    [zillow_properties.json] and every other file as it was. *)
Theorem simple_run_succeeds
    (E : env) (fuel : nat) (urls : list (gmap string string)) (sid : json)
    (l : list json) (d : json) (w : world) :
  (length l < fuel)%nat ->
  accepted (post_reply E (posts w)) sid ->
  Forall (fun s => waiting s = true) l ->
  observed (Properties._check_status E) (polls w) (l ++ [JStr "ready"]) ->
  fetched (Properties._fetch_data E) (fetches w) d ->
  truthy d = true ->
  write_result E (writes w) = WriteOk ->
  exists w',
    Properties.collect_properties E fuel urls w = (Ret (Some true), w')
    /\ polls w' = (polls w + S (length l))%nat
    /\ fetches w' = S (fetches w)
    /\ fs w' !! "zillow_properties.json" = Some (dumps E d)
    /\ (forall p, p <> "zillow_properties.json" -> fs w' !! p = fs w !! p).
Proof.
  intros Hfuel Ha Hw Hobs Hfd Hd Hwr.
  destruct (properties_run_ready_saved E fuel urls sid l d w)
    as (w' & Hrun & Hp & Hf & _ & Hfile & Hother); try done.
  rewrite Hwr in Hfile. by exists w'.
Qed.

(** X16: the simple collector's [_save_data] swallows every error, so
    a write that fails does not fail the run: it still returns [True],
    while the destination is as it was (the file could not be opened)
    or holds the part written before the fault. *)
Theorem simple_run_ignores_failed_write
    (E : env) (fuel : nat) (urls : list (gmap string string)) (sid : json)
    (l : list json) (d : json) (w : world) (o : write_outcome) :
  (length l < fuel)%nat ->
  accepted (post_reply E (posts w)) sid ->
  Forall (fun s => waiting s = true) l ->
  observed (Properties._check_status E) (polls w) (l ++ [JStr "ready"]) ->
  fetched (Properties._fetch_data E) (fetches w) d ->
  truthy d = true ->
  write_result E (writes w) = o ->
  o <> WriteOk ->
  exists w',
    Properties.collect_properties E fuel urls w = (Ret (Some true), w')
    /\ writes w' = S (writes w)
    /\ fs w' !! "zillow_properties.json"
       = written o (dumps E d) (fs w !! "zillow_properties.json")
    /\ (forall p, p <> "zillow_properties.json" -> fs w' !! p = fs w !! p).
Proof.
  intros Hfuel Ha Hw Hobs Hfd Hd Hwr _.
  destruct (properties_run_ready_saved E fuel urls sid l d w)
    as (w' & Hrun & _ & _ & Hwrites & Hfile & Hother); try done.
  rewrite Hwr in Hfile. by exists w'.
Qed.

(** ** What the simple collector returns *)

Lemma properties_step_never_false
    (E : env) sid (t0 : Z) prev (w w' : world) :
  Properties.poll_step E sid t0 prev w <> (Ret (Done (Some false)), w').
Proof.
  unfold Properties.poll_step, Properties._save_data, datetime_now.
  run. split_run; by intros [=].
Qed.

Lemma properties_loop_never_false
    (E : env) sid (t0 : Z) (fuel : nat) :
  forall prev (w w' : world),
    while_true fuel (Properties.poll_step E sid t0) prev w
    <> (Ret (Some false), w').
Proof.
  induction fuel as [|fuel IH]; intros prev w w'; simpl; [done|].
  unfold mbind, M_bind.
  destruct (Properties.poll_step E sid t0 prev w) as [[[s|r]|e|] w1] eqn:Hs;
    simpl.
  - apply IH.
  - intros [= -> ->]. by apply (properties_step_never_false E sid t0 prev w w').
  - done.
  - done.
Qed.

(** X17: [collect_properties] of the simple collector never returns
    [False]: its outcome is [True], [None], an exception, or a loop
    that is still polling; a caller can tell failure only by [None]. *)
Theorem simple_run_never_returns_false
    (E : env) (fuel : nat) (urls : list (gmap string string)) (w w' : world) :
  Properties.collect_properties E fuel urls w <> (Ret (Some false), w').
Proof.
  unfold Properties.collect_properties, datetime_now.
  run.
  repeat match goal with
  | |- context [match ?x with _ => _ end] =>
      lazymatch x with
      | context [match _ with _ => _ end] => fail
      | context [while_true] => fail
      | _ => destruct x eqn:?; simpl; try (intros [=]; fail)
      end
  end.
  apply properties_loop_never_false.
Qed.

(** ** The search response of the free scraper *)

Lemma parse_closed_form (m : list (string * json)) (w : world) :
  well_nested m = true ->
  PropertyData.parse_property_data (JObj m) w = (Ret (parsed_record m), w).
Proof.
  unfold well_nested, PropertyData.parse_property_data, parsed_record,
    field, sub.
  run.
  destruct (obj_lookup "hdpData" m) as [[| | | | |h]|]; simpl;
    try (by rewrite andb_false_r);
    [destruct (obj_lookup "homeInfo" h) as [[| | | | |hi]|]; simpl;
       try (by rewrite andb_false_r)|];
    (destruct (obj_lookup "latLong" m) as [[| | | | |ll]|]; simpl;
      try done).
Qed.

Lemma parse_rejects (x : json) (w : world) :
  parsable x = false ->
  PropertyData.parse_property_data x w = (Raise (AttributeError "get"), w).
Proof.
  destruct x as [| | | | |m]; try reflexivity.
  unfold parsable, well_nested, PropertyData.parse_property_data.
  run.
  destruct (obj_lookup "hdpData" m) as [[| | | | |h]|]; simpl;
    try reflexivity;
    [destruct (obj_lookup "homeInfo" h) as [[| | | | |hi]|]; simpl;
       try reflexivity|];
    (destruct (obj_lookup "latLong" m) as [[| | | | |ll]|]; simpl;
      try done).
Qed.

(** X18: [parse_property_data] returns a record exactly for the
    listings that are dictionaries whose [latLong], [hdpData] and
    [hdpData.homeInfo] are dictionaries where present: the default
    [{}] of the chained [.get] covers a missing key only, so a
    listing in which one of them is [null] (or any other value that
    is not a dictionary) raises [AttributeError], as does a listing
    that is not a dictionary. *)
Theorem parse_succeeds_iff_well_nested (x : json) (w : world) :
  ((exists p, PropertyData.parse_property_data x w = (Ret p, w))
   <-> parsable x = true)
  /\ (parsable x = false ->
      PropertyData.parse_property_data x w
      = (Raise (AttributeError "get"), w)).
Proof.
  split; [split|].
  - intros [p Hp]. destruct (parsable x) eqn:Hx; [done|].
    by rewrite (parse_rejects x w Hx) in Hp.
  - destruct x as [| | | | |m]; try done. simpl. intros Hm.
    exists (parsed_record m). by apply parse_closed_form.
  - apply parse_rejects.
Qed.

(** X19: the record made of an accepted listing: every leaf is the
    field of the listing it is read from, or [None] where the listing
    (or the nested dictionary) lacks it; nothing else of the listing
    reaches the record. *)
Theorem parse_reads_fields (m : list (string * json)) (w : world) :
  well_nested m = true ->
  PropertyData.parse_property_data (JObj m) w = (Ret (parsed_record m), w).
Proof. apply parse_closed_form. Qed.

Lemma append_parsed_ok (ms : list (list (string * json))) :
  Forall (fun m => well_nested m = true) ms ->
  forall acc (w : world),
    PropertyData.append_parsed acc (map JObj ms) w
    = (Ret (acc ++ map parsed_record ms), w).
Proof.
  induction 1 as [|m ms Hm _ IH]; intros acc w; simpl.
  - by rewrite app_nil_r.
  - unfold mbind, M_bind. rewrite (parse_closed_form m w Hm).
    rewrite IH. by rewrite <- app_assoc.
Qed.

Lemma append_parsed_rejects (l : list json) :
  Exists (fun x => parsable x = false) l ->
  forall acc (w : world),
    PropertyData.append_parsed acc l w = (Raise (AttributeError "get"), w).
Proof.
  induction l as [|x l IH]; intros Hex acc w; [by inversion Hex|].
  simpl. unfold mbind, M_bind.
  destruct (parsable x) eqn:Hx.
  - destruct x as [| | | | |m]; try done. simpl in Hx.
    rewrite (parse_closed_form m w Hx). apply IH.
    inversion Hex as [? ? Hx'|]; [|done]. simpl in Hx'. congruence.
  - by rewrite (parse_rejects x w Hx).
Qed.

Lemma response_envelope (m : list (string * json)) (w : world)
    (k : json -> json -> M json) :
  envelope_ok m = true ->
  (cat1 ← py_get (JObj m) "cat1" (JObj []);
   searchList ← py_get cat1 "searchList" (JObj []);
   total_results ← py_get searchList "totalResultCount" JNull;
   cat1' ← py_get (JObj m) "cat1" (JObj []);
   searchResults ← py_get cat1' "searchResults" (JObj []);
   properties ← py_get searchResults "listResults" (JArr []);
   k total_results properties) w
  = k (total_count m) (listings m) w.
Proof.
  unfold envelope_ok, total_count, listings, field, sub.
  run.
  destruct (obj_lookup "cat1" m) as [[| | | | |c]|]; simpl; try done.
  destruct (obj_lookup "searchList" c) as [[| | | | |sl]|]; simpl; try done;
    destruct (obj_lookup "searchResults" c) as [[| | | | |sr]|]; simpl;
    done.
Qed.

(** X20: a page of accepted listings: where the dictionaries around
    them are dictionaries and every listing is accepted,
    [process_api_response] returns the page number it was given, the
    result count of the response and one record per listing, in the
    order of the response; a response without [cat1],
    [searchResults] or [listResults] gives a page without
    properties. *)
Theorem process_page_of_listings
    (m : list (string * json)) (page_num : Z)
    (ms : list (list (string * json))) (w : world) :
  envelope_ok m = true ->
  listings m = JArr (map JObj ms) ->
  Forall (fun r => well_nested r = true) ms ->
  PropertyData.process_api_response (JObj m) page_num w
  = (Ret (JObj [
       ("page_number", JInt page_num);
       ("total_results", total_count m);
       ("properties", JArr (map parsed_record ms))]), w).
Proof.
  intros Henv Hl Hms. unfold PropertyData.process_api_response.
  rewrite (response_envelope m w
    (fun total_results properties =>
       items ← PropertyData.py_iter properties;
       parsed ← PropertyData.append_parsed [] items;
       mret (JObj [
         ("page_number", JInt page_num);
         ("total_results", total_results);
         ("properties", JArr parsed)])) Henv).
  rewrite Hl. unfold mbind, M_bind at 1. simpl.
  unfold mbind, M_bind. by rewrite (append_parsed_ok ms Hms [] w).
Qed.

(** X21: one listing that [parse_property_data] does not accept fails
    the whole page: [process_api_response] raises [AttributeError]
    and returns none of the records of the other listings. *)
Theorem process_bad_listing_fails_page
    (m : list (string * json)) (page_num : Z) (l : list json) (w : world) :
  envelope_ok m = true ->
  listings m = JArr l ->
  Exists (fun x => parsable x = false) l ->
  PropertyData.process_api_response (JObj m) page_num w
  = (Raise (AttributeError "get"), w).
Proof.
  intros Henv Hl Hex. unfold PropertyData.process_api_response.
  rewrite (response_envelope m w
    (fun total_results properties =>
       items ← PropertyData.py_iter properties;
       parsed ← PropertyData.append_parsed [] items;
       mret (JObj [
         ("page_number", JInt page_num);
         ("total_results", total_results);
         ("properties", JArr parsed)])) Henv).
  rewrite Hl. unfold mbind, M_bind at 1. simpl.
  unfold mbind, M_bind. by rewrite (append_parsed_rejects l Hex [] w).
Qed.

(** ** The pace of the monitor *)

Lemma discover_step_waiting_pace
    (E : env) sid (t0 : Z) st (w : world) (s : json) :
  fst (Discover._check_status E sid w) = Ret s ->
  waiting s = true ->
  exists st' evs,
    Discover.monitor_step E sid t0 st w = (Ret (Next st'), extend w evs)
    /\ count is_progress evs = 1%nat
    /\ sleeps evs = [5].
Proof.
  intros Hs Hw. unfold waiting in Hw.
  apply andb_true_iff in Hw as [Hw Hf]. apply andb_true_iff in Hw as [Hh Hr].
  apply negb_true_iff in Hf, Hr.
  unfold Discover.monitor_step.
  erewrite bind_ret by (by apply discover_check).
  unfold dict_set, dict_get, datetime_now. cbv beta. rewrite Hh, Hr, Hf.
  destruct (py_eq s st.1); run;
    match goal with |- context [?x `mod` 30 =? 0] =>
      destruct (x `mod` 30 =? 0) end; simpl;
    rewrite ?extend_extend; simpl; eexists _, _; (split; [reflexivity|done]).
Qed.

Lemma discover_fetch_pace (E : env) sid (w : world) :
  exists r evs,
    Discover._fetch_data E sid w = (r, extend w evs)
    /\ r <> Pending
    /\ count is_progress evs = 0%nat
    /\ sleeps evs = [].
Proof.
  unfold Discover._fetch_data, requests_get_snapshot, raise_for_status,
    response_json.
  run.
  destruct (snapshot_reply E (fetches w)) as [e|r]; simpl.
  { destruct (is_RequestException e); simpl; rewrite ?extend_extend;
      eexists _, _; (split; [reflexivity|done]). }
  destruct ((400 <=? status_code r) && (status_code r <? 600)); simpl.
  { rewrite ?extend_extend. eexists _, _; (split; [reflexivity|done]). }
  destruct (body r) as [e|j]; simpl.
  { destruct (is_RequestException e); simpl; rewrite ?extend_extend;
      eexists _, _; (split; [reflexivity|done]). }
  eexists _, _; (split; [reflexivity|done]).
Qed.

Lemma discover_step_terminal_pace
    (E : env) sid (t0 : Z) st (w : world) (s : json) :
  fst (Discover._check_status E sid w) = Ret s ->
  waiting s = false ->
  exists r evs,
    Discover.monitor_step E sid t0 st w = (r, extend w evs)
    /\ (forall st', r <> Ret (Next st'))
    /\ r <> Pending
    /\ count is_progress evs = 1%nat
    /\ sleeps evs = [].
Proof.
  intros Hs Hw. unfold Discover.monitor_step.
  erewrite bind_ret by (by apply discover_check).
  unfold dict_set, dict_get, datetime_now. cbv beta.
  destruct (hashable s) eqn:Hh.
  - unfold waiting in Hw. rewrite Hh in Hw. simpl in Hw.
    destruct (py_eq s (JStr "ready")) eqn:Hr.
    + destruct (py_eq s st.1); run; rewrite ?extend_extend; simpl;
        match goal with |- context [Discover._fetch_data E sid ?x] =>
          destruct (discover_fetch_pace E sid x)
            as (r & evs & -> & Hp & Hc & Hsl)
        end;
        rewrite ?extend_extend; simpl;
        (destruct r as [d|e|]; [| |done]);
        eexists _, _; (split; [reflexivity|]);
        rewrite ?sleeps_app, ?Hsl; (count_norm is_progress); rewrite ?Hc;
        simpl; repeat split; try done.
    + rewrite andb_true_l in Hw. apply negb_false_iff in Hw.
      destruct (py_eq s st.1); run; rewrite ?Hw; rewrite ?extend_extend;
        simpl; eexists _, _; (split; [reflexivity|done]).
  - destruct (py_eq s st.1); run; rewrite ?extend_extend; simpl;
      eexists _, _; (split; [reflexivity|done]).
Qed.

Lemma discover_monitor_pace (E : env) sid (t0 : Z) (l : list json) :
  forall st (w : world),
    Forall (fun s => waiting s = true) l ->
    observed (Discover._check_status E) (polls w) l ->
    exists st' evs,
      (forall fuel : nat,
         while_true (length l + fuel) (Discover.monitor_step E sid t0) st w
         = while_true fuel (Discover.monitor_step E sid t0) st'
             (extend w evs))
      /\ count is_progress evs = length l
      /\ sleeps evs = repeat 5 (length l).
Proof.
  induction l as [|s l IH]; intros st w Hw Hobs.
  - exists st, []. split; [|done]. intros fuel. by rewrite extend_nil.
  - apply Forall_cons in Hw as [Hs Hw].
    destruct (discover_step_waiting_pace E sid t0 st w s)
      as (st1 & evs1 & H1 & P1 & S1);
      [by eapply observed_head | done |].
    destruct (IH st1 (extend w evs1)) as (st' & evs & H2 & P2 & S2); [done| |].
    { rewrite polls_extend, P1.
      replace (polls w + 1)%nat with (S (polls w)) by lia.
      by eapply observed_tail. }
    exists st', (evs1 ++ evs).
    split; [|split].
    + intros fuel. simpl. erewrite bind_ret by exact H1. simpl.
      by rewrite H2, extend_extend.
    + rewrite count_app, P1, P2. done.
    + rewrite sleeps_app, S1, S2. done.
Qed.

(** X22: [_monitor_collection] checks the status every five seconds:
    it sleeps five seconds after each status on which it waits and
    not at all after the status that ends it ([ready], [failed],
    [error], or one that cannot be counted), so [n] waiting statuses
    cost [n + 1] status checks and [5 n] seconds of sleep. *)
Theorem monitor_pace
    (E : env) (fuel : nat) (sid : json) (t0 : Z) (l : list json) (s : json)
    (w : world) :
  (length l < fuel)%nat ->
  Forall (fun s => waiting s = true) l ->
  observed (Discover._check_status E) (polls w) (l ++ [s]) ->
  waiting s = false ->
  exists r evs,
    Discover._monitor_collection E fuel sid t0 w = (r, extend w evs)
    /\ r <> Pending
    /\ count is_progress evs = S (length l)
    /\ sleeps evs = repeat 5 (length l).
Proof.
  intros Hfuel Hw Hobs Hs.
  destruct (fuel_split _ _ Hfuel) as (fuel' & ->).
  apply observed_app in Hobs as [Hl Hlast].
  destruct (discover_monitor_pace E sid t0 l (JNull, []) w Hw Hl)
    as (st & evs & Hrun & P & S).
  destruct (discover_step_terminal_pace E sid t0 st (extend w evs) s)
    as (r & evs1 & H1 & Hn & Hp & P1 & S1); [|done|].
  { eapply observed_head; [exact Hlast|]. by rewrite polls_extend, P. }
  unfold Discover._monitor_collection. rewrite Hrun. simpl.
  unfold mbind, M_bind. rewrite H1. rewrite extend_extend.
  destruct r as [[st'|d]|e|]; [by destruct (Hn st')| | |done].
  - exists (Ret d), (evs ++ evs1). split; [done|]. split; [done|].
    rewrite count_app, sleeps_app, P, P1, S, S1, app_nil_r.
    split; [lia|done].
  - exists (Raise e), (evs ++ evs1). split; [done|]. split; [done|].
    rewrite count_app, sleeps_app, P, P1, S, S1, app_nil_r.
    split; [lia|done].
Qed.

(** ** The exception boundary *)

Lemma py_contains_world (k : string) (x : json) (w w' : world) r :
  py_contains k x w = (r, w') -> w' = w.
Proof. destruct x; by intros [= _ <-]. Qed.

Lemma py_getitem_world (x : json) (k : string) (w w' : world) r :
  py_getitem x k w = (r, w') -> w' = w.
Proof.
  destruct x; simpl; try by intros [= _ <-].
  destruct (obj_lookup k m); by intros [= _ <-].
Qed.

Section Boundary.
Variable E : env.
Variable clean :
  list (gmap string string) -> M (list (gmap string string)).
Variable trigger : list (gmap string string) -> M json.
Variable monitor : json -> Z -> M json.
Variable save : json -> string -> M unit.
Variable filters : list (gmap string string).
Variable output_file : string.
Variable w : world.

Lemma discover_with_clean_raises e w1 :
  clean filters (extend w [EvNow]) = (Raise e, w1) ->
  Discover.collect_properties_with E clean trigger monitor save
    filters output_file w
  = (Ret false, extend w1 [unexpected_line e]).
Proof.
  intros Hc. unfold Discover.collect_properties_with, datetime_now.
  run. by rewrite Hc.
Qed.

Lemma discover_with_trigger_raises cleaned w1 e w2 :
  clean filters (extend w [EvNow]) = (Ret cleaned, w1) ->
  cleaned <> [] ->
  trigger cleaned
    (extend w1
       [EvLog INFO
          [Lit "Starting property discovery for ";
           IntV (Z.of_nat (length cleaned)); Lit " filters"]])
  = (Raise e, w2) ->
  Discover.collect_properties_with E clean trigger monitor save
    filters output_file w
  = (Ret false, extend w2 [unexpected_line e]).
Proof.
  intros Hc Hne Ht. unfold Discover.collect_properties_with, datetime_now.
  run. rewrite Hc. destruct cleaned as [|f cleaned]; [done|].
  simpl in Ht |- *. by rewrite Ht.
Qed.

Lemma discover_with_membership_raises cleaned w1 cr w2 e :
  clean filters (extend w [EvNow]) = (Ret cleaned, w1) ->
  cleaned <> [] ->
  trigger cleaned
    (extend w1
       [EvLog INFO
          [Lit "Starting property discovery for ";
           IntV (Z.of_nat (length cleaned)); Lit " filters"]])
  = (Ret cr, w2) ->
  truthy cr = true ->
  py_contains "snapshot_id" cr w2 = (Raise e, w2) ->
  Discover.collect_properties_with E clean trigger monitor save
    filters output_file w
  = (Ret false, extend w2 [unexpected_line e]).
Proof.
  intros Hc Hne Ht Hcr Hin.
  unfold Discover.collect_properties_with, datetime_now.
  run. rewrite Hc. destruct cleaned as [|f cleaned]; [done|].
  simpl in Ht |- *. rewrite Ht, Hcr. simpl. by rewrite Hin.
Qed.

Lemma discover_with_subscript_raises cleaned w1 cr w2 e :
  clean filters (extend w [EvNow]) = (Ret cleaned, w1) ->
  cleaned <> [] ->
  trigger cleaned
    (extend w1
       [EvLog INFO
          [Lit "Starting property discovery for ";
           IntV (Z.of_nat (length cleaned)); Lit " filters"]])
  = (Ret cr, w2) ->
  truthy cr = true ->
  py_contains "snapshot_id" cr = mret true ->
  py_getitem cr "snapshot_id" w2 = (Raise e, w2) ->
  Discover.collect_properties_with E clean trigger monitor save
    filters output_file w
  = (Ret false, extend w2 [unexpected_line e]).
Proof.
  intros Hc Hne Ht Hcr Hin Hget.
  unfold Discover.collect_properties_with, datetime_now.
  run. rewrite Hc. destruct cleaned as [|f cleaned]; [done|].
  simpl in Ht |- *. rewrite Ht, Hcr. simpl. rewrite Hin. run.
  by rewrite Hget.
Qed.

Lemma discover_with_monitor_raises cleaned w1 cr w2 sid e w3 :
  clean filters (extend w [EvNow]) = (Ret cleaned, w1) ->
  cleaned <> [] ->
  trigger cleaned
    (extend w1
       [EvLog INFO
          [Lit "Starting property discovery for ";
           IntV (Z.of_nat (length cleaned)); Lit " filters"]])
  = (Ret cr, w2) ->
  truthy cr = true ->
  py_contains "snapshot_id" cr = mret true ->
  py_getitem cr "snapshot_id" = mret sid ->
  monitor sid (now E (count is_now (trace w)))
    (extend w2 [EvLog DEBUG [Lit "Received snapshot ID: "; JsonV sid]])
  = (Raise e, w3) ->
  Discover.collect_properties_with E clean trigger monitor save
    filters output_file w
  = (Ret false, extend w3 [unexpected_line e]).
Proof.
  intros Hc Hne Ht Hcr Hin Hget Hm.
  unfold Discover.collect_properties_with, datetime_now.
  run. rewrite Hc. destruct cleaned as [|f cleaned]; [done|].
  simpl in Ht |- *. rewrite Ht, Hcr. simpl. rewrite Hin. run. rewrite Hget. run.
  by rewrite Hm.
Qed.

Lemma discover_with_save_raises cleaned w1 cr w2 sid data w3 e w4 :
  clean filters (extend w [EvNow]) = (Ret cleaned, w1) ->
  cleaned <> [] ->
  trigger cleaned
    (extend w1
       [EvLog INFO
          [Lit "Starting property discovery for ";
           IntV (Z.of_nat (length cleaned)); Lit " filters"]])
  = (Ret cr, w2) ->
  truthy cr = true ->
  py_contains "snapshot_id" cr = mret true ->
  py_getitem cr "snapshot_id" = mret sid ->
  monitor sid (now E (count is_now (trace w)))
    (extend w2 [EvLog DEBUG [Lit "Received snapshot ID: "; JsonV sid]])
  = (Ret data, w3) ->
  truthy data = true ->
  save data output_file w3 = (Raise e, w4) ->
  Discover.collect_properties_with E clean trigger monitor save
    filters output_file w
  = (Ret false, extend w4 [unexpected_line e]).
Proof.
  intros Hc Hne Ht Hcr Hin Hget Hm Hd Hs.
  unfold Discover.collect_properties_with, datetime_now.
  run. rewrite Hc. destruct cleaned as [|f cleaned]; [done|].
  simpl in Ht |- *. rewrite Ht, Hcr. simpl. rewrite Hin. run. rewrite Hget. run.
  rewrite Hm, Hd. simpl. by rewrite Hs.
Qed.

Lemma discover_with_true w' :
  Discover.collect_properties_with E clean trigger monitor save
    filters output_file w = (Ret true, w') ->
  exists cleaned w1 cr w2 sid data w3 w4,
    clean filters (extend w [EvNow]) = (Ret cleaned, w1)
    /\ trigger cleaned
         (extend w1
            [EvLog INFO
               [Lit "Starting property discovery for ";
                IntV (Z.of_nat (length cleaned)); Lit " filters"]])
       = (Ret cr, w2)
    /\ py_getitem cr "snapshot_id" w2 = (Ret sid, w2)
    /\ monitor sid (now E (count is_now (trace w)))
         (extend w2 [EvLog DEBUG [Lit "Received snapshot ID: "; JsonV sid]])
       = (Ret data, w3)
    /\ truthy data = true
    /\ save data output_file w3 = (Ret tt, w4)
    /\ w' = extend w4
              [EvLog INFO
                 [Lit "Data successfully saved to "; StrV output_file]].
Proof.
  unfold Discover.collect_properties_with, datetime_now.
  run. split_run.
  intros [= <-].
  repeat match goal with
  | H : py_contains _ _ ?a = (_, ?b) |- _ =>
      pose proof (py_contains_world _ _ _ _ _ H); subst b; clear H
  | H : py_getitem _ _ ?a = (Ret _, ?b) |- _ =>
      pose proof (py_getitem_world _ _ _ _ _ H); subst b; revert H
  end.
  intros Hget.
  match goal with
  | Hc : clean filters _ = (Ret ?c, ?w1),
    Ht : trigger _ _ = (Ret ?cr, ?w2),
    Hm : monitor ?sid _ _ = (Ret ?d, ?w3),
    Hs : save ?d output_file ?w3 = (Ret ?u, ?w4) |- _ =>
      exists c, w1, cr, w2, sid, d, w3, w4; destruct u
  end.
  repeat split; try done.
  match goal with H : negb (truthy ?d) = false |- truthy ?d = true =>
    by destruct (truthy d) end.
Qed.

End Boundary.

Lemma discover_fetch_answers (E : env) sid (w w' : world) (d : json) :
  Discover._fetch_data E sid w = (Ret d, w') ->
  truthy d = true ->
  answers (snapshot_reply E (fetches w)) d /\ fs w' = fs w.
Proof.
  unfold Discover._fetch_data, requests_get_snapshot, raise_for_status,
    response_json, answers.
  run.
  destruct (snapshot_reply E (fetches w)) as [e|r]; simpl.
  { destruct (is_RequestException e); simpl; [|done]. by intros [= <- <-]. }
  destruct ((400 <=? status_code r) && (status_code r <? 600)) eqn:Hc; simpl.
  { by intros [= <- <-]. }
  destruct (body r) as [e|j] eqn:Hb; simpl.
  { destruct (is_RequestException e); simpl; [|done]. by intros [= <- <-]. }
  intros [= <- <-] _. split; [|done]. by exists r.
Qed.

Lemma discover_step_fetch
    (E : env) sid (t0 : Z) st (w w' : world) r :
  Discover.monitor_step E sid t0 st w = (r, w') ->
  fs w' = fs w
  /\ match r with
     | Ret (Next _) => fetches w' = fetches w
     | Ret (Done d) =>
         truthy d = true -> answers (snapshot_reply E (fetches w)) d
     | _ => True
     end.
Proof.
  unfold Discover.monitor_step.
  unfold mbind at 1. unfold M_bind at 1.
  pose proof (discover_check_status_world E sid w) as Hw.
  destruct (Discover._check_status E sid w) as [[s|e|] w1]; simpl in Hw;
    subst w1; [|by intros [= <- <-]..].
  unfold dict_set, dict_get, datetime_now. cbv beta.
  destruct (hashable s);
    [|destruct (py_eq s st.1); run; by intros [= <- <-]].
  destruct (py_eq s (JStr "ready")) eqn:Hr.
  - destruct (py_eq s st.1); run; rewrite ?extend_extend; simpl;
      match goal with |- context [Discover._fetch_data E sid ?x] =>
        destruct (discover_fetch_world E sid x) as (evs & Hw2 & _);
        destruct (Discover._fetch_data E sid x) as [[d|e|] w2] eqn:Hf
      end; simpl in Hw2; subst w2; intros [= <- <-]; (split; [done|]);
      try done;
      intros Hd;
      destruct (discover_fetch_answers E sid _ _ d Hf Hd) as [Ha _];
      revert Ha; rewrite fetches_extend;
      match goal with |- context [count is_snapshot ?l] =>
        change (count is_snapshot l) with 0%nat end;
      by rewrite Nat.add_0_r.
  - destruct (in_strs s ["failed"; "error"]);
      destruct (py_eq s st.1); run;
      try match goal with |- context [?x `mod` 30 =? 0] =>
        destruct (x `mod` 30 =? 0) end; simpl;
      rewrite ?extend_extend; intros [= <- <-]; (split; [done|]); try done;
      rewrite fetches_extend; unfold count; simpl; lia.
Qed.

Lemma discover_monitor_fetch (E : env) sid (t0 : Z) (fuel : nat) :
  forall st (w w' : world) d,
    while_true fuel (Discover.monitor_step E sid t0) st w = (Ret d, w') ->
    truthy d = true ->
    answers (snapshot_reply E (fetches w)) d.
Proof.
  induction fuel as [|fuel IH]; intros st w w' d; simpl; [done|].
  unfold mbind, M_bind.
  destruct (Discover.monitor_step E sid t0 st w) as [[[st1|d1]|e|] w1] eqn:Hs;
    try done;
    destruct (discover_step_fetch E sid t0 st w w1 _ Hs) as [_ Hf].
  - intros Hrun Hd. rewrite <- Hf. by eapply IH.
  - intros [= <- <-]. exact Hf.
Qed.

Lemma discover_true_is_fetched
    (E : env) (fuel : nat) filters output_file (w w' : world) :
  Discover.collect_properties E fuel filters output_file w = (Ret true, w') ->
  exists data,
    answers (snapshot_reply E (fetches w)) data
    /\ truthy data = true
    /\ fs w' !! output_file = Some (dumps E data).
Proof.
  intros Hrun.
  destruct (discover_with_true E _ _ _ _ filters output_file w w' Hrun)
    as (cleaned & w1 & cr & w2 & sid & data & w3 & w4
        & Hc & Ht & _ & Hm & Hd & Hs & ->).
  injection Hc as <- <-.
  destruct (trigger_loop_bounded E (Discover._clean_filters filters)
              [0; 1; 2]
              (extend (extend w [EvNow])
                 [EvLog INFO
                    [Lit "Starting property discovery for ";
                     IntV (Z.of_nat
                             (length (Discover._clean_filters filters)));
                     Lit " filters"]]))
    as (r & evs & Hrun' & _ & _ & _ & _ & L & _).
  { repeat constructor; lia. }
  unfold Discover._trigger_collection in Ht. rewrite Hrun' in Ht.
  injection Ht as -> <-.
  destruct (count_submission evs L) as (_ & S0 & _).
  exists data. split; [|split; [done|]].
  - apply (discover_monitor_fetch E sid _ fuel) in Hm; [|done].
    revert Hm. rewrite !fetches_extend, S0. unfold count. simpl.
    by rewrite !Nat.add_0_r.
  - destruct (discover_save_returns E data output_file w3 w4 Hs) as [Hfs _].
    exact Hfs.
Qed.

(** ** The simple collector: what its stages let through *)

Lemma properties_trigger_lets_through (E : env) urls (w : world) e :
  (fst (Properties._trigger_collection E urls w) = Raise e ->
   is_RequestException e = false)
  /\ (post_reply E (posts w) = Fails e ->
      is_RequestException e = false ->
      fst (Properties._trigger_collection E urls w) = Raise e).
Proof.
  unfold Properties._trigger_collection, requests_post, raise_for_status,
    response_json.
  run. split.
  - destruct (post_reply E (posts w)) as [e'|r]; simpl.
    { destruct (is_RequestException e') eqn:He; simpl; [done|].
      by intros [= <-]. }
    destruct ((400 <=? status_code r) && (status_code r <? 600)); simpl;
      [done|].
    destruct (body r) as [e'|j]; simpl; [|done].
    destruct (is_RequestException e') eqn:He; simpl; [done|].
    by intros [= <-].
  - intros -> He. simpl. by rewrite He.
Qed.

Lemma properties_check_lets_through (E : env) sid (w : world) e :
  (fst (Properties._check_status E sid w) = Raise e ->
   is_RequestException e = false)
  /\ (progress_reply E (polls w) = Fails e ->
      is_RequestException e = false ->
      fst (Properties._check_status E sid w) = Raise e).
Proof.
  unfold Properties._check_status, requests_get_progress, raise_for_status,
    response_json.
  run. split.
  - destruct (progress_reply E (polls w)) as [e'|r]; simpl.
    { destruct (is_RequestException e') eqn:He; simpl; [done|].
      by intros [= <-]. }
    destruct ((400 <=? status_code r) && (status_code r <? 600)); simpl;
      [done|].
    destruct (body r) as [e'|j]; simpl.
    { destruct (is_RequestException e') eqn:He; simpl; [done|].
      by intros [= <-]. }
    destruct j; simpl; try done; by intros [= <-].
  - intros -> He. simpl. by rewrite He.
Qed.

Lemma properties_fetch_lets_through (E : env) sid (w : world) e :
  (fst (Properties._fetch_data E sid w) = Raise e ->
   is_RequestException e = false)
  /\ (snapshot_reply E (fetches w) = Fails e ->
      is_RequestException e = false ->
      fst (Properties._fetch_data E sid w) = Raise e).
Proof.
  unfold Properties._fetch_data, requests_get_snapshot, raise_for_status,
    response_json.
  run. split.
  - destruct (snapshot_reply E (fetches w)) as [e'|r]; simpl.
    { destruct (is_RequestException e') eqn:He; simpl; [done|].
      by intros [= <-]. }
    destruct ((400 <=? status_code r) && (status_code r <? 600)); simpl;
      [done|].
    destruct (body r) as [e'|j]; simpl; [|done].
    destruct (is_RequestException e') eqn:He; simpl; [done|].
    by intros [= <-].
  - intros -> He. simpl. by rewrite He.
Qed.

Lemma properties_step_check_raises
    (E : env) sid (t0 : Z) prev (w : world) e :
  fst (Properties._check_status E sid w) = Raise e ->
  fst (Properties.poll_step E sid t0 prev w) = Raise e.
Proof.
  intros H. unfold Properties.poll_step.
  destruct (Properties._check_status E sid w) as [[s|e'|] w1] eqn:Hc;
    simpl in H; try done.
  injection H as ->. by erewrite bind_raise by exact Hc.
Qed.

Lemma properties_step_fetch_raises
    (E : env) sid (t0 : Z) prev (w : world) e :
  fst (Properties._check_status E sid w) = Ret (JStr "ready") ->
  raises_at (Properties._fetch_data E) fetches (fetches w) e ->
  fst (Properties.poll_step E sid t0 prev w) = Raise e.
Proof.
  intros Hs Hf.
  destruct (properties_check E sid w (JStr "ready") Hs)
    as (evs & Hc & L & _).
  destruct (count_local evs L) as (_ & S0 & _).
  unfold Properties.poll_step.
  erewrite bind_ret by exact Hc.
  unfold datetime_now.
  destruct (py_eq (JStr "ready") prev); run; rewrite ?extend_extend; simpl;
    match goal with |- context [Properties._fetch_data E sid ?x] =>
      pose proof (Hf sid x) as Hx;
      destruct (Properties._fetch_data E sid x) as [r w2]
    end; simpl in Hx; rewrite Hx; [done| |done|];
    rewrite fetches_extend; count_norm is_snapshot; rewrite S0;
    unfold count; simpl; lia.
Qed.

Lemma properties_run_trigger_raises
    (E : env) (fuel : nat) urls (w : world) e :
  raises_at (Properties._trigger_collection E) posts (posts w) e ->
  fst (Properties.collect_properties E fuel urls w) = Raise e.
Proof.
  intros H. unfold Properties.collect_properties, datetime_now. run.
  match goal with |- context [Properties._trigger_collection E urls ?x] =>
    pose proof (H urls x) as Hx;
    destruct (Properties._trigger_collection E urls x) as [r w2]
  end. simpl in Hx. rewrite Hx; [done|].
  unfold posts. simpl. rewrite !count_app. unfold count. simpl. lia.
Qed.

Lemma properties_run_check_raises
    (E : env) (fuel : nat) urls sid (l : list json) (w : world) e :
  (length l < fuel)%nat ->
  accepted (post_reply E (posts w)) sid ->
  Forall (fun s => waiting s = true) l ->
  observed (Properties._check_status E) (polls w) l ->
  raises_at (Properties._check_status E) polls (polls w + length l) e ->
  fst (Properties.collect_properties E fuel urls w) = Raise e.
Proof.
  intros Hfuel Ha Hw Hobs He.
  rewrite (properties_run_started E fuel urls w sid Ha).
  destruct (polls_properties_polling w urls) as (Hp1 & _).
  destruct (fuel_split _ _ Hfuel) as (fuel' & ->).
  destruct (properties_poll_unroll E sid (now E (count is_now (trace w))) l
              JNull (properties_polling w urls) Hw)
    as (prev & evs & Hrun & P & _); [by rewrite Hp1|].
  rewrite Hrun. simpl. unfold mbind, M_bind.
  pose proof (properties_step_check_raises E sid
                (now E (count is_now (trace w))) prev
                (extend (properties_polling w urls) evs) e) as Hstep.
  destruct (Properties.poll_step E sid _ prev _) as [r w2].
  simpl in Hstep. rewrite Hstep; [done|].
  apply He. rewrite polls_extend, P, Hp1. done.
Qed.

Lemma properties_run_fetch_raises
    (E : env) (fuel : nat) urls sid (l : list json) (w : world) e :
  (length l < fuel)%nat ->
  accepted (post_reply E (posts w)) sid ->
  Forall (fun s => waiting s = true) l ->
  observed (Properties._check_status E) (polls w) (l ++ [JStr "ready"]) ->
  raises_at (Properties._fetch_data E) fetches (fetches w) e ->
  fst (Properties.collect_properties E fuel urls w) = Raise e.
Proof.
  intros Hfuel Ha Hw Hobs He.
  rewrite (properties_run_started E fuel urls w sid Ha).
  destruct (polls_properties_polling w urls) as (Hp1 & Hf1 & _).
  destruct (fuel_split _ _ Hfuel) as (fuel' & ->).
  apply observed_app in Hobs as [Hl Hlast].
  destruct (properties_poll_unroll E sid (now E (count is_now (trace w))) l
              JNull (properties_polling w urls) Hw)
    as (prev & evs & Hrun & P & L & _); [by rewrite Hp1|].
  destruct (count_polling evs L) as (S0 & _).
  rewrite Hrun. simpl. unfold mbind, M_bind.
  pose proof (properties_step_fetch_raises E sid
                (now E (count is_now (trace w))) prev
                (extend (properties_polling w urls) evs) e) as Hstep.
  destruct (Properties.poll_step E sid _ prev _) as [r w2].
  simpl in Hstep. rewrite Hstep; [done| |].
  - eapply observed_head; [exact Hlast|]. by rewrite polls_extend, P, Hp1.
  - by rewrite fetches_extend, S0, Hf1, Nat.add_0_r.
Qed.

(** C9, as the code has it.  The discovery collector's
    [collect_properties] is an exception boundary, whatever the four
    methods it calls on [self] do: no exception leaves it; an exception
    raised by any of the four, or by the membership test or the
    subscript on the trigger response, is logged as unexpected and
    becomes [False]; and it returns [True] only once the monitor has
    returned data that is not empty and the save of that data has
    returned.  With the methods of the code, [True] means that the
    destination holds the serialization of the non-empty body of the
    snapshot response.  The simple collector has no boundary: each of its
    stages catches [RequestException] and nothing else ([_save_data]
    alone catches everything), and an exception that the trigger, a
    status check or the retrieval raises leaves [collect_properties]
    unchanged. *)
Theorem exception_boundary_of_collectors
    (E : env)
    (clean : list (gmap string string) -> M (list (gmap string string)))
    (trigger : list (gmap string string) -> M json)
    (monitor : json -> Z -> M json) (save : json -> string -> M unit)
    (fuel : nat) (filters : list (gmap string string))
    (output_file : string) (property_urls : list (gmap string string))
    (w : world) :
  let run :=
    Discover.collect_properties_with E clean trigger monitor save
      filters output_file in
  let t0 := now E (count is_now (trace w)) in
  let starting (cleaned : list (gmap string string)) :=
    EvLog INFO
      [Lit "Starting property discovery for ";
       IntV (Z.of_nat (length cleaned)); Lit " filters"] in
  let received (sid : json) :=
    EvLog DEBUG [Lit "Received snapshot ID: "; JsonV sid] in
  let simple := Properties.collect_properties E fuel property_urls in
  (forall e, fst (run w) <> Raise e)
  /\ (forall e,
        fst (Discover.collect_properties E fuel filters output_file w)
        <> Raise e)
  /\ (forall e w1,
        clean filters (extend w [EvNow]) = (Raise e, w1) ->
        run w = (Ret false, extend w1 [unexpected_line e]))
  /\ (forall cleaned w1 e w2,
        clean filters (extend w [EvNow]) = (Ret cleaned, w1) ->
        cleaned <> [] ->
        trigger cleaned (extend w1 [starting cleaned]) = (Raise e, w2) ->
        run w = (Ret false, extend w2 [unexpected_line e]))
  /\ (forall cleaned w1 cr w2 e,
        clean filters (extend w [EvNow]) = (Ret cleaned, w1) ->
        cleaned <> [] ->
        trigger cleaned (extend w1 [starting cleaned]) = (Ret cr, w2) ->
        truthy cr = true ->
        py_contains "snapshot_id" cr w2 = (Raise e, w2) ->
        run w = (Ret false, extend w2 [unexpected_line e]))
  /\ (forall cleaned w1 cr w2 e,
        clean filters (extend w [EvNow]) = (Ret cleaned, w1) ->
        cleaned <> [] ->
        trigger cleaned (extend w1 [starting cleaned]) = (Ret cr, w2) ->
        truthy cr = true ->
        py_contains "snapshot_id" cr = mret true ->
        py_getitem cr "snapshot_id" w2 = (Raise e, w2) ->
        run w = (Ret false, extend w2 [unexpected_line e]))
  /\ (forall cleaned w1 cr w2 sid e w3,
        clean filters (extend w [EvNow]) = (Ret cleaned, w1) ->
        cleaned <> [] ->
        trigger cleaned (extend w1 [starting cleaned]) = (Ret cr, w2) ->
        truthy cr = true ->
        py_contains "snapshot_id" cr = mret true ->
        py_getitem cr "snapshot_id" = mret sid ->
        monitor sid t0 (extend w2 [received sid]) = (Raise e, w3) ->
        run w = (Ret false, extend w3 [unexpected_line e]))
  /\ (forall cleaned w1 cr w2 sid data w3 e w4,
        clean filters (extend w [EvNow]) = (Ret cleaned, w1) ->
        cleaned <> [] ->
        trigger cleaned (extend w1 [starting cleaned]) = (Ret cr, w2) ->
        truthy cr = true ->
        py_contains "snapshot_id" cr = mret true ->
        py_getitem cr "snapshot_id" = mret sid ->
        monitor sid t0 (extend w2 [received sid]) = (Ret data, w3) ->
        truthy data = true ->
        save data output_file w3 = (Raise e, w4) ->
        run w = (Ret false, extend w4 [unexpected_line e]))
  /\ (forall w',
        run w = (Ret true, w') ->
        exists cleaned w1 cr w2 sid data w3 w4,
          clean filters (extend w [EvNow]) = (Ret cleaned, w1)
          /\ trigger cleaned (extend w1 [starting cleaned]) = (Ret cr, w2)
          /\ py_getitem cr "snapshot_id" w2 = (Ret sid, w2)
          /\ monitor sid t0 (extend w2 [received sid]) = (Ret data, w3)
          /\ truthy data = true
          /\ save data output_file w3 = (Ret tt, w4)
          /\ w' = extend w4
                    [EvLog INFO
                       [Lit "Data successfully saved to ";
                        StrV output_file]])
  /\ (forall w',
        Discover.collect_properties E fuel filters output_file w
          = (Ret true, w') ->
        exists data,
          answers (snapshot_reply E (fetches w)) data
          /\ truthy data = true
          /\ fs w' !! output_file = Some (dumps E data))
  /\ (forall sid w0 e,
        fst (Properties._trigger_collection E property_urls w0) = Raise e
        \/ fst (Properties._check_status E sid w0) = Raise e
        \/ fst (Properties._fetch_data E sid w0) = Raise e ->
        is_RequestException e = false)
  /\ (forall sid w0 e,
        is_RequestException e = false ->
        (post_reply E (posts w0) = Fails e ->
         fst (Properties._trigger_collection E property_urls w0) = Raise e)
        /\ (progress_reply E (polls w0) = Fails e ->
            fst (Properties._check_status E sid w0) = Raise e)
        /\ (snapshot_reply E (fetches w0) = Fails e ->
            fst (Properties._fetch_data E sid w0) = Raise e))
  /\ (forall data filename w0,
        fst (Properties._save_data E data filename w0) = Ret tt)
  /\ (forall e,
        raises_at (Properties._trigger_collection E) posts (posts w) e ->
        fst (simple w) = Raise e)
  /\ (forall sid l e,
        (length l < fuel)%nat ->
        accepted (post_reply E (posts w)) sid ->
        Forall (fun s => waiting s = true) l ->
        observed (Properties._check_status E) (polls w) l ->
        raises_at (Properties._check_status E) polls
          (polls w + length l) e ->
        fst (simple w) = Raise e)
  /\ (forall sid l e,
        (length l < fuel)%nat ->
        accepted (post_reply E (posts w)) sid ->
        Forall (fun s => waiting s = true) l ->
        observed (Properties._check_status E) (polls w)
          (l ++ [JStr "ready"]) ->
        raises_at (Properties._fetch_data E) fetches (fetches w) e ->
        fst (simple w) = Raise e).
Proof.
  intros run t0 starting received simple.
  split; [intros e; apply discover_with_never_raises|].
  split; [intros e; apply discover_with_never_raises|].
  split; [apply discover_with_clean_raises|].
  split; [apply discover_with_trigger_raises|].
  split; [apply discover_with_membership_raises|].
  split; [apply discover_with_subscript_raises|].
  split; [apply discover_with_monitor_raises|].
  split; [apply discover_with_save_raises|].
  split; [apply discover_with_true|].
  split; [apply discover_true_is_fetched|].
  split.
  { intros sid w0 e [H|[H|H]].
    - by apply (properties_trigger_lets_through E property_urls w0 e).
    - by apply (properties_check_lets_through E sid w0 e).
    - by apply (properties_fetch_lets_through E sid w0 e). }
  split.
  { intros sid w0 e He. split; [|split]; intros Hr.
    - by apply (properties_trigger_lets_through E property_urls w0 e).
    - by apply (properties_check_lets_through E sid w0 e).
    - by apply (properties_fetch_lets_through E sid w0 e). }
  split.
  { intros data filename w0.
    by destruct (properties_save_returns E data filename w0)
      as (w' & evs & -> & _). }
  split; [intros e; apply properties_run_trigger_raises|].
  split.
  { intros sid l e.
    apply (properties_run_check_raises E fuel property_urls sid l w e). }
  intros sid l e.
  apply (properties_run_fetch_raises E fuel property_urls sid l w e).
Qed.

(** ** The further properties on the example data *)

Lemma clean_filters_sound_witness :
  let f : gmap string string := {[ "location" := "Colorado" ]} in
  usable f /\ scrubbed f /\ exists g, g ∈ main_filters /\ f ⊆ g.
Proof.
  intros f. apply (clean_filters_sound main_filters f).
  apply list_elem_of_lookup. exists 2%nat. vm_compute. reflexivity.
Defined.

Lemma clean_filters_idempotent_witness :
  Discover._clean_filters example_filters = example_filters.
Proof.
  apply (proj1 (clean_filters_idempotent example_filters)).
  repeat constructor.
  - exists "92027". split; reflexivity.
  - intros k v Hk. apply lookup_singleton_Some in Hk as [_ <-]. reflexivity.
Defined.


Lemma trigger_http_error_not_retried_witness :
  Discover._trigger_collection E_server_error example_filters empty_world
  = (Ret JNull,
     extend empty_world
       [EvPost example_filters;
        EvLog ERROR
          [Lit "HTTP error: "; IntV 500; Lit " - ";
           StrV "Internal Server Error"]]).
Proof.
  apply (trigger_http_error_not_retried E_server_error example_filters
           empty_world
           {| status_code := 500; text := "Internal Server Error";
              body := inr JNull |}).
  - reflexivity.
  - simpl. lia.
  - simpl. lia.
Defined.

Lemma trigger_connection_errors_witness :
  exists evs m,
    Discover._trigger_collection E_offline example_filters empty_world
    = (Ret JNull, extend empty_world evs)
    /\ count is_post evs = 3%nat
    /\ sleeps evs = [1; 1]
    /\ last evs = Some (EvLog ERROR m).
Proof.
  apply (trigger_connection_errors E_offline example_filters empty_world).
  intros k. exists "ConnectionError". reflexivity.
Defined.

Lemma trigger_recovers_after_rate_limit_witness :
  exists cr evs,
    Discover._trigger_collection E_throttled example_filters empty_world
    = (Ret cr, extend empty_world evs)
    /\ py_getitem cr "snapshot_id" = mret (JStr "abc123")
    /\ count is_post evs = 3%nat
    /\ sleeps evs = [2; 4].
Proof.
  apply (trigger_recovers_after_rate_limit E_throttled example_filters
           empty_world 2 (JStr "abc123")).
  - lia.
  - intros [|[|i]] Hi; [eexists; split; reflexivity ..|lia].
  - stub_reply.
Defined.

Lemma simple_trigger_single_attempt_witness :
  exists m,
    Properties._trigger_collection E_offline example_filters empty_world
    = (Ret JNull, extend empty_world [EvPost example_filters; EvLog ERROR m]).
Proof.
  apply (proj2 (simple_trigger_single_attempt E_offline example_filters
                  empty_world)).
  reflexivity.
Defined.

Lemma missing_status_keeps_polling_witness :
  fst (Discover._check_status E_no_status (JStr "abc123") empty_world)
  = Ret (JStr "unknown")
  /\ fst (Properties._check_status E_no_status (JStr "abc123") empty_world)
     = Ret JNull
  /\ (exists st' w',
        Discover.monitor_step E_no_status (JStr "abc123") 0 (JNull, [])
          empty_world = (Ret (Next st'), w')
        /\ polls w' = 1%nat
        /\ fetches w' = 0%nat)
  /\ (exists prev' w',
        Properties.poll_step E_no_status (JStr "abc123") 0 JNull empty_world
        = (Ret (Next prev'), w')
        /\ polls w' = 1%nat
        /\ fetches w' = 0%nat).
Proof.
  apply (missing_status_keeps_polling E_no_status (JStr "abc123") 0
           (JNull, []) JNull empty_world [("progress", JInt 40)]).
  - stub_reply.
  - reflexivity.
Defined.

Lemma unhashable_status_fails_discovery_run_witness :
  exists w',
    Discover.collect_properties E_status_list 5 example_filters "out.json"
      empty_world = (Ret false, w')
    /\ polls w' = 2%nat
    /\ fetches w' = 0%nat
    /\ writes w' = 0%nat
    /\ fs w' = ∅.
Proof.
  assert (observed (Discover._check_status E_status_list) 0
            ([JStr "running"] ++ [JArr [JStr "ready"]])
          /\ observed (Properties._check_status E_status_list) 0
               ([JStr "running"] ++ [JArr [JStr "ready"]])) as [Hd _].
  { apply observed_reports. stub_observed. }
  apply (unhashable_status_fails_discovery_run
           E_status_list 5 example_filters "out.json" (JStr "abc123")
           [JStr "running"] (JArr [JStr "ready"]) empty_world).
  - simpl. lia.
  - vm_compute. discriminate.
  - stub_reply.
  - by repeat constructor.
  - exact Hd.
  - reflexivity.
Defined.

Lemma missing_snapshot_id_fails_run_witness :
  (exists w',
     Discover.collect_properties E_no_job 5 example_filters "out.json"
       empty_world = (Ret false, w')
     /\ posts w' = 1%nat
     /\ polls w' = 0%nat
     /\ fs w' = ∅)
  /\ (exists w',
        Properties.collect_properties E_no_job 5 example_filters empty_world
        = (Ret None, w')
        /\ posts w' = 1%nat
        /\ polls w' = 0%nat
        /\ fs w' = ∅).
Proof.
  apply (missing_snapshot_id_fails_run E_no_job 5 example_filters "out.json"
           [("error", JStr "invalid dataset")] empty_world).
  - vm_compute. discriminate.
  - stub_reply.
  - reflexivity.
Defined.

Lemma save_plain_overwrite_witness :
  Discover._save_data E_success example_records "out.json" false stale_world
  = (Ret tt,
     {| fs := <["out.json" := dumps E_success example_records]>
                (fs stale_world);
        trace := trace stale_world ++ [EvOpenW "out.json"] |}).
Proof.
  apply (save_plain_overwrite E_success example_records "out.json" false
           stale_world).
  - left. reflexivity.
  - reflexivity.
Defined.

Lemma failed_write_after_backup_witness :
  exists w',
    Discover._save_data E_disk_full example_records "out.json" true
      stale_world = (Raise (OSError "ENOSPC"), w')
    /\ fs w' !! backup_name E_disk_full "out.json" stale_world = Some "old"
    /\ fs w' !! "out.json"
       = written (DumpFails (OSError "ENOSPC") 5)
           (dumps E_disk_full example_records) None
    /\ last (trace w')
       = Some (EvLog ERROR
                 [Lit "Failed to save data: "; ExcV (OSError "ENOSPC")]).
Proof.
  apply (failed_write_after_backup E_disk_full example_records "out.json"
           stale_world "old" (DumpFails (OSError "ENOSPC") 5)
           (OSError "ENOSPC")).
  - reflexivity.
  - reflexivity.
  - reflexivity.
  - reflexivity.
  - reflexivity.
Defined.

Lemma discovery_run_succeeds_witness :
  let bak := backup_at E_success "out.json" 5 in
  exists w',
    Discover.collect_properties E_success 5 example_filters "out.json"
      stale_world = (Ret true, w')
    /\ polls w' = 4%nat
    /\ fetches w' = 1%nat
    /\ writes w' = 1%nat
    /\ fs w' = saved (fs stale_world) "out.json" bak
                 (dumps E_success example_records)
    /\ fs w' !! "out.json" = Some (dumps E_success example_records)
    /\ (forall c, fs stale_world !! "out.json" = Some c ->
          fs w' !! bak = Some c)
    /\ (forall p, p <> "out.json" ->
          (p = bak -> fs stale_world !! "out.json" = None) ->
          fs w' !! p = fs stale_world !! p).
Proof.
  assert (observed (Discover._check_status E_success) 0
            ([JStr "queued"; JStr "running"; JStr "running"]
             ++ [JStr "ready"])
          /\ observed (Properties._check_status E_success) 0
               ([JStr "queued"; JStr "running"; JStr "running"]
                ++ [JStr "ready"])) as [Hd _].
  { apply observed_reports. stub_observed. }
  apply (discovery_run_succeeds E_success 5 example_filters "out.json"
           (JStr "abc123") [JStr "queued"; JStr "running"; JStr "running"]
           example_records stale_world).
  - simpl. lia.
  - vm_compute. discriminate.
  - stub_reply.
  - by repeat constructor.
  - exact Hd.
  - apply discover_fetched_answer. stub_reply.
  - reflexivity.
  - reflexivity.
  - reflexivity.
Defined.

Lemma simple_run_succeeds_witness :
  exists w',
    Properties.collect_properties E_success 5 example_filters empty_world
    = (Ret (Some true), w')
    /\ polls w' = 4%nat
    /\ fetches w' = 1%nat
    /\ fs w' !! "zillow_properties.json"
       = Some (dumps E_success example_records)
    /\ (forall p, p <> "zillow_properties.json" ->
          fs w' !! p = fs empty_world !! p).
Proof.
  assert (observed (Discover._check_status E_success) 0
            ([JStr "queued"; JStr "running"; JStr "running"]
             ++ [JStr "ready"])
          /\ observed (Properties._check_status E_success) 0
               ([JStr "queued"; JStr "running"; JStr "running"]
                ++ [JStr "ready"])) as [_ Hp].
  { apply observed_reports. stub_observed. }
  apply (simple_run_succeeds E_success 5 example_filters (JStr "abc123")
           [JStr "queued"; JStr "running"; JStr "running"]
           example_records empty_world).
  - simpl. lia.
  - stub_reply.
  - by repeat constructor.
  - exact Hp.
  - apply properties_fetched_answer. stub_reply.
  - reflexivity.
  - reflexivity.
Defined.

Lemma simple_run_ignores_failed_write_witness :
  exists w',
    Properties.collect_properties E_disk_full 5 example_filters stale_world
    = (Ret (Some true), w')
    /\ writes w' = 1%nat
    /\ fs w' !! "zillow_properties.json"
       = written (DumpFails (OSError "ENOSPC") 5)
           (dumps E_disk_full example_records)
           (fs stale_world !! "zillow_properties.json")
    /\ (forall p, p <> "zillow_properties.json" ->
          fs w' !! p = fs stale_world !! p).
Proof.
  assert (observed (Discover._check_status E_disk_full) 0
            ([JStr "queued"; JStr "running"; JStr "running"]
             ++ [JStr "ready"])
          /\ observed (Properties._check_status E_disk_full) 0
               ([JStr "queued"; JStr "running"; JStr "running"]
                ++ [JStr "ready"])) as [_ Hp].
  { apply observed_reports. stub_observed. }
  apply (simple_run_ignores_failed_write E_disk_full 5 example_filters
           (JStr "abc123") [JStr "queued"; JStr "running"; JStr "running"]
           example_records stale_world (DumpFails (OSError "ENOSPC") 5)).
  - simpl. lia.
  - stub_reply.
  - by repeat constructor.
  - exact Hp.
  - apply properties_fetched_answer. stub_reply.
  - reflexivity.
  - reflexivity.
  - discriminate.
Defined.

Lemma simple_run_never_returns_false_witness :
  Properties.collect_properties E_failed 5 example_filters empty_world
  <> (Ret (Some false), empty_world).
Proof.
  apply (simple_run_never_returns_false E_failed 5 example_filters
           empty_world empty_world).
Defined.

Lemma parse_succeeds_iff_well_nested_witness :
  PropertyData.parse_property_data (JObj unlocated_listing) empty_world
  = (Raise (AttributeError "get"), empty_world).
Proof.
  apply (proj2 (parse_succeeds_iff_well_nested (JObj unlocated_listing)
                  empty_world)).
  reflexivity.
Defined.

Lemma parse_reads_fields_witness :
  PropertyData.parse_property_data (JObj example_listing) empty_world
  = (Ret (parsed_record example_listing), empty_world).
Proof.
  apply (parse_reads_fields example_listing empty_world). reflexivity.
Defined.

Lemma process_page_of_listings_witness :
  PropertyData.process_api_response
    (JObj (search_response [JObj example_listing; JObj bare_listing])) 2
    empty_world
  = (Ret (JObj [
       ("page_number", JInt 2);
       ("total_results", JInt 1872);
       ("properties",
        JArr [parsed_record example_listing; parsed_record bare_listing])]),
     empty_world).
Proof.
  apply (process_page_of_listings
           (search_response [JObj example_listing; JObj bare_listing]) 2
           [example_listing; bare_listing] empty_world).
  - reflexivity.
  - reflexivity.
  - repeat constructor.
Defined.

Lemma process_bad_listing_fails_page_witness :
  PropertyData.process_api_response
    (JObj (search_response [JObj example_listing; JObj unlocated_listing])) 1
    empty_world
  = (Raise (AttributeError "get"), empty_world).
Proof.
  apply (process_bad_listing_fails_page
           (search_response [JObj example_listing; JObj unlocated_listing]) 1
           [JObj example_listing; JObj unlocated_listing] empty_world).
  - reflexivity.
  - reflexivity.
  - right. left. reflexivity.
Defined.

Lemma monitor_pace_witness :
  exists r evs,
    Discover._monitor_collection E_failed 5 (JStr "abc123") 0 empty_world
    = (r, extend empty_world evs)
    /\ r <> Pending
    /\ count is_progress evs = 2%nat
    /\ sleeps evs = [5].
Proof.
  assert (observed (Discover._check_status E_failed) 0
            ([JStr "queued"] ++ [JStr "failed"])
          /\ observed (Properties._check_status E_failed) 0
               ([JStr "queued"] ++ [JStr "failed"])) as [Hd _].
  { apply observed_reports. stub_observed. }
  apply (monitor_pace E_failed 5 (JStr "abc123") 0 [JStr "queued"]
           (JStr "failed") empty_world).
  - simpl. lia.
  - by repeat constructor.
  - exact Hd.
  - reflexivity.
Defined.

Lemma exception_boundary_witness :
  (exists w',
     Discover.collect_properties E_malformed 4 example_filters "out.json"
       empty_world
     = (Ret false, extend w' [unexpected_line (AttributeError "get")]))
  /\ (exists data,
        answers (snapshot_reply E_success (fetches empty_world)) data
        /\ truthy data = true
        /\ fs (snd (Discover.collect_properties E_success 10 example_filters
                      "out.json" empty_world)) !! "out.json"
           = Some (dumps E_success data))
  /\ fst (Properties.collect_properties E_malformed 4 example_filters
            empty_world)
     = Raise (AttributeError "get").
Proof.
  split; [|split].
  - destruct (exception_boundary_of_collectors E_malformed
                (fun fs => mret (Discover._clean_filters fs))
                (Discover._trigger_collection E_malformed)
                (Discover._monitor_collection E_malformed 4)
                (fun data filename =>
                   Discover._save_data E_malformed data filename true)
                4 example_filters "out.json" example_filters empty_world)
      as (_ & _ & _ & _ & _ & _ & H & _).
    eexists.
    eapply (H (Discover._clean_filters example_filters) _
             (JObj [("snapshot_id", JStr "abc123")]) _ (JStr "abc123")).
    + reflexivity.
    + vm_compute. discriminate.
    + vm_compute. reflexivity.
    + reflexivity.
    + reflexivity.
    + reflexivity.
    + vm_compute. reflexivity.
  - destruct (exception_boundary_of_collectors E_success
                (fun fs => mret (Discover._clean_filters fs))
                (Discover._trigger_collection E_success)
                (Discover._monitor_collection E_success 10)
                (fun data filename =>
                   Discover._save_data E_success data filename true)
                10 example_filters "out.json" example_filters empty_world)
      as (_ & _ & _ & _ & _ & _ & _ & _ & _ & H & _).
    apply H. vm_compute. reflexivity.
  - destruct (exception_boundary_of_collectors E_malformed
                (fun fs => mret (Discover._clean_filters fs))
                (Discover._trigger_collection E_malformed)
                (Discover._monitor_collection E_malformed 4)
                (fun data filename =>
                   Discover._save_data E_malformed data filename true)
                4 example_filters "out.json" example_filters empty_world)
      as (_ & _ & _ & _ & _ & _ & _ & _ & _ & _ & _ & _ & _ & _ & H & _).
    apply (H (JStr "abc123") [] (AttributeError "get")).
    + simpl. lia.
    + stub_reply.
    + constructor.
    + intros i s sid w0 H0. discriminate H0.
    + intros sid w0 _. reflexivity.
Defined.
